(** * wg-web-ui backend: session cache, traffic history, peer synchronisation

    A shallow embedding of [backend/app/wg_easy_client.py] and of the two
    reconciliation handlers of [backend/app/main.py]
    ([import_clients_from_server], [attach_user_to_all_servers]), followed by
    the properties of the specification that concern them.

    Conventions.
    - A naive UTC [datetime] is an integer number of microseconds since the
      epoch (the resolution of Python's [datetime]); a [timedelta] is a number
      of microseconds.
    - Python [int] is [Z]; [Optional[T]] is [option T]; [str] is [string].
    - The global dict [TRAFFIC_HISTORY] is a [gmap Z (list TrafficSample)]. *)

From Stdlib Require Import ZArith String Ascii List Bool Lia Sorted.
From stdpp Require Import base option list gmap strings pretty.

Local Open Scope Z_scope.

(** ** Time *)

Abbreviation datetime := Z (only parsing).

Definition timedelta_seconds (n : Z) : Z := n * 1000000.
Definition timedelta_days (n : Z) : Z := n * 86400 * 1000000.

(** ** Traffic history store ([wg_easy_client.py], lines 27-87) *)

Module Traffic.

Record TrafficSample := mkSample {
  ts : datetime;
  total_rx : Z;
  total_tx : Z;
}.

#[global] Instance TrafficSample_eq_dec : EqDecision TrafficSample.
Proof. solve_decision. Defined.

(** Python's [min] and [max] over a generator of ints: [None] stands for the
    [ValueError] raised on an empty sequence. *)
Definition py_min (l : list Z) : option Z :=
  match l with
  | [] => None
  | x :: r => Some (foldl (fun acc y => if Z.ltb y acc then y else acc) x r)
  end.

Definition py_max (l : list Z) : option Z :=
  match l with
  | [] => None
  | x :: r => Some (foldl (fun acc y => if Z.ltb acc y then y else acc) x r)
  end.

(** [record_traffic_snapshot]: [now] is the value read from
    [datetime.utcnow()] on entry. *)
Definition record_traffic_snapshot (now : datetime)
    (server_id rx tx : Z) (TRAFFIC_HISTORY : gmap Z (list TrafficSample))
    : gmap Z (list TrafficSample) :=
  let history := default [] (TRAFFIC_HISTORY !! server_id) in
  let history := history ++ [mkSample now rx tx] in
  let cutoff := now - timedelta_days 7 in
  <[server_id := filter (fun h => cutoff <= ts h) history]> TRAFFIC_HISTORY.

(** [get_traffic_delta_for_period]; the result is [None] only if [min] or
    [max] raises. *)
Definition get_traffic_delta_for_period (now : datetime)
    (server_id period_seconds : Z) (TRAFFIC_HISTORY : gmap Z (list TrafficSample))
    : option (Z * Z) :=
  let history := default [] (TRAFFIC_HISTORY !! server_id) in
  if bool_decide (history = []) then Some (0, 0) else
  let cutoff := now - timedelta_seconds period_seconds in
  let window := filter (fun h => cutoff <= ts h) history in
  if bool_decide (length window < 2)%nat then Some (0, 0) else
  min_rx ← py_min (total_rx <$> window);
  max_rx ← py_max (total_rx <$> window);
  min_tx ← py_min (total_tx <$> window);
  max_tx ← py_max (total_tx <$> window);
  Some (Z.max 0 (max_rx - min_rx), Z.max 0 (max_tx - min_tx)).

(** [get_traffic_history]: the samples of the window, as the dicts that the
    route returns, without the ISO rendering of the timestamp. *)
Definition get_traffic_history (now : datetime)
    (server_id period_seconds : Z) (TRAFFIC_HISTORY : gmap Z (list TrafficSample))
    : list TrafficSample :=
  let history := default [] (TRAFFIC_HISTORY !! server_id) in
  let cutoff := now - timedelta_seconds period_seconds in
  filter (fun sample => cutoff <= ts sample) history.

(** The samples that the window query selects. *)
Definition window_of (now : datetime) (server_id period_seconds : Z)
    (TRAFFIC_HISTORY : gmap Z (list TrafficSample)) : list TrafficSample :=
  filter (fun h => now - timedelta_seconds period_seconds <= ts h)
         (default [] (TRAFFIC_HISTORY !! server_id)).

End Traffic.

(** ** Python strings *)

Module PyStr.

(** Truth value of a [str]: the empty string is false. *)
Definition truthy (s : string) : bool :=
  match s with
  | EmptyString => false
  | String _ _ => true
  end.

(** Truth value of an [Optional[str]]. *)
Definition truthy_opt (o : option string) : bool :=
  match o with
  | Some s => truthy s
  | None => false
  end.

(** [a or b] on optional strings. *)
Definition or_else (a b : option string) : option string :=
  if truthy_opt a then a else b.

Fixpoint drop (n : nat) (s : string) : string :=
  match n, s with
  | O, _ => s
  | S _, EmptyString => EmptyString
  | S k, String _ r => drop k r
  end.

(** First occurrence of a non-empty [sep] in [s]: the text before it and the
    text after it ([str.partition] without the separator). *)
Fixpoint split_once (sep s : string) : option (string * string) :=
  if String.prefix sep s then Some (EmptyString, drop (String.length sep) s)
  else match s with
       | EmptyString => None
       | String c r =>
           match split_once sep r with
           | Some (a, b) => Some (String c a, b)
           | None => None
           end
       end.

(** [s.split(sep, 1)] for a non-empty [sep]. *)
Definition split1 (sep s : string) : list string :=
  match split_once sep s with
  | Some (a, b) => [a; b]
  | None => [s]
  end.

(** [sub in s] for a non-empty [sub]. *)
Definition contains (sub s : string) : bool :=
  match split_once sub s with
  | Some _ => true
  | None => false
  end.

(** [s.rstrip('/')]. *)
Fixpoint rstrip_slash (s : string) : string :=
  match s with
  | EmptyString => EmptyString
  | String c r =>
      match rstrip_slash r with
      | EmptyString => if Ascii.eqb c "/" then EmptyString else String c EmptyString
      | r' => String c r'
      end
  end.

(** [s.endswith(suf)]. *)
Definition endswith (suf s : string) : bool :=
  let n := String.length suf in
  let m := String.length s in
  (n <=? m)%nat && String.eqb (drop (m - n) s) suf.

(** [s.replace(old, new)] for a non-empty [old]: occurrences are replaced
    from left to right without overlap; [skip] counts the characters of a
    matched occurrence that are still to be consumed. *)
Fixpoint replace_from (skip : nat) (old new s : string) : string :=
  match s with
  | EmptyString => EmptyString
  | String c r =>
      match skip with
      | S k => replace_from k old new r
      | O =>
          if String.prefix old s
          then new +:+ replace_from (String.length old - 1) old new r
          else String c (replace_from 0 old new r)
      end
  end.

Definition replace (old new s : string) : string := replace_from 0 old new s.

End PyStr.

(** ** JSON values, as [resp.json()] and the [json=] argument carry them.
    Numbers are integers; a dict is its list of items, keys distinct. *)

#[warnings="-register-all"]
Inductive JSON :=
  | JNull
  | JBool (b : bool)
  | JInt (n : Z)
  | JStr (s : string)
  | JList (l : list JSON)
  | JDict (d : list (string * JSON)).

Module Json.

(** Truth value of a Python object decoded from JSON. *)
Definition truthy (j : JSON) : bool :=
  match j with
  | JNull => false
  | JBool b => b
  | JInt n => negb (n =? 0)
  | JStr s => PyStr.truthy s
  | JList l => match l with [] => false | _ => true end
  | JDict d => match d with [] => false | _ => true end
  end.

(** [d.get(k)] / [d[k]] on the items of a dict. *)
Fixpoint lookup (k : string) (d : list (string * JSON)) : option JSON :=
  match d with
  | [] => None
  | (k', v) :: r => if String.eqb k k' then Some v else lookup k r
  end.

End Json.

(** ** HTTP exchange with a remote appliance ([httpx]) *)

Record HttpRequest := mkRequest {
  rq_method : string;
  rq_url : string;
  rq_json : option JSON;                  (* the [json=] body, if any *)
  rq_headers : list (string * string);
}.

Record HttpResponse := mkResponse {
  status_code : Z;
  headers_get : string -> option string;  (* [resp.headers.get] *)
  text : string;
  json : option JSON;                     (* [None]: [resp.json()] raises *)
}.

(** What [await client.post(...)] does: raise an exception [e], given here by
    [str(e)], or return a response. *)
Inductive HttpOutcome :=
  | Raised (e : string)
  | Responded (resp : HttpResponse).

(** ** ORM models ([models.py]) and the gateway's peer record.
    The columns [created_at], and the surrogate key of a binding, are filled
    in by the database on insert and read by none of the functions below;
    they are left out. *)

Module WgServer.
Record t := mk {
  id : Z;
  name : string;
  base_url : string;
  username : string;
  password : string;
  last_status_ok : bool;
  last_checked_at : option datetime;
  last_error : option string;
  session_cookie : option string;
  session_expires_at : option datetime;
}.

(** Attribute assignments [server.f = v]. *)
Definition set_last_status_ok (v : bool) (s : t) : t :=
  mk (id s) (name s) (base_url s) (username s) (password s)
     v (last_checked_at s) (last_error s) (session_cookie s) (session_expires_at s).
Definition set_last_checked_at (v : option datetime) (s : t) : t :=
  mk (id s) (name s) (base_url s) (username s) (password s)
     (last_status_ok s) v (last_error s) (session_cookie s) (session_expires_at s).
Definition set_last_error (v : option string) (s : t) : t :=
  mk (id s) (name s) (base_url s) (username s) (password s)
     (last_status_ok s) (last_checked_at s) v (session_cookie s) (session_expires_at s).
Definition set_session_cookie (v : option string) (s : t) : t :=
  mk (id s) (name s) (base_url s) (username s) (password s)
     (last_status_ok s) (last_checked_at s) (last_error s) v (session_expires_at s).
Definition set_session_expires_at (v : option datetime) (s : t) : t :=
  mk (id s) (name s) (base_url s) (username s) (password s)
     (last_status_ok s) (last_checked_at s) (last_error s) (session_cookie s) v.
End WgServer.

Module LogicalUser.
Record t := mk {
  id : Z;
  name : string;
  note : option string;
}.
End LogicalUser.

Module UserServerBinding.
Record t := mk {
  logical_user_id : Z;
  server_id : Z;
  wg_client_id : Z;
  wg_client_name : string;
  expires_at : option datetime;
}.
End UserServerBinding.

Module WgClientInfo.
Record t := mk {
  id : Z;
  name : string;
  expires_at : option datetime;
  transfer_rx : Z;
  transfer_tx : Z;
  enabled : option bool;
  is_active : bool;
}.
End WgClientInfo.

(** ** The world a request handler runs in *)

(** The SQLAlchemy session ([autocommit=False, autoflush=False], see
    [database.py]) over the database, the requests sent so far and the
    number of clock readings.  A query reads the rows of the database; an
    object passed to [db.add] stays in [w_pending] until the next
    [db.flush()] or [db.commit()] and is not seen by queries before that. *)
Record World := mkWorld {
  w_ticks : nat;                               (* calls of [datetime.utcnow()] *)
  w_sent : list HttpRequest;                   (* oldest first *)
  w_servers : list WgServer.t;                 (* table [wg_servers] *)
  w_users : list LogicalUser.t;                (* table [logical_users] *)
  w_bindings : list UserServerBinding.t;       (* table [user_server_bindings] *)
  w_pending : list UserServerBinding.t;        (* added, not yet flushed *)
  w_user_seq : Z;                              (* last id of [logical_users] *)
  w_commits : nat;                             (* calls of [db.commit()] *)
}.

(** Exceptions that leave a handler. *)
Inductive Exn :=
  | HTTPException (status : Z) (detail : string)
  | PyError (kind : string).

Inductive Result (A : Type) :=
  | Ok (a : A) (w : World)
  | Exc (e : Exn) (w : World).
Arguments Ok {A} a w.
Arguments Exc {A} e w.

Definition M (A : Type) : Type := World -> Result A.

Definition ret {A} (a : A) : M A := fun w => Ok a w.

Definition bind {A B} (m : M A) (k : A -> M B) : M B :=
  fun w => match m w with
           | Ok a w' => k a w'
           | Exc e w' => Exc e w'
           end.

Definition raise {A} (e : Exn) : M A := fun w => Exc e w.

#[global] Instance M_ret : MRet M := @ret.
#[global] Instance M_bind : MBind M := fun A B k m => bind m k.

(** [db.flush()]: the pending bindings become rows. *)
Definition db_flush : M unit := fun w =>
  Ok tt (mkWorld (w_ticks w) (w_sent w) (w_servers w) (w_users w)
           (w_bindings w ++ w_pending w) [] (w_user_seq w) (w_commits w)).

(** [db.commit()]: flush, then commit. *)
Definition db_commit : M unit := fun w =>
  Ok tt (mkWorld (w_ticks w) (w_sent w) (w_servers w) (w_users w)
           (w_bindings w ++ w_pending w) [] (w_user_seq w) (S (w_commits w))).

(** [db.add(binding)]. *)
Definition db_add_binding (b : UserServerBinding.t) : M unit := fun w =>
  Ok tt (mkWorld (w_ticks w) (w_sent w) (w_servers w) (w_users w)
           (w_bindings w) (w_pending w ++ [b]) (w_user_seq w) (w_commits w)).

(** [u = LogicalUser(name=n); db.add(u); db.flush()]: the row is inserted with
    the next id of the sequence, which [u.id] then reads; the flush also
    writes every pending binding. *)
Definition db_add_user_flush (n : string) : M LogicalUser.t := fun w =>
  let u := LogicalUser.mk (w_user_seq w + 1) n None in
  Ok u (mkWorld (w_ticks w) (w_sent w) (w_servers w) (w_users w ++ [u])
          (w_bindings w ++ w_pending w) [] (w_user_seq w + 1) (w_commits w)).

(** [db.query(UserServerBinding).filter(...).first()]. *)
Definition db_first_binding (p : UserServerBinding.t -> bool)
    : M (option UserServerBinding.t) := fun w =>
  Ok (List.find p (w_bindings w)) w.

Definition db_first_server (p : WgServer.t -> bool) : M (option WgServer.t) :=
  fun w => Ok (List.find p (w_servers w)) w.

Definition db_first_user (p : LogicalUser.t -> bool) : M (option LogicalUser.t) :=
  fun w => Ok (List.find p (w_users w)) w.

Definition db_all_servers : M (list WgServer.t) := fun w => Ok (w_servers w) w.

(** [db.add(server)] for a loaded row: the attributes of the object are what
    the row holds from the next commit on; the row with its primary key is
    replaced by the object. *)
Definition db_add_server (s : WgServer.t) : M unit := fun w =>
  Ok tt (mkWorld (w_ticks w) (w_sent w)
           ((fun r => if WgServer.id r =? WgServer.id s then s else r) <$> w_servers w)
           (w_users w) (w_bindings w) (w_pending w) (w_user_seq w) (w_commits w)).

(** ** Session cache and remote gateway ([wg_easy_client.py], lines 90-229) *)

Definition SESSION_LIFETIME_SECONDS : Z := 3600.

Section Gateway.

(** The environment: the clock ([utcnow k] is the value of the [k]-th call of
    [datetime.utcnow()]), the network ([http k rq] is what the [k]-th request
    does when it is [rq]), and two library functions:
    [dt.replace(tzinfo=timezone.utc).isoformat()] and [int(s)] on a [str]
    ([None] when it raises [ValueError]). *)
Variable utcnow : nat -> datetime.
Variable http : nat -> HttpRequest -> HttpOutcome.
Variable isoformat_utc : datetime -> string.
Variable int_of_str : string -> option Z.

Definition datetime_utcnow : M datetime := fun w =>
  Ok (utcnow (w_ticks w))
     (mkWorld (S (w_ticks w)) (w_sent w) (w_servers w) (w_users w)
        (w_bindings w) (w_pending w) (w_user_seq w) (w_commits w)).

(** One request through [httpx.AsyncClient(timeout=10)]. *)
Definition http_send (rq : HttpRequest) : M HttpOutcome := fun w =>
  Ok (http (length (w_sent w)) rq)
     (mkWorld (w_ticks w) (w_sent w ++ [rq]) (w_servers w) (w_users w)
        (w_bindings w) (w_pending w) (w_user_seq w) (w_commits w)).

(** [int(x)] on a decoded JSON value. *)
Definition py_int (j : JSON) : option Z :=
  match j with
  | JInt n => Some n
  | JBool b => Some (if b then 1 else 0)
  | JStr s => int_of_str s
  | _ => None
  end.

(** The test of lines 98-100: a cached cookie that is still good for more
    than a minute. *)
Definition cached_session (now : datetime) (server : WgServer.t) : option string :=
  match WgServer.session_cookie server, WgServer.session_expires_at server with
  | Some c, Some e =>
      if PyStr.truthy c && (now + timedelta_seconds 60 <? e) then Some c else None
  | _, _ => None
  end.

Definition login_request (server : WgServer.t) : HttpRequest :=
  mkRequest "POST"
    (PyStr.rstrip_slash (WgServer.base_url server) +:+ "/api/session")
    (Some (JDict [("username", JStr (WgServer.username server));
                  ("password", JStr (WgServer.password server));
                  ("remember", JBool true)]))
    [].

(** [resp.headers.get("set-cookie") or resp.headers.get("Set-Cookie")]. *)
Definition set_cookie_header (resp : HttpResponse) : option string :=
  PyStr.or_else (headers_get resp "set-cookie") (headers_get resp "Set-Cookie").

(** [set_cookie.split("wg-easy=", 1)[1].split(";", 1)[0]]; [None] stands for
    the [IndexError] of an index out of range. *)
Definition extract_cookie (set_cookie : string) : option string :=
  PyStr.split1 "wg-easy=" set_cookie !! 1%nat
    ≫= (fun t => PyStr.split1 ";" t !! 0%nat).

(** The three assignments and the commit shared by the failure branches. *)
Definition mark_failed (now : datetime) (err : string) (server : WgServer.t)
    : M WgServer.t :=
  let server := WgServer.set_last_status_ok false server in
  let server := WgServer.set_last_error (Some err) server in
  let server := WgServer.set_last_checked_at (Some now) server in
  db_add_server server;;
  db_commit;;
  mret server.

(** [_ensure_session_cookie(db, server)]: returns
    [(cookie_value, error_message)] and the server object as it leaves it. *)
Definition _ensure_session_cookie (server : WgServer.t)
    : M ((option string * option string) * WgServer.t) :=
  now ← datetime_utcnow;
  match cached_session now server with
  | Some c => mret ((Some c, None), server)
  | None =>
      out ← http_send (login_request server);
      match out with
      | Raised e =>
          server ← mark_failed now e server;
          mret ((None, Some ("Login request failed: " +:+ e)), server)
      | Responded resp =>
          if negb (status_code resp =? 200) then
            server ← mark_failed now
              ("Login failed with status " +:+ pretty (status_code resp)) server;
            mret ((None, WgServer.last_error server), server)
          else
            let set_cookie := set_cookie_header resp in
            if negb (PyStr.truthy_opt set_cookie)
               || negb (PyStr.contains "wg-easy=" (default "" set_cookie)) then
              server ← mark_failed now "wg-easy cookie not found in response" server;
              mret ((None, WgServer.last_error server), server)
            else
              match extract_cookie (default "" set_cookie) with
              | None => raise (PyError "IndexError")
              | Some cookie_value =>
                  let server := WgServer.set_session_cookie (Some cookie_value) server in
                  let server := WgServer.set_session_expires_at
                      (Some (now + timedelta_seconds SESSION_LIFETIME_SECONDS)) server in
                  let server := WgServer.set_last_status_ok true server in
                  let server := WgServer.set_last_error None server in
                  let server := WgServer.set_last_checked_at (Some now) server in
                  db_add_server server;;
                  db_commit;;
                  mret ((Some cookie_value, None), server)
              end
      end
  end.

(** The payload of lines 199-205: [expiresAt] is always a key of the dict,
    [None] unless a date is given. *)
Definition create_payload (name : string) (expires_at : option datetime) : JSON :=
  JDict [("name", JStr name);
         ("expiresAt",
          match expires_at with
          | None => JNull
          | Some d =>
              let iso := isoformat_utc d in
              let iso := if PyStr.endswith "+00:00" iso
                         then PyStr.replace "+00:00" "Z" iso else iso in
              JStr iso
          end)].

Definition create_request (server : WgServer.t) (cookie name : string)
    (expires_at : option datetime) : HttpRequest :=
  mkRequest "POST"
    (PyStr.rstrip_slash (WgServer.base_url server) +:+ "/api/client")
    (Some (create_payload name expires_at))
    [("accept", "application/json");
     ("content-type", "application/json");
     ("cookie", "wg-easy=" +:+ cookie)].

(** [create_client(db, server, name, expires_at)]: returns
    [(client_id, error_message)] and the server object as it leaves it. *)
Definition create_client (server : WgServer.t) (name : string)
    (expires_at : option datetime)
    : M ((option Z * option string) * WgServer.t) :=
  '((cookie, error), server) ← _ensure_session_cookie server;
  if PyStr.truthy_opt error || negb (PyStr.truthy_opt cookie) then
    mret ((None, PyStr.or_else error (Some "No cookie")), server)
  else
    out ← http_send (create_request server (default "" cookie) name expires_at);
    match out with
    | Raised e => mret ((None, Some e), server)
    | Responded resp =>
        if negb (status_code resp =? 200) then
          mret ((None, Some ("create client failed with status "
                             +:+ pretty (status_code resp) +:+ ": " +:+ text resp)),
                server)
        else
          match json resp with
          | None => raise (PyError "JSONDecodeError")
          | Some (JDict data) =>
              if negb (default false (Json.truthy <$> Json.lookup "success" data)) then
                mret ((None, Some "wg-easy did not return success"), server)
              else
                match Json.lookup "clientId" data with
                | None => raise (PyError "KeyError")
                | Some v =>
                    match py_int v with
                    | None => raise (PyError "TypeError")
                    | Some n => mret ((Some n, None), server)
                    end
                end
          | Some _ => raise (PyError "AttributeError")
          end
    end.

(** ** Peer synchronisation ([main.py], lines 359-416 and 673-733) *)

Record ImportResponse := mkImportResponse {
  imp_success : bool;
  created_users : Z;
  created_bindings : Z;
  total_clients_on_server : Z;
}.

(** The loop of [import_clients_from_server] over the listed peers, with the
    two counters. *)
Fixpoint import_loop (server : WgServer.t) (clients : list WgClientInfo.t)
    (users bindings : Z) : M (Z * Z) :=
  match clients with
  | [] => mret (users, bindings)
  | c :: rest =>
      existing_binding ← db_first_binding (fun b =>
        (UserServerBinding.server_id b =? WgServer.id server)
        && (UserServerBinding.wg_client_id b =? WgClientInfo.id c));
      match existing_binding with
      | Some _ => import_loop server rest users bindings
      | None =>
          logical_user ← db_add_user_flush (WgClientInfo.name c);
          let users := users + 1 in
          let binding := UserServerBinding.mk
                (LogicalUser.id logical_user) (WgServer.id server)
                (WgClientInfo.id c) (WgClientInfo.name c)
                (WgClientInfo.expires_at c) in
          db_add_binding binding;;
          let bindings := bindings + 1 in
          import_loop server rest users bindings
      end
  end.

(** [import_clients_from_server]: [listed] is the value of
    [await list_clients(db, server)], a pair [(clients, error)]. *)
Definition import_clients_from_server (server_id : Z)
    (listed : option (list WgClientInfo.t) * option string) : M ImportResponse :=
  server ← db_first_server (fun s => WgServer.id s =? server_id);
  match server with
  | None => raise (HTTPException 404 "Server not found")
  | Some server =>
      let '(clients, error) := listed in
      match (if PyStr.truthy_opt error then None else clients) with
      | None =>
          raise (HTTPException 400
                   (default "" (PyStr.or_else error (Some "Failed to list clients"))))
      | Some clients =>
          '(users, bindings) ← import_loop server clients 0 0;
          db_commit;;
          mret (mkImportResponse true users bindings (Z.of_nat (length clients)))
      end
  end.

Record MassAttachResponse := mkMassAttachResponse {
  att_success : bool;
  created : Z;
  skipped : Z;
  errors : list (string * string);          (* [{"server": _, "error": _}] *)
}.

(** The loop of [attach_user_to_all_servers] over the servers. *)
Fixpoint attach_loop (user : LogicalUser.t) (expires_at : option datetime)
    (servers : list WgServer.t) (created skipped : Z)
    (errors : list (string * string)) : M (Z * Z * list (string * string)) :=
  match servers with
  | [] => mret (created, skipped, errors)
  | server :: rest =>
      existing ← db_first_binding (fun b =>
        (UserServerBinding.logical_user_id b =? LogicalUser.id user)
        && (UserServerBinding.server_id b =? WgServer.id server));
      match existing with
      | Some _ => attach_loop user expires_at rest created (skipped + 1) errors
      | None =>
          let client_name := LogicalUser.name user in
          '((client_id, error), server) ← create_client server client_name expires_at;
          match (if PyStr.truthy_opt error then None else client_id) with
          | None =>
              let errors := errors ++
                [(WgServer.name server,
                  default "" (PyStr.or_else error (Some "Failed to create client")))] in
              attach_loop user expires_at rest created skipped errors
          | Some client_id =>
              let binding := UserServerBinding.mk
                    (LogicalUser.id user) (WgServer.id server)
                    client_id client_name expires_at in
              db_add_binding binding;;
              attach_loop user expires_at rest (created + 1) skipped errors
          end
      end
  end.

(** [attach_user_to_all_servers]: [expires_at] is [payload.expires_at]. *)
Definition attach_user_to_all_servers (user_id : Z)
    (expires_at : option datetime) : M MassAttachResponse :=
  user ← db_first_user (fun u => LogicalUser.id u =? user_id);
  match user with
  | None => raise (HTTPException 404 "User not found")
  | Some user =>
      servers ← db_all_servers;
      match servers with
      | [] => mret (mkMassAttachResponse true 0 0 [])
      | _ =>
          '(created, skipped, errors) ← attach_loop user expires_at servers 0 0 [];
          db_commit;;
          mret (mkMassAttachResponse true created skipped errors)
      end
  end.

End Gateway.

(** ** Vocabulary of the statements *)

(** The world after one reading of the clock and nothing else. *)
Definition after_clock (w : World) : World :=
  mkWorld (S (w_ticks w)) (w_sent w) (w_servers w) (w_users w)
    (w_bindings w) (w_pending w) (w_user_seq w) (w_commits w).

(** The world after a login exchange that ends in a commit of [server]:
    one clock reading, one request, the server row replaced, whatever was
    pending flushed, one commit. *)
Definition after_login (rq : HttpRequest) (server : WgServer.t) (w : World) : World :=
  mkWorld (S (w_ticks w)) (w_sent w ++ [rq])
    ((fun r => if WgServer.id r =? WgServer.id server then server else r) <$> w_servers w)
    (w_users w) (w_bindings w ++ w_pending w) [] (w_user_seq w) (S (w_commits w)).

(** The server object after a failed, and after a successful, refresh. *)
Definition unhealthy (now : datetime) (reason : string) (s : WgServer.t) : WgServer.t :=
  WgServer.set_last_checked_at (Some now)
    (WgServer.set_last_error (Some reason)
       (WgServer.set_last_status_ok false s)).

Definition refreshed (now : datetime) (cookie : string) (s : WgServer.t) : WgServer.t :=
  WgServer.set_last_checked_at (Some now)
    (WgServer.set_last_error None
       (WgServer.set_last_status_ok true
          (WgServer.set_session_expires_at
             (Some (now + timedelta_seconds SESSION_LIFETIME_SECONDS))
             (WgServer.set_session_cookie (Some cookie) s)))).

(** The three ways a login exchange fails, with the reason recorded on the
    server and the error message handed to the caller. *)
Inductive LoginFailure : HttpOutcome -> string -> string -> Prop :=
  | Transport_failure (e : string) :
      LoginFailure (Raised e) e ("Login request failed: " +:+ e)
  | Non_success_status (resp : HttpResponse) :
      status_code resp <> 200 ->
      LoginFailure (Responded resp)
        ("Login failed with status " +:+ pretty (status_code resp))
        ("Login failed with status " +:+ pretty (status_code resp))
  | Missing_credential (resp : HttpResponse) :
      status_code resp = 200 ->
      PyStr.truthy_opt (set_cookie_header resp) = false
      \/ PyStr.contains "wg-easy=" (default "" (set_cookie_header resp)) = false ->
      LoginFailure (Responded resp)
        "wg-easy cookie not found in response"
        "wg-easy cookie not found in response".

(** A login exchange that succeeds: status 200 and a [Set-Cookie] header that
    carries the [wg-easy] cookie. *)
Definition LoginSuccess (out : HttpOutcome) (set_cookie : string) : Prop :=
  exists resp,
    out = Responded resp /\ status_code resp = 200 /\
    set_cookie_header resp = Some set_cookie /\
    PyStr.truthy set_cookie = true /\
    PyStr.contains "wg-easy=" set_cookie = true.

(** The lifecycle sentence read literally: a refresh that the remote turns
    down with 401 leaves both session fields empty. *)
Definition cleared_on_rejection : Prop :=
  forall (utcnow : nat -> datetime) (http : nat -> HttpRequest -> HttpOutcome)
         (server : WgServer.t) (w : World) (resp : HttpResponse) r server' w',
    cached_session (utcnow (w_ticks w)) server = None ->
    http (length (w_sent w)) (login_request server) = Responded resp ->
    status_code resp = 401 ->
    _ensure_session_cookie utcnow http server w = Ok (r, server') w' ->
    WgServer.session_cookie server' = None /\
    WgServer.session_expires_at server' = None.

(** The world in which a run ends, whether it returns or raises. *)
Definition final_world {A} (r : Result A) : World :=
  match r with
  | Ok _ w => w
  | Exc _ w => w
  end.

(** The [success] flag of a response body, read as the code reads it
    ([data.get("success")] and its truth value), and the [clientId] it
    carries. *)
Definition success_flag (data : list (string * JSON)) : bool :=
  default false (Json.truthy <$> Json.lookup "success" data).

(** Every binding the session knows of: the rows and what is still pending. *)
Definition all_rows (w : World) : list UserServerBinding.t :=
  w_bindings w ++ w_pending w.

(** The logical users and bindings that importing the peers [news] of
    [server] produces, the sequence of user ids standing at [seq]. *)
Fixpoint imported (server : WgServer.t) (seq : Z) (news : list WgClientInfo.t)
    : list (LogicalUser.t * UserServerBinding.t) :=
  match news with
  | [] => []
  | c :: rest =>
      (LogicalUser.mk (seq + 1) (WgClientInfo.name c) None,
       UserServerBinding.mk (seq + 1) (WgServer.id server) (WgClientInfo.id c)
         (WgClientInfo.name c) (WgClientInfo.expires_at c))
      :: imported server (seq + 1) rest
  end.

(** A binding for the pair (remote id, remote peer id). *)
Definition binds (server : WgServer.t) (c : WgClientInfo.t)
    (b : UserServerBinding.t) : Prop :=
  UserServerBinding.server_id b = WgServer.id server /\
  UserServerBinding.wg_client_id b = WgClientInfo.id c.

(** Whether [rows] holds a binding of [user] on server [s]: the test of
    [attach_user_to_all_servers]. *)
Definition already_attached (user : LogicalUser.t)
    (rows : list UserServerBinding.t) (s : WgServer.t) : bool :=
  existsb (fun b =>
      (UserServerBinding.logical_user_id b =? LogicalUser.id user)
      && (UserServerBinding.server_id b =? WgServer.id s)) rows.

(** A reply that [create_client] can read: a 200 answer has a JSON object as
    its body, and with a true [success] flag it carries a [clientId] that
    [int] accepts. *)
Definition well_formed_reply (int_of_str : string -> option Z)
    (out : HttpOutcome) : Prop :=
  match out with
  | Raised _ => True
  | Responded resp =>
      status_code resp = 200 ->
      exists data,
        json resp = Some (JDict data) /\
        (success_flag data = true ->
         is_Some (Json.lookup "clientId" data ≫= py_int int_of_str))
  end.

(** The part of the world that a gateway call may change, seen from the
    synchronisation engine: one more clock reading, pending bindings possibly
    flushed by a commit, nothing lost and nothing new. *)
Definition gateway_step (w w' : World) : Prop :=
  w_ticks w' = S (w_ticks w) /\
  w_users w' = w_users w /\
  all_rows w' = all_rows w /\
  (forall b, b ∈ w_bindings w -> b ∈ w_bindings w') /\
  length (w_servers w') = length (w_servers w).

(** A binding of [user] on server [s]. *)
Definition attached_to (user : LogicalUser.t) (s : WgServer.t)
    (b : UserServerBinding.t) : Prop :=
  UserServerBinding.logical_user_id b = LogicalUser.id user /\
  UserServerBinding.server_id b = WgServer.id s.

(** The remotes that mass-attach passes over, and those it tries. *)
Definition skipped_servers (user : LogicalUser.t)
    (rows : list UserServerBinding.t) (servers : list WgServer.t) : list WgServer.t :=
  List.filter (already_attached user rows) servers.

Definition attempted_servers (user : LogicalUser.t)
    (rows : list UserServerBinding.t) (servers : list WgServer.t) : list WgServer.t :=
  List.filter (fun s => negb (already_attached user rows s)) servers.

(** The testable property of mass-attach read literally: the two counts add
    up to the number of known remotes. *)
Definition attach_counts_cover_all : Prop :=
  forall (utcnow : nat -> datetime) (http : nat -> HttpRequest -> HttpOutcome)
         (isoformat_utc : datetime -> string) (int_of_str : string -> option Z)
         (user_id : Z) (expires_at : option datetime) (w : World) r w',
    attach_user_to_all_servers utcnow http isoformat_utc int_of_str
      user_id expires_at w = Ok r w' ->
    created r + skipped r = Z.of_nat (length (w_servers w)).

(** ** Concrete remotes, clocks and networks for the examples *)

Module Demo.

(** A remote whose cookie ran out long ago ... *)
Definition stale_server : WgServer.t :=
  WgServer.mk 1 "edge-1" "http://10.0.0.1:51821/" "admin" "secret"
    true (Some 0) None (Some "abc") (Some 0).

(** ... and one whose cookie is good for another ten minutes at time 1000 s. *)
Definition fresh_server : WgServer.t :=
  WgServer.mk 2 "edge-2" "http://10.0.0.2:51821" "admin" "secret"
    true (Some 0) None (Some "xyz") (Some 1600000000).

Definition world (servers : list WgServer.t) : World :=
  mkWorld 0 [] servers [] [] [] 0 0.

Definition clock : nat -> datetime := fun _ => 1000000000.

Definition no_headers : string -> option string := fun _ => None.

Definition session_headers : string -> option string := fun k =>
  if String.eqb k "set-cookie"
  then Some "wg-easy=s%3Atoken.sig; Path=/; HttpOnly" else None.

Definition rejecting : nat -> HttpRequest -> HttpOutcome := fun _ _ =>
  Responded (mkResponse 401 no_headers "Unauthorized" None).

Definition unreachable : nat -> HttpRequest -> HttpOutcome := fun _ _ =>
  Raised "All connection attempts failed".

Definition accepting : nat -> HttpRequest -> HttpOutcome := fun _ _ =>
  Responded (mkResponse 200 session_headers ""
               (Some (JDict [("success", JBool true); ("clientId", JInt 7)]))).

(** A remote that lets the panel in and then answers 200 with
    [{"success": false}]. *)
Definition refusing : nat -> HttpRequest -> HttpOutcome := fun _ _ =>
  Responded (mkResponse 200 session_headers ""
               (Some (JDict [("success", JBool false)]))).

(** Two peers with one name, as a remote lists them. *)
Definition peers : list WgClientInfo.t :=
  [WgClientInfo.mk 1 "alice" None 100 50 (Some true) true;
   WgClientInfo.mk 2 "alice" (Some 1765324800000000) 0 0 (Some true) false].

Definition isoformat : datetime -> string := fun _ => "2025-12-10T00:00:00+00:00".

Definition int_of_str : string -> option Z := fun _ => None.

Definition user : LogicalUser.t := LogicalUser.mk 1 "alice" None.

(** One known remote, one logical user, no binding. *)
Definition panel : World :=
  mkWorld 0 [] [stale_server] [user] [] [] 1 0.

(** Two known remotes; the user is bound on the second. *)
Definition panel2 : World :=
  mkWorld 0 [] [stale_server; fresh_server] [user]
    [UserServerBinding.mk 1 2 5 "alice" None] [] 1 0.

End Demo.

(** ** The other gateway operations ([wg_easy_client.py], lines 152-188 and
    277-457) and the handlers of [main.py] that delete and attach *)

(** [d[k] = v] on the items of a dict: the value of an existing key is
    replaced in place, a new key goes to the end. *)
Fixpoint dict_set (k : string) (v : JSON) (d : list (string * JSON))
    : list (string * JSON) :=
  match d with
  | [] => [(k, v)]
  | (k', v') :: r =>
      if String.eqb k k' then (k', v) :: r else (k', v') :: dict_set k v r
  end.

#[global] Instance UserServerBinding_eq_dec : EqDecision UserServerBinding.t.
Proof. solve_decision. Defined.

(** [db.delete(b)] for a binding that a query returned: its row goes. *)
Fixpoint remove_row (b : UserServerBinding.t) (rows : list UserServerBinding.t)
    : list UserServerBinding.t :=
  match rows with
  | [] => []
  | r :: rest => if decide (r = b) then rest else r :: remove_row b rest
  end.

Definition db_delete_binding (b : UserServerBinding.t) : M unit := fun w =>
  Ok tt (mkWorld (w_ticks w) (w_sent w) (w_servers w) (w_users w)
           (remove_row b (w_bindings w)) (w_pending w) (w_user_seq w) (w_commits w)).

(** [for b in bindings: db.delete(b)]. *)
Fixpoint db_delete_bindings (bs : list UserServerBinding.t) : M unit :=
  match bs with
  | [] => mret tt
  | b :: rest => db_delete_binding b;; db_delete_bindings rest
  end.

(** [db.delete(user)] and [db.delete(server)]: the row with that primary key
    goes. *)
Definition db_delete_user (u : LogicalUser.t) : M unit := fun w =>
  Ok tt (mkWorld (w_ticks w) (w_sent w) (w_servers w)
           (List.filter (fun r => negb (LogicalUser.id r =? LogicalUser.id u)) (w_users w))
           (w_bindings w) (w_pending w) (w_user_seq w) (w_commits w)).

Definition db_delete_server (s : WgServer.t) : M unit := fun w =>
  Ok tt (mkWorld (w_ticks w) (w_sent w)
           (List.filter (fun r => negb (WgServer.id r =? WgServer.id s)) (w_servers w))
           (w_users w) (w_bindings w) (w_pending w) (w_user_seq w) (w_commits w)).

(** [db.query(UserServerBinding).filter(...).all()]. *)
Definition db_all_bindings (p : UserServerBinding.t -> bool)
    : M (list UserServerBinding.t) := fun w =>
  Ok (List.filter p (w_bindings w)) w.

Section Operations.

Variable utcnow : nat -> datetime.
Variable http : nat -> HttpRequest -> HttpOutcome.
Variable isoformat_utc : datetime -> string.
Variable int_of_str : string -> option Z.
(** [len(x)] on a decoded JSON value; [None] when it raises [TypeError]. *)
Variable py_len : JSON -> option Z.

Definition client_url (server : WgServer.t) (client_id : Z) : string :=
  PyStr.rstrip_slash (WgServer.base_url server) +:+ "/api/client/" +:+ pretty client_id.

(** [check_server_health(db, server)]: the dict it returns, as
    [(ok, error, clients_count)]. *)
Definition check_server_health (server : WgServer.t)
    : M ((bool * option string * option Z) * WgServer.t) :=
  '((cookie, error), server) ← _ensure_session_cookie utcnow http server;
  if PyStr.truthy_opt error || negb (PyStr.truthy_opt cookie) then
    mret ((false, PyStr.or_else error (Some "No cookie"), None), server)
  else
    out ← http_send http
            (mkRequest "GET"
               (PyStr.rstrip_slash (WgServer.base_url server) +:+ "/api/client") None
               [("accept", "application/json");
                ("cookie", "wg-easy=" +:+ default "" cookie)]);
    match out with
    | Raised e =>
        let server := WgServer.set_last_status_ok false server in
        let server := WgServer.set_last_error (Some e) server in
        db_add_server server;;
        db_commit;;
        mret ((false, Some e, None), server)
    | Responded resp =>
        if negb (status_code resp =? 200) then
          let server := WgServer.set_last_status_ok false server in
          let server := WgServer.set_last_error
              (Some ("/api/client failed with status " +:+ pretty (status_code resp)))
              server in
          db_add_server server;;
          db_commit;;
          mret ((false, WgServer.last_error server, None), server)
        else
          let server := WgServer.set_last_status_ok true server in
          let server := WgServer.set_last_error None server in
          db_add_server server;;
          db_commit;;
          match json resp with
          | None => raise (PyError "JSONDecodeError")
          | Some data =>
              match py_len data with
              | None => raise (PyError "TypeError")
              | Some n => mret ((true, None, Some n), server)
              end
          end
    end.

(** [get_client_raw(db, server, client_id)]: [(data, error)]; a body that is
    JSON [null] decodes to Python's [None]. *)
Definition get_client_raw (server : WgServer.t) (client_id : Z)
    : M ((option JSON * option string) * WgServer.t) :=
  '((cookie, error), server) ← _ensure_session_cookie utcnow http server;
  if PyStr.truthy_opt error || negb (PyStr.truthy_opt cookie) then
    mret ((None, PyStr.or_else error (Some "No cookie")), server)
  else
    out ← http_send http
            (mkRequest "GET" (client_url server client_id) None
               [("accept", "application/json");
                ("cookie", "wg-easy=" +:+ default "" cookie)]);
    match out with
    | Raised e => mret ((None, Some e), server)
    | Responded resp =>
        if negb (status_code resp =? 200) then
          mret ((None, Some ("get client failed with status "
                             +:+ pretty (status_code resp) +:+ ": " +:+ text resp)),
                server)
        else
          match json resp with
          | None => raise (PyError "JSONDecodeError")
          | Some JNull => mret ((None, None), server)
          | Some data => mret ((Some data, None), server)
          end
    end.

(** The value that [update_client_expires] writes under [expiresAt]. *)
Definition expires_json (expires_at : option datetime) : JSON :=
  match expires_at with
  | None => JNull
  | Some d =>
      let iso := isoformat_utc d in
      let iso := if PyStr.endswith "+00:00" iso
                 then PyStr.replace "+00:00" "Z" iso else iso in
      JStr iso
  end.

(** [update_client_expires(db, server, client_id, expires_at)]: the error
    message, [None] on success. *)
Definition update_client_expires (server : WgServer.t) (client_id : Z)
    (expires_at : option datetime) : M (option string * WgServer.t) :=
  '((data, error), server) ← get_client_raw server client_id;
  match (if PyStr.truthy_opt error then None else data) with
  | None => mret (PyStr.or_else error (Some "Failed to load client"), server)
  | Some (JDict d) =>
      let data := JDict (dict_set "expiresAt" (expires_json expires_at) d) in
      '((cookie, error2), server) ← _ensure_session_cookie utcnow http server;
      if PyStr.truthy_opt error2 || negb (PyStr.truthy_opt cookie) then
        mret (PyStr.or_else error2 (Some "No cookie"), server)
      else
        out ← http_send http
                (mkRequest "POST" (client_url server client_id) (Some data)
                   [("accept", "application/json");
                    ("content-type", "application/json");
                    ("cookie", "wg-easy=" +:+ default "" cookie)]);
        match out with
        | Raised e => mret (Some e, server)
        | Responded resp =>
            if negb (status_code resp =? 200) then
              mret (Some ("update client failed with status "
                          +:+ pretty (status_code resp) +:+ ": " +:+ text resp),
                    server)
            else mret (None, server)
        end
  | Some _ => raise (PyError "TypeError")
  end.

(** [_post_simple_action(db, server, client_id, action)]. *)
Definition _post_simple_action (server : WgServer.t) (client_id : Z)
    (action : string) : M (option string * WgServer.t) :=
  '((cookie, error), server) ← _ensure_session_cookie utcnow http server;
  if PyStr.truthy_opt error || negb (PyStr.truthy_opt cookie) then
    mret (PyStr.or_else error (Some "No cookie"), server)
  else
    out ← http_send http
            (mkRequest "POST" (client_url server client_id +:+ "/" +:+ action) None
               [("accept", "application/json");
                ("cookie", "wg-easy=" +:+ default "" cookie)]);
    match out with
    | Raised e => mret (Some e, server)
    | Responded resp =>
        if negb (status_code resp =? 200) then
          mret (Some (action +:+ " failed with status "
                      +:+ pretty (status_code resp) +:+ ": " +:+ text resp),
                server)
        else mret (None, server)
    end.

Definition disable_client (server : WgServer.t) (client_id : Z) :=
  _post_simple_action server client_id "disable".

Definition enable_client (server : WgServer.t) (client_id : Z) :=
  _post_simple_action server client_id "enable".

(** [delete_client(db, server, client_id)]. *)
Definition delete_client (server : WgServer.t) (client_id : Z)
    : M (option string * WgServer.t) :=
  '((cookie, error), server) ← _ensure_session_cookie utcnow http server;
  if PyStr.truthy_opt error || negb (PyStr.truthy_opt cookie) then
    mret (PyStr.or_else error (Some "No cookie"), server)
  else
    out ← http_send http
            (mkRequest "DELETE" (client_url server client_id) None
               [("accept", "application/json");
                ("cookie", "wg-easy=" +:+ default "" cookie)]);
    match out with
    | Raised e => mret (Some e, server)
    | Responded resp =>
        if negb (status_code resp =? 200) then
          mret (Some ("delete client failed with status "
                      +:+ pretty (status_code resp) +:+ ": " +:+ text resp),
                server)
        else mret (None, server)
    end.

(** [delete_server] ([main.py], lines 157-176). *)
Definition delete_server (server_id : Z) : M bool :=
  server ← db_first_server (fun s => WgServer.id s =? server_id);
  match server with
  | None => raise (HTTPException 404 "Server not found")
  | Some server =>
      bindings ← db_all_bindings (fun b =>
        UserServerBinding.server_id b =? WgServer.id server);
      db_delete_bindings bindings;;
      db_delete_server server;;
      db_commit;;
      mret true
  end.

(** [attach_user_to_server] ([main.py], lines 226-259); [server_id] and
    [expires_at] are the fields of the payload. *)
Definition attach_user_to_server (user_id server_id : Z)
    (expires_at : option datetime) : M UserServerBinding.t :=
  user ← db_first_user (fun u => LogicalUser.id u =? user_id);
  match user with
  | None => raise (HTTPException 404 "User not found")
  | Some user =>
      server ← db_first_server (fun s => WgServer.id s =? server_id);
      match server with
      | None => raise (HTTPException 404 "Server not found")
      | Some server =>
          let client_name := LogicalUser.name user in
          '((client_id, error), server) ←
            create_client utcnow http isoformat_utc int_of_str
              server client_name expires_at;
          match (if PyStr.truthy_opt error then None else client_id) with
          | None =>
              raise (HTTPException 400
                       (default "" (PyStr.or_else error (Some "Failed to create client"))))
          | Some client_id =>
              let binding := UserServerBinding.mk
                    (LogicalUser.id user) (WgServer.id server)
                    client_id client_name expires_at in
              db_add_binding binding;;
              db_commit;;
              mret binding
          end
      end
  end.

(** [delete_server_client] ([main.py], lines 610-639). *)
Definition delete_server_client (server_id client_id : Z) : M bool :=
  server ← db_first_server (fun s => WgServer.id s =? server_id);
  match server with
  | None => raise (HTTPException 404 "Server not found")
  | Some server =>
      '(error, server) ← delete_client server client_id;
      if PyStr.truthy_opt error then
        raise (HTTPException 400 (default "" error))
      else
        bindings ← db_all_bindings (fun b =>
          (UserServerBinding.server_id b =? WgServer.id server)
          && (UserServerBinding.wg_client_id b =? client_id));
        db_delete_bindings bindings;;
        db_commit;;
        mret true
  end.

(** The first loop of [delete_logical_user]: one remote deletion per binding
    whose server is on file, errors ignored. *)
Fixpoint delete_remote_peers (bindings : list UserServerBinding.t) : M unit :=
  match bindings with
  | [] => mret tt
  | b :: rest =>
      server ← db_first_server (fun s =>
        WgServer.id s =? UserServerBinding.server_id b);
      match server with
      | None => delete_remote_peers rest
      | Some server =>
          delete_client server (UserServerBinding.wg_client_id b);;
          delete_remote_peers rest
      end
  end.

(** [delete_logical_user] ([main.py], lines 641-670). *)
Definition delete_logical_user (user_id : Z) : M bool :=
  user ← db_first_user (fun u => LogicalUser.id u =? user_id);
  match user with
  | None => raise (HTTPException 404 "User not found")
  | Some user =>
      bindings ← db_all_bindings (fun b =>
        UserServerBinding.logical_user_id b =? user_id);
      delete_remote_peers bindings;;
      db_delete_bindings bindings;;
      db_delete_user user;;
      db_commit;;
      mret true
  end.

(** [disable_server_client] and [enable_server_client] ([main.py],
    lines 543-575), by the gateway call they make. *)
Definition toggle_server_client (action : string) (server_id client_id : Z) : M bool :=
  server ← db_first_server (fun s => WgServer.id s =? server_id);
  match server with
  | None => raise (HTTPException 404 "Server not found")
  | Some server =>
      '(error, server) ← _post_simple_action server client_id action;
      if PyStr.truthy_opt error then
        raise (HTTPException 400 (default "" error))
      else mret true
  end.

Definition disable_server_client := toggle_server_client "disable".
Definition enable_server_client := toggle_server_client "enable".

End Operations.

(** ** Vocabulary of the further statements *)

(** What a call through the session cache may do to the tables: the users
    stay, the servers keep their ids, and the bindings stay as they are or
    the pending ones are flushed by a commit. *)
Definition session_step (w w' : World) : Prop :=
  w_ticks w' = S (w_ticks w) /\
  w_users w' = w_users w /\
  w_user_seq w' = w_user_seq w /\
  WgServer.id <$> w_servers w' = WgServer.id <$> w_servers w /\
  ((w_bindings w' = w_bindings w /\ w_pending w' = w_pending w) \/
   (w_bindings w' = all_rows w /\ w_pending w' = [])).

(** The pair (remote id, remote peer id) of a binding, and the pair
    (logical user, remote id). *)
Definition pair_key (b : UserServerBinding.t) : Z * Z :=
  (UserServerBinding.server_id b, UserServerBinding.wg_client_id b).

Definition owner_key (b : UserServerBinding.t) : Z * Z :=
  (UserServerBinding.logical_user_id b, UserServerBinding.server_id b).

(** The error that an operation reports when the session cache gave it
    [(cookie, error)] and no usable cookie. *)
Definition session_error (error : option string) : option string :=
  PyStr.or_else error (Some "No cookie").

(** The world after one more request. *)
Definition sent (rq : HttpRequest) (w : World) : World :=
  mkWorld (w_ticks w) (w_sent w ++ [rq]) (w_servers w) (w_users w)
    (w_bindings w) (w_pending w) (w_user_seq w) (w_commits w).

(** The headers of an authenticated call without a body. *)
Definition session_headers (cookie : string) : list (string * string) :=
  [("accept", "application/json"); ("cookie", "wg-easy=" +:+ cookie)].

(** The request by which [delete_client] removes a peer from a remote. *)
Definition delete_request (server : WgServer.t) (client_id : Z) (cookie : string)
    : HttpRequest :=
  mkRequest "DELETE"
    (PyStr.rstrip_slash (WgServer.base_url server) +:+ "/api/client/" +:+ pretty client_id)
    None (session_headers cookie).

(** The request by which a health check lists the peers of a remote. *)
Definition health_request (server : WgServer.t) (cookie : string) : HttpRequest :=
  mkRequest "GET" (PyStr.rstrip_slash (WgServer.base_url server) +:+ "/api/client")
    None (session_headers cookie).

(** ** More concrete data for the examples *)

Module DemoMore.

Definition history : gmap Z (list Traffic.TrafficSample) :=
  {[ 7 := [Traffic.mkSample 10 100 50; Traffic.mkSample 20 140 90] ]}.

(** A remote that lets the panel in and answers everything else with 404. *)
Definition flaky : nat -> HttpRequest -> HttpOutcome := fun k _ =>
  match k with
  | O => Responded (mkResponse 200 Demo.session_headers "" None)
  | S _ => Responded (mkResponse 404 Demo.no_headers "Not Found" None)
  end.

(** A remote that lets the panel in; every later request raises an
    exception whose message is empty. *)
Definition silent : nat -> HttpRequest -> HttpOutcome := fun k _ =>
  match k with
  | O => Responded (mkResponse 200 Demo.session_headers "" None)
  | S _ => Raised ""
  end.

(** Two remotes, two users; the first user has a peer on each remote. *)
Definition panel : World :=
  mkWorld 0 [] [Demo.stale_server; Demo.fresh_server]
    [Demo.user; LogicalUser.mk 2 "bob" None]
    [UserServerBinding.mk 1 1 7 "alice" None;
     UserServerBinding.mk 2 1 9 "bob" None;
     UserServerBinding.mk 1 2 5 "alice" None] [] 2 0.

End DemoMore.

(** Whether [rows] holds a binding for the pair (remote id, remote peer id)
    of peer [c]: the test of [import_clients_from_server]. *)
Definition already_bound (server : WgServer.t)
    (rows : list UserServerBinding.t) (c : WgClientInfo.t) : bool :=
  existsb (fun b =>
      (UserServerBinding.server_id b =? WgServer.id server)
      && (UserServerBinding.wg_client_id b =? WgClientInfo.id c)) rows.

(** ** What mass-attach does, remote by remote *)

(** What became of one known remote in a mass-attach: passed over, a peer
    created with the id the remote assigned, or a failure with its message. *)
Inductive Attempt :=
  | Skipped (s : WgServer.t)
  | Created (s : WgServer.t) (client_id : Z)
  | Failed (s : WgServer.t) (error : string).

Definition attempt_server (a : Attempt) : WgServer.t :=
  match a with
  | Skipped s => s
  | Created s _ => s
  | Failed s _ => s
  end.

Definition is_skipped (a : Attempt) : bool :=
  match a with Skipped _ => true | _ => false end.

Definition is_created (a : Attempt) : bool :=
  match a with Created _ _ => true | _ => false end.

(** The entries of the error list, and the bindings, that a list of attempts
    accounts for. *)
Fixpoint reported_errors (t : list Attempt) : list (string * string) :=
  match t with
  | [] => []
  | Failed s e :: rest => (WgServer.name s, e) :: reported_errors rest
  | _ :: rest => reported_errors rest
  end.

Fixpoint new_bindings (user : LogicalUser.t) (expires_at : option datetime)
    (t : list Attempt) : list UserServerBinding.t :=
  match t with
  | [] => []
  | Created s n :: rest =>
      UserServerBinding.mk (LogicalUser.id user) (WgServer.id s) n
        (LogicalUser.name user) expires_at
      :: new_bindings user expires_at rest
  | _ :: rest => new_bindings user expires_at rest
  end.

(** The world after [db.add(b)]. *)
Definition with_pending (b : UserServerBinding.t) (w : World) : World :=
  mkWorld (w_ticks w) (w_sent w) (w_servers w) (w_users w)
    (w_bindings w) (w_pending w ++ [b]) (w_user_seq w) (w_commits w).

(** A request addressed to the session or the peer endpoint of a remote. *)
Definition addressed_to (s : WgServer.t) (rq : HttpRequest) : Prop :=
  rq_url rq = PyStr.rstrip_slash (WgServer.base_url s) +:+ "/api/session" \/
  rq_url rq = PyStr.rstrip_slash (WgServer.base_url s) +:+ "/api/client".

Section MassAttachTrace.

Variable utcnow : nat -> datetime.
Variable http : nat -> HttpRequest -> HttpOutcome.
Variable isoformat_utc : datetime -> string.
Variable int_of_str : string -> option Z.
Variable user : LogicalUser.t.
Variable expires_at : option datetime.
(** The bindings on file when the handler starts. *)
Variable B : list UserServerBinding.t.

(** [MassAttach w servers t w']: going through [servers] from world [w],
    every remote on which [B] has a binding of the user is passed over, and
    for every other remote [create_client] is run, in the world the earlier
    remotes left, and its result decides between a created peer, whose
    binding is added, and a reported failure; [w'] is the world at the
    end. *)
Inductive MassAttach : World -> list WgServer.t -> list Attempt -> World -> Prop :=
  | MA_done w : MassAttach w [] [] w
  | MA_skip w s rest t w' :
      already_attached user B s = true ->
      MassAttach w rest t w' ->
      MassAttach w (s :: rest) (Skipped s :: t) w'
  | MA_created w s rest t w' n error s1 w1 :
      already_attached user B s = false ->
      create_client utcnow http isoformat_utc int_of_str
        s (LogicalUser.name user) expires_at w = Ok ((Some n, error), s1) w1 ->
      PyStr.truthy_opt error = false ->
      MassAttach
        (with_pending
           (UserServerBinding.mk (LogicalUser.id user) (WgServer.id s) n
              (LogicalUser.name user) expires_at) w1)
        rest t w' ->
      MassAttach w (s :: rest) (Created s n :: t) w'
  | MA_failed w s rest t w' client_id error s1 w1 :
      already_attached user B s = false ->
      create_client utcnow http isoformat_utc int_of_str
        s (LogicalUser.name user) expires_at w = Ok ((client_id, error), s1) w1 ->
      PyStr.truthy_opt error = true \/ client_id = None ->
      MassAttach w1 rest t w' ->
      MassAttach w (s :: rest)
        (Failed s (default "" (PyStr.or_else error (Some "Failed to create client")))
         :: t) w'.

End MassAttachTrace.

(** ** The remote deletions of [delete_logical_user], binding by binding *)

(** What the first loop of [delete_logical_user] did for one binding: it
    found no server row and went on, or it called [delete_client] on the row
    it found and dropped the error that came back. *)
Inductive Deletion :=
  | NoServer (b : UserServerBinding.t)
  | Asked (b : UserServerBinding.t) (server : WgServer.t) (error : option string).

Definition deletion_binding (d : Deletion) : UserServerBinding.t :=
  match d with NoServer b | Asked b _ _ => b end.

(** A request by which the panel asks [server] to delete peer [client_id]:
    the login that precedes the deletion, or the deletion itself. *)
Definition asks (server : WgServer.t) (client_id : Z) (rq : HttpRequest) : Prop :=
  rq = login_request server \/ exists c, rq = delete_request server client_id c.

(** What the requests [new] hold for one step of the loop. *)
Definition deletion_requested (new : list HttpRequest) (d : Deletion) : Prop :=
  match d with
  | NoServer _ => True
  | Asked b server _ =>
      exists rq, rq ∈ new /\ asks server (UserServerBinding.wg_client_id b) rq
  end.

(** What one step of the loop has to do with the server rows [servers]. *)
Definition deletion_server (servers : list WgServer.t) (d : Deletion) : Prop :=
  match d with
  | NoServer b =>
      existsb (fun s => WgServer.id s =? UserServerBinding.server_id b) servers
      = false
  | Asked b server _ =>
      WgServer.id server = UserServerBinding.server_id b /\
      existsb (fun s => WgServer.id s =? UserServerBinding.server_id b) servers
      = true
  end.

Section RemoteDeletionTrace.

Variable utcnow : nat -> datetime.
Variable http : nat -> HttpRequest -> HttpOutcome.

(** The runs of the loop: every call of [delete_client] starts in the world
    the one before left, whatever it returned. *)
Inductive RemoteDeletions : World -> list Deletion -> World -> Prop :=
  | RD_done w : RemoteDeletions w [] w
  | RD_unknown w b t w' :
      List.find (fun s => WgServer.id s =? UserServerBinding.server_id b)
        (w_servers w) = None ->
      RemoteDeletions w t w' ->
      RemoteDeletions w (NoServer b :: t) w'
  | RD_asked w b server error s1 w1 t w' :
      List.find (fun s => WgServer.id s =? UserServerBinding.server_id b)
        (w_servers w) = Some server ->
      delete_client utcnow http server (UserServerBinding.wg_client_id b) w
        = Ok (error, s1) w1 ->
      RemoteDeletions w1 t w' ->
      RemoteDeletions w (Asked b server error :: t) w'.

End RemoteDeletionTrace.

(** * Properties *)

(** ** Traffic history store *)

Module TrafficFacts.
Import Traffic.

Lemma foldl_min_spec (r : list Z) : forall x,
  let m := foldl (fun acc y => if Z.ltb y acc then y else acc) x r in
  m ∈ x :: r /\ Forall (fun y => m <= y) (x :: r).
Proof.
  induction r as [|y r IH]; intros x; simpl.
  - split; [left | constructor; [lia | constructor]].
  - destruct (IH (if y <? x then y else x)) as [Hin Hall].
    apply Forall_cons in Hall as [Hle Hall].
    split.
    + apply elem_of_cons in Hin as [->|Hin].
      * destruct (Z.ltb_spec y x); [right; left | left].
      * right; right; exact Hin.
    + destruct (Z.ltb_spec y x); repeat constructor; try lia; exact Hall.
Qed.

Lemma foldl_max_spec (r : list Z) : forall x,
  let m := foldl (fun acc y => if Z.ltb acc y then y else acc) x r in
  m ∈ x :: r /\ Forall (fun y => y <= m) (x :: r).
Proof.
  induction r as [|y r IH]; intros x; simpl.
  - split; [left | constructor; [lia | constructor]].
  - destruct (IH (if x <? y then y else x)) as [Hin Hall].
    apply Forall_cons in Hall as [Hle Hall].
    split.
    + apply elem_of_cons in Hin as [->|Hin].
      * destruct (Z.ltb_spec x y); [right; left | left].
      * right; right; exact Hin.
    + destruct (Z.ltb_spec x y); repeat constructor; try lia; exact Hall.
Qed.

Lemma py_min_spec (l : list Z) :
  l <> [] -> exists m, py_min l = Some m /\ m ∈ l /\ Forall (fun y => m <= y) l.
Proof.
  destruct l as [|x r]; [congruence | intros _].
  eexists; split; [reflexivity | apply foldl_min_spec].
Qed.

Lemma py_max_spec (l : list Z) :
  l <> [] -> exists m, py_max l = Some m /\ m ∈ l /\ Forall (fun y => y <= m) l.
Proof.
  destruct l as [|x r]; [congruence | intros _].
  eexists; split; [reflexivity | apply foldl_max_spec].
Qed.

(** The extreme values of a column over a non-empty window are attained by
    samples of the window. *)
Lemma column_extremes (f : TrafficSample -> Z) (window : list TrafficSample) :
  window <> [] ->
  exists lo hi,
    lo ∈ window /\ hi ∈ window /\
    py_min (f <$> window) = Some (f lo) /\
    py_max (f <$> window) = Some (f hi) /\
    Forall (fun h => f lo <= f h <= f hi) window.
Proof.
  intros Hne.
  assert (Hne' : f <$> window <> []) by (destruct window; [congruence | discriminate]).
  destruct (py_min_spec _ Hne') as (m & Hm & Hmin & Hmall).
  destruct (py_max_spec _ Hne') as (M' & HM & HMin & HMall).
  apply list_elem_of_fmap in Hmin as (lo & -> & Hlo).
  apply list_elem_of_fmap in HMin as (hi & -> & Hhi).
  exists lo, hi. repeat split; try assumption.
  apply Forall_forall. intros h Hh.
  rewrite Forall_forall in Hmall, HMall.
  split; [apply Hmall | apply HMall]; apply list_elem_of_fmap; eauto.
Qed.

End TrafficFacts.

Section TrafficClaims.
Import Traffic TrafficFacts.

Lemma delta_on_pair now period sid (a b : TrafficSample) :
  now - timedelta_seconds period <= ts a ->
  now - timedelta_seconds period <= ts b ->
  get_traffic_delta_for_period now sid period {[ sid := [a; b] ]}
  = Some (Z.max 0 (Z.max (total_rx a) (total_rx b) - Z.min (total_rx a) (total_rx b)),
          Z.max 0 (Z.max (total_tx a) (total_tx b) - Z.min (total_tx a) (total_tx b))).
Proof.
  intros Ha Hb. unfold get_traffic_delta_for_period.
  rewrite lookup_singleton_eq. simpl.
  rewrite !filter_cons_True by assumption.
  rewrite filter_nil. simpl.
  destruct (Z.ltb_spec (total_rx b) (total_rx a));
    destruct (Z.ltb_spec (total_rx a) (total_rx b));
    destruct (Z.ltb_spec (total_tx b) (total_tx a));
    destruct (Z.ltb_spec (total_tx a) (total_tx b));
    do 2 f_equal; lia.
Qed.

(** C2.  [get_traffic_delta_for_period] always returns a pair of
    non-negative numbers.  With fewer than two samples at or after the cutoff
    the pair is (0, 0); otherwise each component is the largest minus the
    smallest counter value among the samples of the window, both attained
    there, and the clamp at zero changes nothing.  In-window samples
    (t0,100,50),(t1,140,90) give (40,40), and so do the same two samples in
    the opposite order (a counter that fell), where last minus first would
    be negative. *)
Theorem delta_for_window_max_minus_min :
  (forall now sid period (H : gmap Z (list TrafficSample)),
     exists rx tx,
       get_traffic_delta_for_period now sid period H = Some (rx, tx) /\
       0 <= rx /\ 0 <= tx /\
       (((length (window_of now sid period H) < 2)%nat /\ rx = 0 /\ tx = 0) \/
        ((2 <= length (window_of now sid period H))%nat /\
         exists rx_lo rx_hi tx_lo tx_hi,
           rx_lo ∈ window_of now sid period H /\
           rx_hi ∈ window_of now sid period H /\
           tx_lo ∈ window_of now sid period H /\
           tx_hi ∈ window_of now sid period H /\
           Forall (fun h => total_rx rx_lo <= total_rx h <= total_rx rx_hi)
                  (window_of now sid period H) /\
           Forall (fun h => total_tx tx_lo <= total_tx h <= total_tx tx_hi)
                  (window_of now sid period H) /\
           rx = Z.max 0 (total_rx rx_hi - total_rx rx_lo) /\
           tx = Z.max 0 (total_tx tx_hi - total_tx tx_lo) /\
           rx = total_rx rx_hi - total_rx rx_lo /\
           tx = total_tx tx_hi - total_tx tx_lo))) /\
  (forall now sid period t0 t1,
     now - timedelta_seconds period <= t0 ->
     now - timedelta_seconds period <= t1 ->
     get_traffic_delta_for_period now sid period
       {[ sid := [mkSample t0 100 50; mkSample t1 140 90] ]} = Some (40, 40) /\
     get_traffic_delta_for_period now sid period
       {[ sid := [mkSample t0 140 90; mkSample t1 100 50] ]} = Some (40, 40)).
Proof.
  split.
  - intros now sid period H.
    unfold get_traffic_delta_for_period, window_of.
    set (history := default [] (H !! sid)).
    set (window := filter _ history).
    destruct (decide (length window < 2)%nat) as [Hshort|Hlong].
    + exists 0, 0. split; [|split; [lia|split; [lia|left; auto]]].
      case_bool_decide; [reflexivity|].
      rewrite bool_decide_eq_true_2 by exact Hshort. reflexivity.
    + assert (Hne : window <> []) by (intros E; rewrite E in Hlong; simpl in Hlong; lia).
      assert (Hh : history <> []).
      { intros E. apply Hne. subst window. rewrite E. reflexivity. }
      destruct (column_extremes total_rx window Hne)
        as (rlo & rhi & Hrlo & Hrhi & Hrmin & Hrmax & Hrall).
      destruct (column_extremes total_tx window Hne)
        as (tlo & thi & Htlo & Hthi & Htmin & Htmax & Htall).
      assert (Hr : total_rx rlo <= total_rx rhi).
      { rewrite Forall_forall in Hrall. apply (Hrall rlo Hrlo). }
      assert (Ht : total_tx tlo <= total_tx thi).
      { rewrite Forall_forall in Htall. apply (Htall tlo Htlo). }
      exists (Z.max 0 (total_rx rhi - total_rx rlo)),
             (Z.max 0 (total_tx thi - total_tx tlo)).
      split; [|split; [lia|split; [lia|right]]].
      * rewrite bool_decide_eq_false_2 by exact Hh.
        rewrite bool_decide_eq_false_2 by exact Hlong.
        rewrite Hrmin, Hrmax, Htmin, Htmax. reflexivity.
      * split; [lia|]. exists rlo, rhi, tlo, thi.
        repeat split; try assumption; lia.
  - intros now sid period t0 t1 H0 H1. split.
    + rewrite delta_on_pair by assumption. reflexivity.
    + rewrite delta_on_pair by assumption. reflexivity.
Qed.

Lemma delta_for_window_max_minus_min_witness :
  get_traffic_delta_for_period 1000000000 7 60
    {[ 7 := [mkSample 990000000 100 50; mkSample 995000000 140 90] ]} = Some (40, 40) /\
  get_traffic_delta_for_period 1000000000 7 60
    {[ 7 := [mkSample 990000000 140 90; mkSample 995000000 100 50] ]} = Some (40, 40).
Proof.
  apply (proj2 delta_for_window_max_minus_min 1000000000 7 60 990000000 995000000);
    unfold timedelta_seconds; lia.
Defined.

(** C3.  After [record_traffic_snapshot] the series of the remote holds no
    sample stamped before the cutoff (seven days before the new sample);
    it is the retained part of the old series, in its old order and with
    its samples as they were, followed by the new sample, which is last. *)
Theorem record_snapshot_retention :
  forall now sid rx tx (H : gmap Z (list TrafficSample)),
    exists kept,
      record_traffic_snapshot now sid rx tx H !! sid
        = Some (kept ++ [mkSample now rx tx]) /\
      kept = filter (fun h => now - timedelta_days 7 <= ts h) (default [] (H !! sid)) /\
      kept `sublist_of` default [] (H !! sid) /\
      Forall (fun h => ~ ts h < ts (mkSample now rx tx) - timedelta_days 7)
             (kept ++ [mkSample now rx tx]) /\
      last (kept ++ [mkSample now rx tx]) = Some (mkSample now rx tx).
Proof.
  intros now sid rx tx H.
  exists (filter (fun h => now - timedelta_days 7 <= ts h) (default [] (H !! sid))).
  unfold record_traffic_snapshot. rewrite lookup_insert_eq.
  rewrite filter_app.
  assert (Hnew : filter (fun h => now - timedelta_days 7 <= ts h) [mkSample now rx tx]
                 = [mkSample now rx tx]).
  { rewrite filter_cons_True by (simpl; unfold timedelta_days; lia). reflexivity. }
  rewrite Hnew.
  split; [reflexivity|]. split; [reflexivity|].
  split; [apply sublist_filter|].
  split; [|apply last_snoc].
  apply Forall_app. split.
  - apply Forall_forall. intros h Hh. apply list_elem_of_filter in Hh as [Hh _].
    simpl. lia.
  - constructor; [simpl; unfold timedelta_days; lia | constructor].
Qed.

End TrafficClaims.

(** ** Python strings *)

Module PyStrFacts.
Import PyStr.

Lemma append_cons c (s t : string) : String c s +:+ t = String c (s +:+ t).
Proof. reflexivity. Qed.

Lemma append_nil (t : string) : EmptyString +:+ t = t.
Proof. reflexivity. Qed.

Ltac app_simpl := rewrite ?append_cons, ?append_nil.

Lemma prefix_drop (sep : string) : forall s,
  String.prefix sep s = true -> s = sep +:+ drop (String.length sep) s.
Proof.
  induction sep as [|a sep IH]; intros [|b s] H; simpl in *;
    try reflexivity; try discriminate.
  destruct (ascii_dec a b) as [->|]; [|discriminate].
  app_simpl. f_equal. apply IH, H.
Qed.

Lemma prefix_app (sep : string) : forall s t,
  String.prefix sep s = true -> String.prefix sep (s +:+ t) = true.
Proof.
  induction sep as [|a sep IH]; intros [|b s] t H; simpl in *;
    try discriminate.
  - destruct t; reflexivity.
  - reflexivity.
  - app_simpl. simpl. destruct (ascii_dec a b); [apply IH, H | discriminate].
Qed.

Lemma split_once_eq (sep s : string) :
  split_once sep s =
  if String.prefix sep s then Some (EmptyString, drop (String.length sep) s)
  else match s with
       | EmptyString => None
       | String c r =>
           match split_once sep r with
           | Some (a, b) => Some (String c a, b)
           | None => None
           end
       end.
Proof. destruct s; reflexivity. Qed.

(** [split_once] cuts [s] around an occurrence of [sep]. *)
Lemma split_once_sound (sep : string) : forall s a b,
  split_once sep s = Some (a, b) -> s = a +:+ sep +:+ b.
Proof.
  induction s as [|c s IH]; intros a b; rewrite split_once_eq;
    destruct (String.prefix sep _) eqn:Hp; intros H; try discriminate.
  - injection H as <- <-. app_simpl. apply prefix_drop, Hp.
  - injection H as <- <-. app_simpl. apply prefix_drop, Hp.
  - destruct (split_once sep s) as [[a' b']|] eqn:Hs; [|discriminate].
    injection H as <- <-. app_simpl. f_equal. apply IH. reflexivity.
Qed.

(** ... and it is the first one: a non-empty [sep] does not occur in the
    part before the cut. *)
Lemma split_once_first (sep : string) : forall s a b,
  sep <> EmptyString ->
  split_once sep s = Some (a, b) -> split_once sep a = None.
Proof.
  intros s a b Hsep. revert a b.
  induction s as [|c s IH]; intros a b; rewrite split_once_eq;
    destruct (String.prefix sep _) eqn:Hp; intros H; try discriminate.
  - injection H as <- <-. destruct sep; [congruence | reflexivity].
  - injection H as <- <-. destruct sep; [congruence | reflexivity].
  - destruct (split_once sep s) as [[a' b']|] eqn:Hs; [|discriminate].
    injection H as <- <-.
    assert (Hpa : String.prefix sep (String c a') = false).
    { destruct (String.prefix sep (String c a')) eqn:Hq; [|reflexivity].
      apply (prefix_app _ _ (sep +:+ b')) in Hq.
      rewrite append_cons in Hq.
      rewrite <- (split_once_sound _ _ _ _ Hs) in Hq.
      congruence. }
    rewrite split_once_eq, Hpa, (IH a' b' eq_refl). reflexivity.
Qed.

Lemma split1_head (sep s : string) : exists h, split1 sep s !! 0%nat = Some h.
Proof.
  unfold split1. destruct (split_once sep s) as [[a b]|]; eexists; reflexivity.
Qed.

Lemma truthy_not_empty (s : string) : s <> EmptyString -> truthy s = true.
Proof. destruct s; [congruence | reflexivity]. Qed.

(** What the cookie parser returns: the text that follows the first
    [wg-easy=] of the header, up to the first semicolon after it. *)
Lemma extract_cookie_found (sc : string) :
  contains "wg-easy=" sc = true ->
  exists v pre rest,
    extract_cookie sc = Some v /\
    sc = pre +:+ "wg-easy=" +:+ v +:+ rest /\
    (rest = EmptyString \/ exists r, rest = String ";" r) /\
    contains ";" v = false /\
    contains "wg-easy=" pre = false.
Proof.
  unfold contains, extract_cookie, split1.
  destruct (split_once "wg-easy=" sc) as [[pre post]|] eqn:Hs; [intros _|discriminate].
  simpl.
  assert (Hpre : split_once "wg-easy=" pre = None)
    by (eapply split_once_first; [discriminate | exact Hs]).
  apply split_once_sound in Hs.
  destruct (split_once ";" post) as [[v r]|] eqn:Hp.
  - exists v, pre, (String ";" r). simpl.
    assert (Hv : split_once ";" v = None)
      by (eapply split_once_first; [discriminate | exact Hp]).
    apply split_once_sound in Hp.
    rewrite Hv, Hpre. repeat split; eauto.
    rewrite Hs, Hp. reflexivity.
  - exists post, pre, EmptyString. simpl. rewrite Hp, Hpre.
    repeat split; eauto.
    rewrite Hs. f_equal. f_equal.
    clear. induction post; [reflexivity|]. rewrite append_cons. f_equal. assumption.
Qed.

End PyStrFacts.

(** ** Session cache *)

Section SessionClaims.

Variable utcnow : nat -> datetime.
Variable http : nat -> HttpRequest -> HttpOutcome.

Ltac run :=
  cbv [_ensure_session_cookie mark_failed mbind M_bind bind mret M_ret ret raise
       datetime_utcnow http_send db_add_server db_commit].

Lemma cached_session_some now (server : WgServer.t) c :
  cached_session now server = Some c <->
  WgServer.session_cookie server = Some c /\ c <> EmptyString /\
  exists e, WgServer.session_expires_at server = Some e /\
            now + timedelta_seconds 60 < e.
Proof.
  unfold cached_session.
  destruct (WgServer.session_cookie server) as [c'|];
    destruct (WgServer.session_expires_at server) as [e|];
    try (split; [discriminate | intros (H & _); try discriminate;
                                destruct H as (? & ? & ? & ?); discriminate]).
  - destruct c' as [|a c']; simpl.
    + split; [discriminate | intros (H & Hne & _); congruence].
    + destruct (Z.ltb_spec (now + timedelta_seconds 60) e).
      * split; [intros [= <-] | intros ([= <-] & _)]; [|reflexivity].
        split; [reflexivity|]. split; [discriminate|]. eauto.
      * split; [discriminate | intros (_ & _ & e' & [= <-] & ?); lia].
  - split; [discriminate | intros (_ & _ & e' & ? & _); discriminate].
Qed.

Lemma ensure_cached (server : WgServer.t) (w : World) c :
  cached_session (utcnow (w_ticks w)) server = Some c ->
  _ensure_session_cookie utcnow http server w
    = Ok ((Some c, None), server) (after_clock w).
Proof. intros H. run. rewrite H. reflexivity. Qed.

Lemma ensure_failure (server : WgServer.t) (w : World) reason err :
  cached_session (utcnow (w_ticks w)) server = None ->
  LoginFailure (http (length (w_sent w)) (login_request server)) reason err ->
  _ensure_session_cookie utcnow http server w
    = Ok ((None, Some err), unhealthy (utcnow (w_ticks w)) reason server)
         (after_login (login_request server)
            (unhealthy (utcnow (w_ticks w)) reason server) w).
Proof.
  intros Hc Hf. run. rewrite Hc. simpl.
  inversion Hf as [e Ho | resp Hs Ho | resp Hs Hm Ho]; subst.
  - reflexivity.
  - assert (Hb : (status_code resp =? 200) = false) by (apply Z.eqb_neq; exact Hs).
    rewrite Hb. reflexivity.
  - rewrite Hs. simpl.
    assert (Hb : negb (PyStr.truthy_opt (set_cookie_header resp))
                 || negb (PyStr.contains "wg-easy=" (default "" (set_cookie_header resp)))
                 = true).
    { destruct Hm as [-> | ->]; [reflexivity | apply orb_true_r]. }
    rewrite Hb. reflexivity.
Qed.

Lemma ensure_success (server : WgServer.t) (w : World) sc :
  cached_session (utcnow (w_ticks w)) server = None ->
  LoginSuccess (http (length (w_sent w)) (login_request server)) sc ->
  exists cookie,
    extract_cookie sc = Some cookie /\
    _ensure_session_cookie utcnow http server w
      = Ok ((Some cookie, None), refreshed (utcnow (w_ticks w)) cookie server)
           (after_login (login_request server)
              (refreshed (utcnow (w_ticks w)) cookie server) w).
Proof.
  intros Hc (resp & Ho & Hs & Hh & Ht & Hin).
  destruct (PyStrFacts.extract_cookie_found sc Hin) as (v & _ & _ & Hv & _).
  exists v. split; [exact Hv|].
  run. rewrite Hc. simpl. rewrite Ho, Hs. simpl.
  rewrite Hh. simpl. rewrite Ht, Hin. simpl. rewrite Hv. reflexivity.
Qed.

(** Every login exchange either fails in one of the three ways or succeeds. *)
Lemma login_outcome_cases (out : HttpOutcome) :
  (exists reason err, LoginFailure out reason err) \/
  (exists sc, LoginSuccess out sc).
Proof.
  destruct out as [e|resp].
  - left. eexists _, _. constructor.
  - destruct (decide (status_code resp = 200)) as [Hs|Hs].
    + destruct (set_cookie_header resp) as [sc|] eqn:Hh.
      * destruct (PyStr.truthy sc) eqn:Ht.
        -- destruct (PyStr.contains "wg-easy=" sc) eqn:Hin.
           ++ right. exists sc, resp. auto.
           ++ left. eexists _, _. apply Missing_credential; [exact Hs|].
              right. rewrite Hh. exact Hin.
        -- left. eexists _, _. apply Missing_credential; [exact Hs|].
           left. rewrite Hh. exact Ht.
      * left. eexists _, _. apply Missing_credential; [exact Hs|].
        left. rewrite Hh. reflexivity.
    + left. eexists _, _. apply Non_success_status. exact Hs.
Qed.

(** C1.  A remote whose cached cookie is present (a non-empty string) and
    whose cached expiry lies more than 60 seconds after the current time gets
    that cookie back with no error; no request is sent, nothing is committed
    and the server object and every table are as before: only the clock has
    been read. *)
Theorem cached_session_returned_unchanged :
  forall (server : WgServer.t) (w : World) (c : string) (e : datetime),
    WgServer.session_cookie server = Some c ->
    c <> EmptyString ->
    WgServer.session_expires_at server = Some e ->
    utcnow (w_ticks w) + timedelta_seconds 60 < e ->
    exists w',
      _ensure_session_cookie utcnow http server w = Ok ((Some c, None), server) w'
      /\ w_sent w' = w_sent w
      /\ w_commits w' = w_commits w
      /\ w_servers w' = w_servers w
      /\ w_users w' = w_users w
      /\ w_bindings w' = w_bindings w
      /\ w_pending w' = w_pending w.
Proof.
  intros server w c e Hc Hne He Hlt.
  exists (after_clock w). split; [|repeat split].
  apply ensure_cached, cached_session_some. eauto 6.
Qed.

(** C6.  When a refresh is due and the login exchange fails (the request
    raises, the status is not 200, or the response carries no [wg-easy]
    cookie), the server is marked not ok with the reason as its last error,
    its last-checked time is the current time, an error is returned with no
    cookie, and the cached cookie and its expiry are what they were. *)
Theorem refresh_failure_keeps_cached_session :
  forall (server : WgServer.t) (w : World) (reason err : string),
    cached_session (utcnow (w_ticks w)) server = None ->
    LoginFailure (http (length (w_sent w)) (login_request server)) reason err ->
    exists server' w',
      _ensure_session_cookie utcnow http server w = Ok ((None, Some err), server') w'
      /\ WgServer.last_status_ok server' = false
      /\ WgServer.last_error server' = Some reason
      /\ WgServer.last_checked_at server' = Some (utcnow (w_ticks w))
      /\ WgServer.session_cookie server' = WgServer.session_cookie server
      /\ WgServer.session_expires_at server' = WgServer.session_expires_at server
      /\ w_sent w' = w_sent w ++ [login_request server]
      /\ w_commits w' = S (w_commits w).
Proof.
  intros server w reason err Hc Hf.
  eexists _, _. split; [apply ensure_failure; eassumption|].
  repeat split.
Qed.

(** C8.  When a refresh is due and the login exchange succeeds (status 200
    and a [wg-easy] cookie in the [Set-Cookie] header), the cookie value cut
    out of the header is stored together with an expiry exactly 3600 seconds
    after the current time, the server is marked ok with no last error and
    the current time as last-checked time, and that cookie is returned with
    no error.  The value is the text between the first [wg-easy=] of the
    header and the next semicolon. *)
Theorem refresh_success_stores_session :
  forall (server : WgServer.t) (w : World) (set_cookie : string),
    cached_session (utcnow (w_ticks w)) server = None ->
    LoginSuccess (http (length (w_sent w)) (login_request server)) set_cookie ->
    exists cookie server' w',
      _ensure_session_cookie utcnow http server w
        = Ok ((Some cookie, None), server') w'
      /\ WgServer.session_cookie server' = Some cookie
      /\ WgServer.session_expires_at server'
         = Some (utcnow (w_ticks w) + timedelta_seconds 3600)
      /\ WgServer.last_status_ok server' = true
      /\ WgServer.last_error server' = None
      /\ WgServer.last_checked_at server' = Some (utcnow (w_ticks w))
      /\ w_sent w' = w_sent w ++ [login_request server]
      /\ w_commits w' = S (w_commits w)
      /\ (exists pre rest,
            set_cookie = pre +:+ "wg-easy=" +:+ cookie +:+ rest /\
            (rest = EmptyString \/ exists r, rest = String ";" r) /\
            PyStr.contains ";" cookie = false /\
            PyStr.contains "wg-easy=" pre = false).
Proof.
  intros server w sc Hc Hok.
  destruct (ensure_success server w sc Hc Hok) as (cookie & Hx & Hrun).
  destruct Hok as (resp & _ & _ & _ & _ & Hin).
  destruct (PyStrFacts.extract_cookie_found sc Hin) as (v & pre & rest & Hv & Hdec).
  assert (v = cookie) as -> by congruence.
  eexists cookie, _, _. split; [exact Hrun|].
  repeat split; try (exists pre, rest; exact Hdec).
Qed.

(** C7, as amended.  The session cache never empties the session fields.
    [_ensure_session_cookie] always returns; when it returns no cookie (every
    failed refresh, a rejection of the stored credentials included) the cached
    cookie and its expiry are what they were; when it returns a cookie, either
    nothing changed or both fields were overwritten together, the expiry being
    3600 seconds after the current time.  In particular a response with a
    status other than 200 leaves both fields as they were. *)
Theorem session_fields_never_cleared :
  forall (server : WgServer.t) (w : World),
    exists r server' w',
      _ensure_session_cookie utcnow http server w = Ok (r, server') w' /\
      match fst r with
      | None =>
          WgServer.session_cookie server' = WgServer.session_cookie server /\
          WgServer.session_expires_at server' = WgServer.session_expires_at server
      | Some c =>
          server' = server \/
          (WgServer.session_cookie server' = Some c /\
           WgServer.session_expires_at server'
             = Some (utcnow (w_ticks w) + timedelta_seconds 3600))
      end /\
      (forall resp,
         cached_session (utcnow (w_ticks w)) server = None ->
         http (length (w_sent w)) (login_request server) = Responded resp ->
         status_code resp <> 200 ->
         fst r = None /\
         WgServer.session_cookie server' = WgServer.session_cookie server /\
         WgServer.session_expires_at server' = WgServer.session_expires_at server).
Proof.
  intros server w.
  destruct (cached_session (utcnow (w_ticks w)) server) as [c|] eqn:Hc.
  - eexists _, _, _. split; [apply ensure_cached; exact Hc|].
    split; [left; reflexivity | discriminate].
  - destruct (login_outcome_cases (http (length (w_sent w)) (login_request server)))
      as [(reason & err & Hf) | (sc & Hok)].
    + eexists _, _, _. split; [apply ensure_failure; eassumption|].
      split; [split; reflexivity|]. intros; repeat split.
    + destruct (ensure_success server w sc Hc Hok) as (cookie & _ & Hrun).
      eexists _, _, _. split; [exact Hrun|].
      split; [right; split; reflexivity|].
      intros resp _ Hr Hs. destruct Hok as (resp' & Ho & Hs' & _). congruence.
Qed.

End SessionClaims.

(** C1 at a concrete remote: the cookie is good until 1600 s, the clock
    reads 1000 s. *)
Lemma cached_session_returned_unchanged_witness :
  exists w',
    _ensure_session_cookie Demo.clock Demo.rejecting Demo.fresh_server
      (Demo.world [Demo.fresh_server])
    = Ok ((Some "xyz", None), Demo.fresh_server) w'
    /\ w_sent w' = [] /\ w_commits w' = 0%nat
    /\ w_servers w' = [Demo.fresh_server]
    /\ w_users w' = [] /\ w_bindings w' = [] /\ w_pending w' = [].
Proof.
  apply (cached_session_returned_unchanged Demo.clock Demo.rejecting
           Demo.fresh_server (Demo.world [Demo.fresh_server]) "xyz" 1600000000).
  - reflexivity.
  - discriminate.
  - reflexivity.
  - vm_compute. reflexivity.
Defined.

(** C6 at a concrete remote: the login is answered with 401. *)
Lemma refresh_failure_keeps_cached_session_witness :
  exists server' w',
    _ensure_session_cookie Demo.clock Demo.rejecting Demo.stale_server
      (Demo.world [Demo.stale_server])
    = Ok ((None, Some "Login failed with status 401"), server') w'
    /\ WgServer.last_status_ok server' = false
    /\ WgServer.last_error server' = Some "Login failed with status 401"
    /\ WgServer.last_checked_at server' = Some 1000000000
    /\ WgServer.session_cookie server' = Some "abc"
    /\ WgServer.session_expires_at server' = Some 0
    /\ w_sent w' = [login_request Demo.stale_server]
    /\ w_commits w' = 1%nat.
Proof.
  apply (refresh_failure_keeps_cached_session Demo.clock Demo.rejecting
           Demo.stale_server (Demo.world [Demo.stale_server])
           "Login failed with status 401" "Login failed with status 401").
  - reflexivity.
  - apply (Non_success_status (mkResponse 401 Demo.no_headers "Unauthorized" None)).
    discriminate.
Defined.

(** C7 as stated fails: a remote with a stored cookie whose login is
    answered with 401 keeps the cookie and its expiry. *)
Lemma cleared_on_rejection_counterexample : ~ cleared_on_rejection.
Proof.
  intros H.
  destruct (H Demo.clock Demo.rejecting Demo.stale_server
              (Demo.world [Demo.stale_server])
              (mkResponse 401 Demo.no_headers "Unauthorized" None)
              _ _ _ eq_refl eq_refl eq_refl eq_refl) as [Hcookie _].
  discriminate Hcookie.
Qed.

(** C7 as amended, at the same remote. *)
Lemma session_fields_never_cleared_witness :
  exists r server' w',
    _ensure_session_cookie Demo.clock Demo.rejecting Demo.stale_server
      (Demo.world [Demo.stale_server]) = Ok (r, server') w' /\
    fst r = None /\
    WgServer.session_cookie server' = Some "abc" /\
    WgServer.session_expires_at server' = Some 0.
Proof.
  destruct (session_fields_never_cleared Demo.clock Demo.rejecting
              Demo.stale_server (Demo.world [Demo.stale_server]))
    as (r & server' & w' & Hrun & _ & Hrej).
  exists r, server', w'. split; [exact Hrun|].
  apply (Hrej (mkResponse 401 Demo.no_headers "Unauthorized" None));
    [reflexivity | reflexivity | discriminate].
Defined.

(** C8 at a concrete remote: the login is answered with 200 and a cookie. *)
Lemma refresh_success_stores_session_witness :
  exists cookie server' w',
    _ensure_session_cookie Demo.clock Demo.accepting Demo.stale_server
      (Demo.world [Demo.stale_server])
    = Ok ((Some cookie, None), server') w'
    /\ WgServer.session_cookie server' = Some cookie
    /\ WgServer.session_expires_at server' = Some (1000000000 + timedelta_seconds 3600)
    /\ WgServer.last_status_ok server' = true
    /\ WgServer.last_error server' = None
    /\ WgServer.last_checked_at server' = Some 1000000000
    /\ w_sent w' = [login_request Demo.stale_server]
    /\ w_commits w' = 1%nat
    /\ (exists pre rest,
          "wg-easy=s%3Atoken.sig; Path=/; HttpOnly"
            = pre +:+ "wg-easy=" +:+ cookie +:+ rest /\
          (rest = EmptyString \/ exists r, rest = String ";" r) /\
          PyStr.contains ";" cookie = false /\
          PyStr.contains "wg-easy=" pre = false).
Proof.
  apply (refresh_success_stores_session Demo.clock Demo.accepting
           Demo.stale_server (Demo.world [Demo.stale_server])
           "wg-easy=s%3Atoken.sig; Path=/; HttpOnly").
  - reflexivity.
  - eexists. repeat split; reflexivity.
Defined.

Example refresh_success_cookie_value :
  exists server' w',
    _ensure_session_cookie Demo.clock Demo.accepting Demo.stale_server
      (Demo.world [Demo.stale_server])
    = Ok ((Some "s%3Atoken.sig", None), server') w'.
Proof. eexists _, _. vm_compute. reflexivity. Qed.

(** ** Create peer *)

Section CreateClaims.

Variable utcnow : nat -> datetime.
Variable http : nat -> HttpRequest -> HttpOutcome.
Variable isoformat_utc : datetime -> string.
Variable int_of_str : string -> option Z.

Local Abbreviation create := (create_client utcnow http isoformat_utc int_of_str).
Local Abbreviation request := (create_request isoformat_utc).

Ltac run_create :=
  cbv [create_client mbind M_bind bind mret M_ret ret raise http_send].

(** Once the session cache has handed out a cookie, [create_client] sends one
    request and goes by its outcome. *)
Lemma create_after_session (server : WgServer.t) (w : World) name expires_at
    cookie server1 w1 :
  _ensure_session_cookie utcnow http server w = Ok ((Some cookie, None), server1) w1 ->
  cookie <> EmptyString ->
  create server name expires_at w =
  let rq := request server1 cookie name expires_at in
  let w2 := mkWorld (w_ticks w1) (w_sent w1 ++ [rq]) (w_servers w1) (w_users w1)
              (w_bindings w1) (w_pending w1) (w_user_seq w1) (w_commits w1) in
  match http (length (w_sent w1)) rq with
  | Raised e => Ok ((None, Some e), server1) w2
  | Responded resp =>
      if negb (status_code resp =? 200) then
        Ok ((None, Some ("create client failed with status "
                         +:+ pretty (status_code resp) +:+ ": " +:+ text resp)),
            server1) w2
      else
        match json resp with
        | None => Exc (PyError "JSONDecodeError") w2
        | Some (JDict data) =>
            if negb (success_flag data) then
              Ok ((None, Some "wg-easy did not return success"), server1) w2
            else
              match Json.lookup "clientId" data with
              | None => Exc (PyError "KeyError") w2
              | Some v =>
                  match py_int int_of_str v with
                  | None => Exc (PyError "TypeError") w2
                  | Some n => Ok ((Some n, None), server1) w2
                  end
              end
        | Some _ => Exc (PyError "AttributeError") w2
        end
  end.
Proof.
  intros Hs Hne. run_create. rewrite Hs. simpl.
  rewrite (PyStrFacts.truthy_not_empty cookie Hne). simpl.
  destruct (http _ _) as [e|resp]; [reflexivity|].
  destruct (negb (status_code resp =? 200)); [reflexivity|].
  destruct (json resp) as [[| | | | |data]|]; try reflexivity.
  unfold success_flag.
  destruct (negb _); [reflexivity|].
  destruct (Json.lookup "clientId" data) as [v|]; [|reflexivity].
  destruct (py_int int_of_str v); reflexivity.
Qed.

(** Without a usable cookie nothing is sent. *)
Lemma create_without_session (server : WgServer.t) (w : World) name expires_at
    cookie error server1 w1 :
  _ensure_session_cookie utcnow http server w = Ok ((cookie, error), server1) w1 ->
  PyStr.truthy_opt error || negb (PyStr.truthy_opt cookie) = true ->
  create server name expires_at w =
  Ok ((None, PyStr.or_else error (Some "No cookie")), server1) w1.
Proof. intros Hs Hb. run_create. rewrite Hs. simpl. rewrite Hb. reflexivity. Qed.


End CreateClaims.


Example create_refused_despite_200 :
  exists s' w',
    create_client Demo.clock Demo.refusing Demo.isoformat Demo.int_of_str
      Demo.stale_server "alice" None (Demo.world [Demo.stale_server])
    = Ok ((None, Some "wg-easy did not return success"), s') w'.
Proof. eexists _, _. vm_compute. reflexivity. Qed.

Example create_payload_with_expiry :
  create_payload Demo.isoformat "alice" (Some 0)
  = JDict [("name", JStr "alice"); ("expiresAt", JStr "2025-12-10T00:00:00Z")].
Proof. vm_compute. reflexivity. Qed.

(** ** Import *)

Section ImportClaims.

Ltac run_db :=
  cbv [mbind M_bind bind mret M_ret ret raise db_first_binding db_first_server
       db_add_user_flush db_add_binding db_commit].

Lemma find_binds_none (server : WgServer.t) (c : WgClientInfo.t)
    (rows : list UserServerBinding.t) :
  List.find (fun b =>
      (UserServerBinding.server_id b =? WgServer.id server)
      && (UserServerBinding.wg_client_id b =? WgClientInfo.id c)) rows = None ->
  forall b, b ∈ rows -> ~ binds server c b.
Proof.
  intros Hf b Hb [Hs Hc].
  rewrite list_elem_of_In in Hb.
  pose proof (find_none _ _ Hf b Hb) as Hn. simpl in Hn.
  rewrite Hs, Hc, !Z.eqb_refl in Hn. discriminate.
Qed.

Lemma find_binds (server : WgServer.t) (c : WgClientInfo.t)
    (rows : list UserServerBinding.t) :
  (exists b, b ∈ rows /\ binds server c b) ->
  exists b, List.find (fun b =>
      (UserServerBinding.server_id b =? WgServer.id server)
      && (UserServerBinding.wg_client_id b =? WgClientInfo.id c)) rows = Some b.
Proof.
  intros (b & Hb & Hbinds).
  destruct (List.find _ rows) as [b'|] eqn:Hf; [eauto|].
  exfalso. exact (find_binds_none server c rows Hf b Hb Hbinds).
Qed.

Lemma find_binds_inv (server : WgServer.t) (c : WgClientInfo.t)
    (rows : list UserServerBinding.t) b :
  List.find (fun b =>
      (UserServerBinding.server_id b =? WgServer.id server)
      && (UserServerBinding.wg_client_id b =? WgClientInfo.id c)) rows = Some b ->
  b ∈ rows /\ binds server c b.
Proof.
  intros Hf. apply find_some in Hf as [Hin Hp].
  apply andb_true_iff in Hp as [Hs Hc].
  apply Z.eqb_eq in Hs, Hc. rewrite <- list_elem_of_In in Hin.
  split; [exact Hin | split; assumption].
Qed.

(** With every listed peer already bound in the table, the loop creates
    nothing and leaves the world as it is. *)
Lemma import_loop_all_bound (server : WgServer.t) (clients : list WgClientInfo.t) :
  forall users bindings w,
    Forall (fun c => exists b, b ∈ w_bindings w /\ binds server c b) clients ->
    import_loop server clients users bindings w = Ok (users, bindings) w.
Proof.
  induction clients as [|c rest IH]; intros users bindings w Hall; simpl.
  - reflexivity.
  - apply Forall_cons in Hall as [Hc Hrest].
    destruct (find_binds server c (w_bindings w) Hc) as [b Hb].
    run_db. rewrite Hb. apply IH, Hrest.
Qed.

(** What one run of the loop does. *)
Lemma import_loop_run (server : WgServer.t) (clients : list WgClientInfo.t) :
  forall users bindings w,
    exists news w',
      import_loop server clients users bindings w
        = Ok (users + Z.of_nat (length news), bindings + Z.of_nat (length news)) w' /\
      news `sublist_of` clients /\
      w_users w' = w_users w ++ (imported server (w_user_seq w) news).*1 /\
      all_rows w' = all_rows w ++ (imported server (w_user_seq w) news).*2 /\
      w_user_seq w' = w_user_seq w + Z.of_nat (length news) /\
      w_ticks w' = w_ticks w /\ w_sent w' = w_sent w /\
      w_servers w' = w_servers w /\ w_commits w' = w_commits w /\
      Forall (fun c => exists b, b ∈ all_rows w' /\ binds server c b) clients /\
      Forall (fun c => forall b, b ∈ w_bindings w -> ~ binds server c b) news.
Proof.
  induction clients as [|c rest IH]; intros users bindings w.
  - exists [], w. simpl. rewrite !app_nil_r, !Z.add_0_r.
    repeat split; constructor.
  - simpl. run_db.
    destruct (List.find _ (w_bindings w)) as [b|] eqn:Hf.
    + destruct (IH users bindings w)
        as (news & w' & Hrun & Hsub & Hu & Hr & Hq & Ht & Hs & Hsv & Hc & Hall & Hnew).
      exists news, w'. split; [exact Hrun|].
      apply find_binds_inv in Hf as [Hin Hb].
      repeat split; try assumption.
      * apply sublist_cons, Hsub.
      * constructor; [|exact Hall].
        exists b. split; [|exact Hb].
        rewrite Hr. unfold all_rows. set_solver.
    + set (u := LogicalUser.mk (w_user_seq w + 1) (WgClientInfo.name c) None).
      set (b := UserServerBinding.mk _ _ _ _ _).
      set (w1 := mkWorld _ _ _ _ _ _ _ _).
      destruct (IH (users + 1) (bindings + 1) w1)
        as (news & w' & Hrun & Hsub & Hu & Hr & Hq & Ht & Hs & Hsv & Hc & Hall & Hnew).
      exists (c :: news), w'.
      assert (Hrows1 : all_rows w1 = all_rows w ++ [b]) by reflexivity.
      split.
      { rewrite Hrun. f_equal. f_equal; simpl length; lia. }
      repeat split; try assumption.
      * apply sublist_skip, Hsub.
      * rewrite Hu. simpl. rewrite <- app_assoc. reflexivity.
      * rewrite Hr, Hrows1. simpl. rewrite <- app_assoc. reflexivity.
      * rewrite Hq. simpl w_user_seq. simpl length. lia.
      * constructor; [|exact Hall].
        exists b. split; [rewrite Hr, Hrows1; set_solver | split; reflexivity].
      * constructor; [exact (find_binds_none server c _ Hf)|].
        eapply Forall_impl; [exact Hnew|].
        intros c' Hc' b' Hb'. apply Hc'. simpl. set_solver.
Qed.

(** What one import pass does when the server exists and the listing
    succeeded. *)
Lemma import_pass_run (server_id : Z) (server : WgServer.t)
    (clients : list WgClientInfo.t) (error : option string) (w : World) :
  List.find (fun s => WgServer.id s =? server_id) (w_servers w) = Some server ->
  PyStr.truthy_opt error = false ->
  exists news w',
    import_clients_from_server server_id (Some clients, error) w
      = Ok (mkImportResponse true (Z.of_nat (length news)) (Z.of_nat (length news))
              (Z.of_nat (length clients))) w' /\
    news `sublist_of` clients /\
    w_users w' = w_users w ++ (imported server (w_user_seq w) news).*1 /\
    w_bindings w' = all_rows w ++ (imported server (w_user_seq w) news).*2 /\
    w_pending w' = [] /\
    w_servers w' = w_servers w /\
    Forall (fun c => exists b, b ∈ w_bindings w' /\ binds server c b) clients /\
    Forall (fun c => forall b, b ∈ w_bindings w -> ~ binds server c b) news.
Proof.
  intros Hfind Herr.
  destruct (import_loop_run server clients 0 0 w)
    as (news & w' & Hrun & Hsub & Hu & Hr & Hq & Ht & Hs & Hsv & Hc & Hall & Hnew).
  exists news.
  eexists. split.
  { unfold import_clients_from_server. run_db. rewrite Hfind, Herr.
    rewrite Hrun. rewrite !Z.add_0_l. reflexivity. }
  simpl. repeat split; try assumption.
Qed.

(** C4.  A second import pass over the same peer list creates no logical
    user and no binding: after the first pass every listed peer has a row
    for its pair (remote id, remote peer id), so the second pass skips every
    peer, whatever the peer names are, and leaves both tables as they
    were. *)
Theorem import_twice_creates_nothing :
  forall (server_id : Z) (server : WgServer.t) (clients : list WgClientInfo.t)
         (error : option string) (w : World),
    List.find (fun s => WgServer.id s =? server_id) (w_servers w) = Some server ->
    PyStr.truthy_opt error = false ->
    exists r1 w1 w2,
      import_clients_from_server server_id (Some clients, error) w = Ok r1 w1 /\
      Forall (fun c => exists b, b ∈ w_bindings w1 /\ binds server c b) clients /\
      import_clients_from_server server_id (Some clients, error) w1
        = Ok (mkImportResponse true 0 0 (Z.of_nat (length clients))) w2 /\
      w_users w2 = w_users w1 /\
      w_bindings w2 = w_bindings w1.
Proof.
  intros server_id server clients error w Hfind Herr.
  destruct (import_pass_run server_id server clients error w Hfind Herr)
    as (news & w1 & Hrun & _ & _ & _ & Hp & Hsv & Hall & _).
  eexists _, w1, _. split; [exact Hrun|]. split; [exact Hall|].
  unfold import_clients_from_server. run_db.
  rewrite Hsv, Hfind, Herr.
  rewrite (import_loop_all_bound server clients 0 0 w1 Hall).
  split; [reflexivity|]. simpl. rewrite Hp, app_nil_r. split; reflexivity.
Qed.

Lemma find_bound (server : WgServer.t) (c : WgClientInfo.t)
    (rows : list UserServerBinding.t) :
  match List.find (fun b =>
      (UserServerBinding.server_id b =? WgServer.id server)
      && (UserServerBinding.wg_client_id b =? WgClientInfo.id c)) rows with
  | Some _ => already_bound server rows c = true
  | None => already_bound server rows c = false
  end.
Proof.
  unfold already_bound.
  induction rows as [|b rows IH]; simpl; [reflexivity|].
  destruct ((UserServerBinding.server_id b =? WgServer.id server)
            && (UserServerBinding.wg_client_id b =? WgClientInfo.id c));
    [reflexivity | exact IH].
Qed.

Lemma already_bound_true (server : WgServer.t) (c : WgClientInfo.t)
    (rows : list UserServerBinding.t) :
  already_bound server rows c = true <-> exists b, b ∈ rows /\ binds server c b.
Proof.
  unfold already_bound. rewrite existsb_exists. split.
  - intros (b & Hin & Hp). apply andb_true_iff in Hp as [Hs Hc].
    apply Z.eqb_eq in Hs, Hc. rewrite <- list_elem_of_In in Hin.
    exists b. split; [exact Hin | split; assumption].
  - intros (b & Hin & Hs & Hc). exists b. rewrite <- list_elem_of_In.
    split; [exact Hin|]. rewrite Hs, Hc, !Z.eqb_refl. reflexivity.
Qed.

Lemma already_bound_app (server : WgServer.t) (c : WgClientInfo.t)
    (rows more : list UserServerBinding.t) :
  (forall b, b ∈ more -> ~ binds server c b) ->
  already_bound server (rows ++ more) c = already_bound server rows c.
Proof.
  intros Hno. unfold already_bound. rewrite existsb_app.
  fold (already_bound server rows c). fold (already_bound server more c).
  destruct (already_bound server more c) eqn:E; [|apply orb_false_r].
  apply already_bound_true in E as (b & Hb & Hbinds).
  exfalso. exact (Hno b Hb Hbinds).
Qed.

(** The loop once more, with the peers it imports named: when the listing
    has every peer id once and nothing pending binds a listed peer, they are
    the listed peers without a row in the table. *)
Lemma import_loop_exact (server : WgServer.t) (clients : list WgClientInfo.t) :
  forall users bindings w,
    exists news w',
      import_loop server clients users bindings w
        = Ok (users + Z.of_nat (length news), bindings + Z.of_nat (length news)) w' /\
      news `sublist_of` clients /\
      w_users w' = w_users w ++ (imported server (w_user_seq w) news).*1 /\
      all_rows w' = all_rows w ++ (imported server (w_user_seq w) news).*2 /\
      w_user_seq w' = w_user_seq w + Z.of_nat (length news) /\
      Forall (fun c => exists b, b ∈ all_rows w' /\ binds server c b) clients /\
      Forall (fun c => forall b, b ∈ w_bindings w -> ~ binds server c b) news /\
      (NoDup (WgClientInfo.id <$> clients) ->
       (forall b c, b ∈ w_pending w -> c ∈ clients -> ~ binds server c b) ->
       news = List.filter (fun c => negb (already_bound server (w_bindings w) c))
                clients).
Proof.
  induction clients as [|c rest IH]; intros users bindings w.
  - exists [], w. simpl. rewrite !app_nil_r, !Z.add_0_r.
    repeat split; constructor.
  - simpl. run_db.
    pose proof (find_bound server c (w_bindings w)) as Hfb.
    destruct (List.find _ (w_bindings w)) as [b|] eqn:Hf.
    + destruct (IH users bindings w)
        as (news & w' & Hrun & Hsub & Hu & Hr & Hq & Hall & Hnew & Hex).
      exists news, w'. split; [exact Hrun|].
      apply find_binds_inv in Hf as [Hin Hb].
      split; [apply sublist_cons, Hsub|].
      split; [exact Hu|]. split; [exact Hr|]. split; [exact Hq|].
      split.
      { constructor; [|exact Hall].
        exists b. split; [|exact Hb].
        rewrite Hr. unfold all_rows. rewrite !elem_of_app. auto. }
      split; [exact Hnew|].
      intros Hnd Hpend. rewrite Hfb. simpl.
      rewrite ?fmap_cons in Hnd. apply NoDup_cons in Hnd as [_ Hnd].
      apply Hex; [exact Hnd|].
      intros b' c' Hb' Hc'. apply Hpend; [exact Hb' | right; exact Hc'].
    + set (u := LogicalUser.mk (w_user_seq w + 1) (WgClientInfo.name c) None).
      set (b := UserServerBinding.mk _ _ _ _ _).
      set (w1 := mkWorld _ _ _ _ _ _ _ _).
      destruct (IH (users + 1) (bindings + 1) w1)
        as (news & w' & Hrun & Hsub & Hu & Hr & Hq & Hall & Hnew & Hex).
      exists (c :: news), w'.
      assert (Hrows1 : all_rows w1 = all_rows w ++ [b]) by reflexivity.
      split.
      { rewrite Hrun. f_equal. f_equal; simpl length; lia. }
      split; [apply sublist_skip, Hsub|].
      split; [rewrite Hu; simpl; rewrite <- app_assoc; reflexivity|].
      split; [rewrite Hr, Hrows1; simpl; rewrite <- app_assoc; reflexivity|].
      split; [rewrite Hq; simpl w_user_seq; simpl length; lia|].
      split.
      { constructor; [|exact Hall].
        exists b. split; [|split; reflexivity].
        rewrite Hr, Hrows1, !elem_of_app. left. right. left. }
      split.
      { constructor; [exact (find_binds_none server c _ Hf)|].
        eapply Forall_impl; [exact Hnew|].
        intros c' Hc' b' Hb'. apply Hc'. simpl. apply elem_of_app. left. exact Hb'. }
      intros Hnd Hpend. rewrite Hfb. simpl.
      rewrite ?fmap_cons in Hnd. apply NoDup_cons in Hnd as [Hfresh Hnd].
      f_equal. rewrite Hex; [|exact Hnd|].
      * simpl. apply filter_ext_in. intros c' Hc'.
        rewrite already_bound_app; [reflexivity|].
        intros b' Hb'. apply Hpend; [exact Hb' | right].
        rewrite list_elem_of_In. exact Hc'.
      * simpl. intros b' c' Hb' Hc' [_ Hk].
        apply list_elem_of_singleton in Hb' as ->. simpl in Hk.
        apply Hfresh. rewrite Hk. apply list_elem_of_fmap. eauto.
Qed.

Lemma import_pass_exact (server_id : Z) (server : WgServer.t)
    (clients : list WgClientInfo.t) (error : option string) (w : World) :
  List.find (fun s => WgServer.id s =? server_id) (w_servers w) = Some server ->
  PyStr.truthy_opt error = false ->
  exists news w',
    import_clients_from_server server_id (Some clients, error) w
      = Ok (mkImportResponse true (Z.of_nat (length news)) (Z.of_nat (length news))
              (Z.of_nat (length clients))) w' /\
    news `sublist_of` clients /\
    w_users w' = w_users w ++ (imported server (w_user_seq w) news).*1 /\
    w_bindings w' = all_rows w ++ (imported server (w_user_seq w) news).*2 /\
    Forall (fun c => exists b, b ∈ w_bindings w' /\ binds server c b) clients /\
    Forall (fun c => forall b, b ∈ w_bindings w -> ~ binds server c b) news /\
    (NoDup (WgClientInfo.id <$> clients) ->
     w_pending w = [] ->
     news = List.filter (fun c => negb (already_bound server (w_bindings w) c))
              clients).
Proof.
  intros Hfind Herr.
  destruct (import_loop_exact server clients 0 0 w)
    as (news & w' & Hrun & Hsub & Hu & Hr & Hq & Hall & Hnew & Hex).
  exists news.
  eexists. split.
  { unfold import_clients_from_server. run_db. rewrite Hfind, Herr.
    rewrite Hrun. rewrite !Z.add_0_l. reflexivity. }
  simpl. fold (all_rows w').
  split; [exact Hsub|]. split; [exact Hu|]. split; [exact Hr|].
  split; [exact Hall|]. split; [exact Hnew|].
  intros Hnd Hp. apply Hex; [exact Hnd|].
  intros b c Hb. rewrite Hp in Hb. inversion Hb.
Qed.

Lemma imported_rows (server : WgServer.t) (news : list WgClientInfo.t) :
  forall seq,
    Forall2 (fun c ub =>
        LogicalUser.name ub.1 = WgClientInfo.name c /\
        UserServerBinding.logical_user_id ub.2 = LogicalUser.id ub.1 /\
        UserServerBinding.server_id ub.2 = WgServer.id server /\
        UserServerBinding.wg_client_id ub.2 = WgClientInfo.id c /\
        UserServerBinding.wg_client_name ub.2 = WgClientInfo.name c /\
        UserServerBinding.expires_at ub.2 = WgClientInfo.expires_at c)
      news (imported server seq news).
Proof.
  induction news as [|c rest IH]; intros seq; simpl; constructor.
  - simpl. repeat split.
  - apply IH.
Qed.

(** C10.  An import pass either raises before touching anything (no such
    server, or the listing failed) or returns two equal counts: the number
    of peers it did not skip.  The tables grow by exactly one logical user
    and one binding for each of these peers, in order; the user is named
    after the peer, the binding links that user to the pair (remote id,
    remote peer id) and stores the peer's name and expiry.  The peers not
    skipped had no row for their pair in the table; afterwards every listed
    peer has one, so a listed peer without a row anywhere is never passed
    over; and when the listing has every peer id once and the session is
    fresh, the peers not skipped are exactly the listed peers without a row
    in the table. *)
Theorem import_counts_agree :
  forall (server_id : Z) (listed : option (list WgClientInfo.t) * option string)
         (w : World),
    match import_clients_from_server server_id listed w with
    | Ok r w' =>
        created_users r = created_bindings r /\
        exists server clients news rows,
          List.find (fun s => WgServer.id s =? server_id) (w_servers w) = Some server /\
          listed.1 = Some clients /\
          news `sublist_of` clients /\
          Forall (fun c => forall b, b ∈ w_bindings w -> ~ binds server c b) news /\
          created_users r = Z.of_nat (length news) /\
          created_bindings r = Z.of_nat (length news) /\
          total_clients_on_server r = Z.of_nat (length clients) /\
          length rows = length news /\
          w_users w' = w_users w ++ rows.*1 /\
          w_bindings w' = all_rows w ++ rows.*2 /\
          Forall2 (fun c ub =>
              LogicalUser.name ub.1 = WgClientInfo.name c /\
              UserServerBinding.logical_user_id ub.2 = LogicalUser.id ub.1 /\
              UserServerBinding.server_id ub.2 = WgServer.id server /\
              UserServerBinding.wg_client_id ub.2 = WgClientInfo.id c /\
              UserServerBinding.wg_client_name ub.2 = WgClientInfo.name c /\
              UserServerBinding.expires_at ub.2 = WgClientInfo.expires_at c)
            news rows /\
          Forall (fun c => exists b, b ∈ w_bindings w' /\ binds server c b) clients /\
          Forall (fun c =>
              (forall b, b ∈ all_rows w -> ~ binds server c b) ->
              exists c', c' ∈ news /\ WgClientInfo.id c' = WgClientInfo.id c)
            clients /\
          (NoDup (WgClientInfo.id <$> clients) ->
           w_pending w = [] ->
           news = List.filter
                    (fun c => negb (already_bound server (w_bindings w) c)) clients)
    | Exc e w' =>
        w' = w /\
        (List.find (fun s => WgServer.id s =? server_id) (w_servers w) = None \/
         PyStr.truthy_opt listed.2 = true \/ listed.1 = None)
    end.
Proof.
  intros server_id [clients error] w.
  destruct (List.find (fun s => WgServer.id s =? server_id) (w_servers w))
    as [server|] eqn:Hfind.
  - destruct (PyStr.truthy_opt error) eqn:Herr.
    + unfold import_clients_from_server. run_db. rewrite Hfind, Herr.
      split; [reflexivity | right; left; exact Herr].
    + destruct clients as [clients|].
      * destruct (import_pass_exact server_id server clients error w Hfind Herr)
          as (news & w' & Hrun & Hsub & Hu & Hb & Hall & Hnew & Hex).
        rewrite Hrun. split; [reflexivity|].
        pose proof (imported_rows server news (w_user_seq w)) as Hrows.
        exists server, clients, news, (imported server (w_user_seq w) news).
        split; [reflexivity|]. split; [reflexivity|]. split; [exact Hsub|].
        split; [exact Hnew|]. split; [reflexivity|]. split; [reflexivity|].
        split; [reflexivity|].
        split; [symmetry; eapply Forall2_length; exact Hrows|].
        split; [exact Hu|]. split; [exact Hb|]. split; [exact Hrows|].
        split; [exact Hall|]. split; [|exact Hex].
        eapply Forall_impl; [exact Hall|].
        intros c (b & Hbin & Hbinds) Hno. rewrite Hb in Hbin.
        apply elem_of_app in Hbin as [Hold|Hnew'].
        { exfalso. exact (Hno b Hold Hbinds). }
        apply list_elem_of_fmap in Hnew' as ([u b'] & -> & Hin).
        destruct (proj1 (list_elem_of_lookup _ _) Hin) as [i Hi].
        destruct (Forall2_lookup_r _ _ _ _ _ Hrows Hi) as (c' & Hc' & Hp).
        exists c'. split; [apply list_elem_of_lookup; eauto|].
        destruct Hp as (_ & _ & _ & Hid & _). destruct Hbinds as [_ Hk].
        simpl in *. congruence.
      * unfold import_clients_from_server. run_db. rewrite Hfind, Herr.
        split; [reflexivity | right; right; reflexivity].
  - unfold import_clients_from_server. run_db. rewrite Hfind.
    split; [reflexivity | left; reflexivity].
Qed.

End ImportClaims.

(** C4 at a concrete remote that lists two peers of one name. *)
Lemma import_twice_creates_nothing_witness :
  exists r1 w1 w2,
    import_clients_from_server 1 (Some Demo.peers, None)
      (Demo.world [Demo.stale_server]) = Ok r1 w1 /\
    Forall (fun c => exists b, b ∈ w_bindings w1 /\ binds Demo.stale_server c b)
           Demo.peers /\
    import_clients_from_server 1 (Some Demo.peers, None) w1
      = Ok (mkImportResponse true 0 0 2) w2 /\
    w_users w2 = w_users w1 /\
    w_bindings w2 = w_bindings w1.
Proof.
  apply (import_twice_creates_nothing 1 Demo.stale_server Demo.peers None
           (Demo.world [Demo.stale_server])); reflexivity.
Defined.

Example import_first_pass :
  exists w1,
    import_clients_from_server 1 (Some Demo.peers, None)
      (Demo.world [Demo.stale_server]) = Ok (mkImportResponse true 2 2 2) w1 /\
    w_users w1 = [LogicalUser.mk 1 "alice" None; LogicalUser.mk 2 "alice" None] /\
    w_bindings w1 = [UserServerBinding.mk 1 1 1 "alice" None;
                     UserServerBinding.mk 2 1 2 "alice" (Some 1765324800000000)].
Proof. eexists. vm_compute. repeat split. Qed.

(** ** Mass-attach *)

Section AttachClaims.

Variable utcnow : nat -> datetime.
Variable http : nat -> HttpRequest -> HttpOutcome.
Variable isoformat_utc : datetime -> string.
Variable int_of_str : string -> option Z.

Local Abbreviation create := (create_client utcnow http isoformat_utc int_of_str).

Lemma gateway_step_clock (w : World) : gateway_step w (after_clock w).
Proof. repeat split; auto. Qed.

Lemma gateway_step_login rq s (w : World) : gateway_step w (after_login rq s w).
Proof.
  repeat split; simpl.
  - unfold all_rows. simpl. rewrite app_nil_r. reflexivity.
  - intros b Hb. set_solver.
  - apply length_fmap.
Qed.

(** The session cache always returns: a cookie and no error, or no cookie
    and an error. *)
Lemma ensure_session_total (server : WgServer.t) (w : World) :
  exists r server' w',
    _ensure_session_cookie utcnow http server w = Ok (r, server') w' /\
    ((exists c, r = (Some c, None)) \/ (exists err, r = (None, Some err))) /\
    WgServer.id server' = WgServer.id server /\
    WgServer.name server' = WgServer.name server /\
    gateway_step w w'.
Proof.
  destruct (cached_session (utcnow (w_ticks w)) server) as [c|] eqn:Hc.
  - eexists _, _, _. split; [apply ensure_cached; exact Hc|].
    split; [left; eauto|]. split; [reflexivity|]. split; [reflexivity|].
    apply gateway_step_clock.
  - destruct (login_outcome_cases (http (length (w_sent w)) (login_request server)))
      as [(reason & err & Hf) | (sc & Hok)].
    + eexists _, _, _. split; [apply ensure_failure; eassumption|].
      split; [right; eauto|]. split; [reflexivity|]. split; [reflexivity|].
      apply gateway_step_login.
    + destruct (ensure_success utcnow http server w sc Hc Hok) as (cookie & _ & Hrun).
      eexists _, _, _. split; [exact Hrun|].
      split; [left; eauto|]. split; [reflexivity|]. split; [reflexivity|].
      apply gateway_step_login.
Qed.

Lemma gateway_step_sent (w w1 : World) rq :
  gateway_step w w1 ->
  gateway_step w
    (mkWorld (w_ticks w1) (w_sent w1 ++ [rq]) (w_servers w1) (w_users w1)
       (w_bindings w1) (w_pending w1) (w_user_seq w1) (w_commits w1)).
Proof. intros H. exact H. Qed.

(** [create_client] returns and leaves the bindings alone, unless the reply
    to its request is one it cannot read. *)
Lemma create_outcome (server : WgServer.t) name expires_at (w : World) :
  match create server name expires_at w with
  | Ok (r, server') w' =>
      WgServer.id server' = WgServer.id server /\
      WgServer.name server' = WgServer.name server /\
      gateway_step w w'
  | Exc e w' =>
      (exists kind, e = PyError kind) /\
      ~ (forall k rq, well_formed_reply int_of_str (http k rq))
  end.
Proof.
  destruct (ensure_session_total server w)
    as (r & s1 & w1 & Hrun & Hshape & Hid & Hname & Hstep).
  destruct Hshape as [[c ->] | [err ->]].
  - destruct (decide (c = EmptyString)) as [->|Hne].
    + rewrite (create_without_session utcnow http isoformat_utc int_of_str
                 server w name expires_at _ _ s1 w1 Hrun) by reflexivity.
      auto.
    + rewrite (create_after_session utcnow http isoformat_utc int_of_str
                 server w name expires_at c s1 w1 Hrun Hne).
      cbv zeta.
      set (rq := create_request isoformat_utc s1 c name expires_at).
      pose proof (gateway_step_sent w w1 rq Hstep) as Hstep2.
      destruct (http (length (w_sent w1)) rq) as [e|resp] eqn:Ho; [auto|].
      destruct (status_code resp =? 200) eqn:Hst; simpl; [|auto].
      apply Z.eqb_eq in Hst.
      assert (Hwf : (forall k rq, well_formed_reply int_of_str (http k rq)) ->
                    exists data, json resp = Some (JDict data) /\
                      (success_flag data = true ->
                       is_Some (Json.lookup "clientId" data ≫= py_int int_of_str))).
      { intros H. specialize (H (length (w_sent w1)) rq). rewrite Ho in H.
        apply H, Hst. }
      destruct (json resp) as [[| | | | |data]|] eqn:Hj;
        try (split; [eauto | intros H; destruct (Hwf H) as (d & Hd & _); discriminate]).
      destruct (success_flag data) eqn:Hf; simpl; [|auto].
      destruct (Json.lookup "clientId" data) as [v|] eqn:Hv.
      * destruct (py_int int_of_str v) as [n|] eqn:Hn; [auto|].
        split; [eauto|]. intros H. destruct (Hwf H) as (d & [= <-] & Hsome).
        rewrite Hv in Hsome. simpl in Hsome. rewrite Hn in Hsome.
        destruct (Hsome Hf) as [? ?]. discriminate.
      * split; [eauto|]. intros H. destruct (Hwf H) as (d & [= <-] & Hsome).
        rewrite Hv in Hsome. destruct (Hsome Hf) as [? ?]. discriminate.
  - rewrite (create_without_session utcnow http isoformat_utc int_of_str
               server w name expires_at _ _ s1 w1 Hrun) by apply orb_true_r.
    auto.
Qed.

Lemma already_attached_true (user : LogicalUser.t) rows (s : WgServer.t) :
  already_attached user rows s = true <->
  exists b, b ∈ rows /\ attached_to user s b.
Proof.
  unfold already_attached. rewrite existsb_exists. split.
  - intros (b & Hin & Hp). apply andb_true_iff in Hp as [Hu Hs].
    apply Z.eqb_eq in Hu, Hs. rewrite <- list_elem_of_In in Hin.
    exists b. split; [exact Hin | split; assumption].
  - intros (b & Hin & Hu & Hs). exists b. rewrite <- list_elem_of_In.
    split; [exact Hin|]. rewrite Hu, Hs, !Z.eqb_refl. reflexivity.
Qed.

Lemma find_attached (user : LogicalUser.t) rows (s : WgServer.t) :
  match List.find (fun b =>
      (UserServerBinding.logical_user_id b =? LogicalUser.id user)
      && (UserServerBinding.server_id b =? WgServer.id s)) rows with
  | Some _ => already_attached user rows s = true
  | None => already_attached user rows s = false
  end.
Proof.
  unfold already_attached.
  induction rows as [|b rows IH]; simpl; [reflexivity|].
  destruct ((UserServerBinding.logical_user_id b =? LogicalUser.id user)
            && (UserServerBinding.server_id b =? WgServer.id s)); [reflexivity|].
  exact IH.
Qed.

Local Abbreviation loop := (attach_loop utcnow http isoformat_utc int_of_str).

(** What one run of the loop does.  [B] is the table of bindings as the
    handler found it; the bindings that the loop itself adds are for servers
    it has already left behind. *)
Lemma attach_loop_run (user : LogicalUser.t) expires_at
    (B : list UserServerBinding.t) (servers : list WgServer.t) :
  forall created skipped errors w,
    NoDup (WgServer.id <$> servers) ->
    (forall b, b ∈ B -> b ∈ w_bindings w) ->
    (forall b s, b ∈ all_rows w -> s ∈ servers -> attached_to user s b -> b ∈ B) ->
    match loop user expires_at servers created skipped errors w with
    | Ok (c', s', e') w' =>
        s' = skipped + Z.of_nat (length (skipped_servers user B servers)) /\
        c' + Z.of_nat (length e')
          = created + Z.of_nat (length errors)
            + Z.of_nat (length (attempted_servers user B servers)) /\
        w_ticks w' = (w_ticks w + length (attempted_servers user B servers))%nat /\
        Z.of_nat (length (all_rows w'))
          = Z.of_nat (length (all_rows w)) + (c' - created) /\
        created <= c' /\
        (length errors <= length e')%nat /\
        w_users w' = w_users w
    | Exc e w' =>
        (exists kind, e = PyError kind) /\
        ~ (forall k rq, well_formed_reply int_of_str (http k rq))
    end.
Proof.
  induction servers as [|s rest IH]; intros created skipped errors w Hnd HB Hinv.
  - simpl. cbv [mret M_ret ret]. simpl. repeat split; lia.
  - rewrite fmap_cons in Hnd. apply NoDup_cons in Hnd as [Hfresh Hnd].
    simpl. cbv [mbind M_bind bind mret M_ret ret db_first_binding].
    pose proof (find_attached user (w_bindings w) s) as Hfind.
    destruct (List.find _ (w_bindings w)) as [b|].
    + (* skipped *)
      assert (HBs : already_attached user B s = true).
      { apply already_attached_true in Hfind as (b' & Hb' & Hatt).
        apply already_attached_true. exists b'. split; [|exact Hatt].
        apply (Hinv b' s); [unfold all_rows; set_solver | left | exact Hatt]. }
      specialize (IH created (skipped + 1) errors w Hnd HB).
      destruct (loop user expires_at rest created (skipped + 1) errors w)
        as [[[c' s'] e'] w'|e w'].
      * unfold skipped_servers, attempted_servers in *. simpl. rewrite HBs. simpl.
        destruct IH as (H1 & H2 & H3 & H4 & H5 & H6 & H7).
        { intros b' s0 Hb' Hs0. apply Hinv; [exact Hb' | right; exact Hs0]. }
        repeat split; try assumption; lia.
      * apply IH. intros b' s0 Hb' Hs0. apply Hinv; [exact Hb' | right; exact Hs0].
    + (* attempted *)
      assert (HBs : already_attached user B s = false).
      { destruct (already_attached user B s) eqn:E; [|reflexivity].
        apply already_attached_true in E as (b' & Hb' & Hatt).
        assert (Ht : already_attached user (w_bindings w) s = true)
          by (apply already_attached_true; exists b'; split; [apply HB, Hb' | exact Hatt]).
        congruence. }
      pose proof (create_outcome s (LogicalUser.name user) expires_at w) as Hc.
      destruct (create s (LogicalUser.name user) expires_at w)
        as [[[client_id error] s1] w1|e w1]; [|exact Hc].
      destruct Hc as (Hid & Hname & Ht & Hu & Hrows & Hmono & _).
      destruct (if PyStr.truthy_opt error then None else client_id) as [n|].
      * (* created *)
        cbv [db_add_binding].
        set (bnew := UserServerBinding.mk _ _ _ _ _).
        set (w2 := mkWorld _ _ _ _ _ _ _ _).
        assert (Hrows2 : all_rows w2 = all_rows w ++ [bnew]).
        { unfold all_rows in *. simpl. rewrite app_assoc, Hrows. reflexivity. }
        specialize (IH (created + 1) skipped errors w2 Hnd).
        destruct (loop user expires_at rest (created + 1) skipped errors w2)
          as [[[c' s'] e'] w'|e w'].
        -- unfold skipped_servers, attempted_servers in *. simpl. rewrite HBs. simpl.
           destruct IH as (H1 & H2 & H3 & H4 & H5 & H6 & H7).
           { intros b' Hb'. apply Hmono, HB, Hb'. }
           { intros b' s0 Hb' Hs0 Hatt. rewrite Hrows2 in Hb'.
             apply elem_of_app in Hb' as [Hb'|Hb'].
             - apply (Hinv b' s0); [exact Hb' | right; exact Hs0 | exact Hatt].
             - apply list_elem_of_singleton in Hb' as ->.
               destruct Hatt as [_ Hsid]. simpl in Hsid.
               exfalso. apply Hfresh. rewrite <- Hid, Hsid.
               apply list_elem_of_fmap. eauto. }
           rewrite Hrows2, length_app in H4. simpl in H4, H3, H7.
           repeat split; try assumption; try lia. congruence.
        -- apply IH.
           ++ intros b' Hb'. apply Hmono, HB, Hb'.
           ++ intros b' s0 Hb' Hs0 Hatt. rewrite Hrows2 in Hb'.
              apply elem_of_app in Hb' as [Hb'|Hb'].
              ** apply (Hinv b' s0); [exact Hb' | right; exact Hs0 | exact Hatt].
              ** apply list_elem_of_singleton in Hb' as ->.
                 destruct Hatt as [_ Hsid]. simpl in Hsid.
                 exfalso. apply Hfresh. rewrite <- Hid, Hsid.
                 apply list_elem_of_fmap. eauto.
      * (* reported *)
        set (errors' := errors ++ _).
        specialize (IH created skipped errors' w1 Hnd).
        destruct (loop user expires_at rest created skipped errors' w1)
          as [[[c' s'] e'] w'|e w'].
        -- unfold skipped_servers, attempted_servers in *. simpl. rewrite HBs. simpl.
           destruct IH as (H1 & H2 & H3 & H4 & H5 & H6 & H7).
           { intros b' Hb'. apply Hmono, HB, Hb'. }
           { intros b' s0 Hb' Hs0. rewrite Hrows in Hb'.
             apply Hinv; [exact Hb' | right; exact Hs0]. }
           subst errors'. rewrite length_app in H2, H6. simpl in H2, H6.
           rewrite Hrows in H4.
           repeat split; try assumption; try lia. congruence.
        -- apply IH.
           ++ intros b' Hb'. apply Hmono, HB, Hb'.
           ++ intros b' s0 Hb' Hs0. rewrite Hrows in Hb'.
              apply Hinv; [exact Hb' | right; exact Hs0].
Qed.

Lemma skipped_attempted_length (user : LogicalUser.t) rows (servers : list WgServer.t) :
  (length (skipped_servers user rows servers)
   + length (attempted_servers user rows servers))%nat = length servers.
Proof.
  unfold skipped_servers, attempted_servers.
  induction servers as [|s rest IH]; simpl; [reflexivity|].
  destruct (already_attached user rows s); simpl; lia.
Qed.

End AttachClaims.


Example attach_unreachable_remote :
  exists w',
    attach_user_to_all_servers Demo.clock Demo.unreachable Demo.isoformat
      Demo.int_of_str 1 None Demo.panel
    = Ok (mkMassAttachResponse true 0 0
            [("edge-1", "Login request failed: All connection attempts failed")]) w'.
Proof. eexists. vm_compute. reflexivity. Qed.

Example attach_two_remotes :
  exists w',
    attach_user_to_all_servers Demo.clock Demo.accepting Demo.isoformat
      Demo.int_of_str 1 None Demo.panel2
    = Ok (mkMassAttachResponse true 1 1 []) w' /\
    w_bindings w' = [UserServerBinding.mk 1 2 5 "alice" None;
                     UserServerBinding.mk 1 1 7 "alice" None].
Proof. eexists. vm_compute. split; reflexivity. Qed.

(** * Further properties of the code *)

(** ** Traffic history store *)

Section TrafficMore.
Import Traffic TrafficFacts.

Lemma strongly_sorted_filter {A} (R : A -> A -> Prop) (P : A -> Prop)
    `{forall x, Decision (P x)} (l : list A) :
  StronglySorted R l -> StronglySorted R (filter P l).
Proof.
  induction 1 as [|x l Hl IH Hx]; [constructor|].
  destruct (decide (P x)) as [Hp|Hp].
  - rewrite filter_cons_True by exact Hp. constructor; [exact IH|].
    apply Forall_forall. intros y Hy. apply list_elem_of_filter in Hy as [_ Hy].
    rewrite Forall_forall in Hx. apply Hx, Hy.
  - rewrite filter_cons_False by exact Hp. exact IH.
Qed.

Lemma strongly_sorted_snoc {A} (R : A -> A -> Prop) (l : list A) (x : A) :
  StronglySorted R l -> Forall (fun y => R y x) l -> StronglySorted R (l ++ [x]).
Proof.
  induction 1 as [|y l Hl IH Hy]; intros Hall; simpl.
  - repeat constructor.
  - apply Forall_cons in Hall as [Hyx Hall].
    constructor; [apply IH, Hall|].
    apply Forall_app. split; [exact Hy | repeat constructor; exact Hyx].
Qed.

(** The stored series of a server after a snapshot. *)
Lemma record_series now sid rx tx (H : gmap Z (list TrafficSample)) :
  record_traffic_snapshot now sid rx tx H !! sid
  = Some (filter (fun h => now - timedelta_days 7 <= ts h) (default [] (H !! sid))
          ++ [mkSample now rx tx]).
Proof.
  unfold record_traffic_snapshot. rewrite lookup_insert_eq, filter_app.
  rewrite (filter_cons_True _ (mkSample now rx tx))
    by (simpl; unfold timedelta_days; lia).
  reflexivity.
Qed.

(** X1.  A snapshot for one server leaves the series of every other server
    as it is, and lengthens its own series by at most one sample. *)
Theorem record_snapshot_frame :
  forall now sid rx tx (H : gmap Z (list TrafficSample)) (other : Z),
    other <> sid ->
    record_traffic_snapshot now sid rx tx H !! other = H !! other /\
    (length (default [] (record_traffic_snapshot now sid rx tx H !! sid))
     <= S (length (default [] (H !! sid))))%nat.
Proof.
  intros now sid rx tx H other Hne. split.
  - unfold record_traffic_snapshot. apply lookup_insert_ne. congruence.
  - rewrite record_series. simpl. rewrite length_app. simpl.
    pose proof (sublist_length _ _
      (sublist_filter (fun h => now - timedelta_days 7 <= ts h)
         (default [] (H !! sid)))).
    lia.
Qed.

(** X2.  If the series of a server is in ascending order of time and the
    clock has not gone back behind its samples, the series is still in
    ascending order after a snapshot. *)
Theorem record_snapshot_keeps_order :
  forall now sid rx tx (H : gmap Z (list TrafficSample)),
    StronglySorted (fun a b => ts a <= ts b) (default [] (H !! sid)) ->
    Forall (fun h => ts h <= now) (default [] (H !! sid)) ->
    StronglySorted (fun a b => ts a <= ts b)
      (default [] (record_traffic_snapshot now sid rx tx H !! sid)).
Proof.
  intros now sid rx tx H Hs Hle.
  rewrite record_series. simpl.
  apply strongly_sorted_snoc.
  - apply strongly_sorted_filter, Hs.
  - apply Forall_forall. intros h Hh. apply list_elem_of_filter in Hh as [_ Hh].
    rewrite Forall_forall in Hle. simpl. apply Hle, Hh.
Qed.

(** X3.  A history query that follows a snapshot and whose window still
    reaches back to the time of the snapshot returns a list that ends with
    the sample just recorded; asked at the same instant for seven days it
    returns the whole stored series. *)
Theorem history_after_snapshot :
  forall now now' period sid rx tx (H : gmap Z (list TrafficSample)),
    now' - timedelta_seconds period <= now ->
    last (get_traffic_history now' sid period
            (record_traffic_snapshot now sid rx tx H))
      = Some (mkSample now rx tx) /\
    Some (get_traffic_history now sid (7 * 86400)
            (record_traffic_snapshot now sid rx tx H))
      = record_traffic_snapshot now sid rx tx H !! sid.
Proof.
  intros now now' period sid rx tx H Hwin. unfold get_traffic_history.
  rewrite record_series. simpl. split.
  - rewrite filter_app.
    rewrite (filter_cons_True _ (mkSample now rx tx)) by (simpl; lia).
    rewrite filter_nil. apply last_snoc.
  - f_equal. rewrite filter_app.
    rewrite (filter_cons_True _ (mkSample now rx tx))
      by (simpl; unfold timedelta_seconds; lia).
    rewrite filter_nil. f_equal.
    rewrite list_filter_filter. apply list_filter_iff.
    intros h. unfold timedelta_seconds, timedelta_days. lia.
Qed.

(** The two cases of the window query. *)
Lemma delta_spec now sid period (H : gmap Z (list TrafficSample)) :
  ((length (window_of now sid period H) < 2)%nat /\
   get_traffic_delta_for_period now sid period H = Some (0, 0)) \/
  ((2 <= length (window_of now sid period H))%nat /\
   exists rlo rhi tlo thi,
     rlo ∈ window_of now sid period H /\ rhi ∈ window_of now sid period H /\
     tlo ∈ window_of now sid period H /\ thi ∈ window_of now sid period H /\
     Forall (fun h => total_rx rlo <= total_rx h <= total_rx rhi)
            (window_of now sid period H) /\
     Forall (fun h => total_tx tlo <= total_tx h <= total_tx thi)
            (window_of now sid period H) /\
     get_traffic_delta_for_period now sid period H
       = Some (total_rx rhi - total_rx rlo, total_tx thi - total_tx tlo)).
Proof.
  unfold get_traffic_delta_for_period, window_of.
  set (history := default [] (H !! sid)).
  set (window := filter _ history).
  destruct (decide (length window < 2)%nat) as [Hshort|Hlong].
  - left. split; [exact Hshort|].
    case_bool_decide; [reflexivity|].
    rewrite bool_decide_eq_true_2 by exact Hshort. reflexivity.
  - right. split; [lia|].
    assert (Hne : window <> []) by (intros E; rewrite E in Hlong; simpl in Hlong; lia).
    assert (Hh : history <> []).
    { intros E. apply Hne. subst window. rewrite E. reflexivity. }
    destruct (column_extremes total_rx window Hne)
      as (rlo & rhi & Hrlo & Hrhi & Hrmin & Hrmax & Hrall).
    destruct (column_extremes total_tx window Hne)
      as (tlo & thi & Htlo & Hthi & Htmin & Htmax & Htall).
    exists rlo, rhi, tlo, thi. repeat split; try assumption.
    rewrite bool_decide_eq_false_2 by exact Hh.
    rewrite bool_decide_eq_false_2 by exact Hlong.
    rewrite Hrmin, Hrmax, Htmin, Htmax. simpl.
    rewrite Forall_forall in Hrall, Htall.
    pose proof (Hrall rlo Hrlo). pose proof (Htall tlo Htlo).
    f_equal. f_equal; lia.
Qed.

Lemma window_of_longer now sid p1 p2 (H : gmap Z (list TrafficSample)) :
  p1 <= p2 ->
  window_of now sid p1 H
  = filter (fun h => now - timedelta_seconds p1 <= ts h) (window_of now sid p2 H).
Proof.
  intros Hp. unfold window_of. rewrite list_filter_filter.
  apply list_filter_iff. intros h. unfold timedelta_seconds. lia.
Qed.

(** X4.  The usage reported for a period never exceeds the usage reported,
    at the same instant, for a longer period, and neither is negative. *)
Theorem delta_monotone_in_period :
  forall now sid p1 p2 (H : gmap Z (list TrafficSample)),
    p1 <= p2 ->
    exists rx1 tx1 rx2 tx2,
      get_traffic_delta_for_period now sid p1 H = Some (rx1, tx1) /\
      get_traffic_delta_for_period now sid p2 H = Some (rx2, tx2) /\
      0 <= rx1 <= rx2 /\ 0 <= tx1 <= tx2.
Proof.
  intros now sid p1 p2 H Hp.
  pose proof (window_of_longer now sid p1 p2 H Hp) as Hw.
  assert (Hsub : forall h, h ∈ window_of now sid p1 H -> h ∈ window_of now sid p2 H).
  { intros h Hh. rewrite Hw in Hh. apply list_elem_of_filter in Hh. tauto. }
  assert (Hlen : (length (window_of now sid p1 H) <= length (window_of now sid p2 H))%nat).
  { rewrite Hw. apply sublist_length, sublist_filter. }
  destruct (delta_spec now sid p2 H)
    as [[Hs2 E2] | (Hl2 & a2 & b2 & c2 & d2 & Ha2 & Hb2 & Hc2 & Hd2 & Hr2 & Ht2 & E2)].
  - destruct (delta_spec now sid p1 H) as [[Hs1 E1] | [Hl1 _]]; [|lia].
    exists 0, 0, 0, 0. rewrite E1, E2. repeat split; lia.
  - rewrite Forall_forall in Hr2, Ht2.
    pose proof (Hr2 a2 Ha2). pose proof (Ht2 c2 Hc2).
    destruct (delta_spec now sid p1 H)
      as [[Hs1 E1] | (Hl1 & a1 & b1 & c1 & d1 & Ha1 & Hb1 & Hc1 & Hd1 & Hr1 & Ht1 & E1)].
    + eexists 0, 0, _, _. rewrite E1, E2. repeat split; lia.
    + rewrite Forall_forall in Hr1, Ht1.
      pose proof (Hr1 a1 Ha1). pose proof (Ht1 c1 Hc1).
      pose proof (Hr2 a1 (Hsub _ Ha1)). pose proof (Hr2 b1 (Hsub _ Hb1)).
      pose proof (Ht2 c1 (Hsub _ Hc1)). pose proof (Ht2 d1 (Hsub _ Hd1)).
      eexists _, _, _, _. rewrite E1, E2. repeat split; lia.
Qed.

Lemma strongly_sorted_ends {A} (f : A -> Z) (first last : A) (mid : list A) :
  StronglySorted (fun a b => f a <= f b) (first :: mid ++ [last]) ->
  Forall (fun h => f first <= f h <= f last) (first :: mid ++ [last]).
Proof.
  intros Hs.
  assert (Hlast : forall l, StronglySorted (fun a b => f a <= f b) (l ++ [last]) ->
                   Forall (fun h => f h <= f last) (l ++ [last])).
  { clear. induction l as [|x l IH]; simpl; intros Hs.
    - repeat constructor. lia.
    - apply StronglySorted_inv in Hs as [Hs Hx].
      constructor; [|apply IH, Hs].
      rewrite Forall_forall in Hx. apply Hx, elem_of_app. right. left. }
  specialize (Hlast (first :: mid) Hs). simpl in Hlast.
  apply StronglySorted_inv in Hs as [_ Hfirst].
  apply Forall_cons in Hlast as [Hfl Hlast].
  constructor; [lia|].
  rewrite Forall_forall in *. intros h Hh. split; [apply Hfirst, Hh | apply Hlast, Hh].
Qed.

(** X5.  When the counters of the samples in the window never decrease from
    one sample to the next, the reported usage is the last sample's counters
    minus the first sample's. *)
Theorem delta_of_monotone_counters :
  forall now sid period (H : gmap Z (list TrafficSample)) first mid last,
    window_of now sid period H = first :: mid ++ [last] ->
    StronglySorted (fun a b => total_rx a <= total_rx b) (first :: mid ++ [last]) ->
    StronglySorted (fun a b => total_tx a <= total_tx b) (first :: mid ++ [last]) ->
    get_traffic_delta_for_period now sid period H
      = Some (total_rx last - total_rx first, total_tx last - total_tx first).
Proof.
  intros now sid period H first mid last Hw Hrx Htx.
  apply (strongly_sorted_ends total_rx) in Hrx.
  apply (strongly_sorted_ends total_tx) in Htx.
  rewrite Forall_forall in Hrx, Htx.
  assert (Hf : first ∈ first :: mid ++ [last]) by left.
  assert (Hl : last ∈ first :: mid ++ [last])
    by (right; apply elem_of_app; right; left).
  destruct (delta_spec now sid period H)
    as [[Hs _] | (_ & a & b & c & d & Ha & Hb & Hc & Hd & Hr & Ht & E)].
  - rewrite Hw in Hs. simpl in Hs. rewrite length_app in Hs. simpl in Hs. lia.
  - rewrite Hw in *. rewrite Forall_forall in Hr, Ht.
    pose proof (Hr first Hf). pose proof (Hr last Hl).
    pose proof (Ht first Hf). pose proof (Ht last Hl).
    pose proof (Hrx a Ha). pose proof (Hrx b Hb).
    pose proof (Htx c Hc). pose proof (Htx d Hd).
    rewrite E. f_equal. f_equal; lia.
Qed.

End TrafficMore.

(** ** Session cache *)

Section SessionMore.

Variable utcnow : nat -> datetime.
Variable http : nat -> HttpRequest -> HttpOutcome.

Lemma cached_session_none_of_expiry now (server : WgServer.t) :
  (forall e, WgServer.session_expires_at server = Some e ->
             e <= now + timedelta_seconds 60) ->
  cached_session now server = None.
Proof.
  intros He. destruct (cached_session now server) as [c|] eqn:Hc; [|reflexivity].
  apply cached_session_some in Hc as (_ & _ & e & Hexp & Hlt).
  specialize (He e Hexp). lia.
Qed.

(** X6.  A cookie whose expiry is absent, past, or less than 60 seconds
    away is never handed out: the call sends exactly one request, the login
    with the stored user name and password to [base_url] without trailing
    slashes plus [/api/session], and a cookie it returns is the one cut out
    of the reply to that login. *)
Theorem stale_session_always_relogs :
  forall (server : WgServer.t) (w : World),
    (forall e, WgServer.session_expires_at server = Some e ->
               e <= utcnow (w_ticks w) + timedelta_seconds 60) ->
    exists r server' w',
      _ensure_session_cookie utcnow http server w = Ok (r, server') w' /\
      w_sent w' = w_sent w ++
        [mkRequest "POST"
           (PyStr.rstrip_slash (WgServer.base_url server) +:+ "/api/session")
           (Some (JDict [("username", JStr (WgServer.username server));
                         ("password", JStr (WgServer.password server));
                         ("remember", JBool true)])) []] /\
      (forall c, fst r = Some c ->
         exists set_cookie,
           LoginSuccess (http (length (w_sent w)) (login_request server)) set_cookie /\
           extract_cookie set_cookie = Some c).
Proof.
  intros server w He.
  pose proof (cached_session_none_of_expiry _ server He) as Hc.
  destruct (login_outcome_cases (http (length (w_sent w)) (login_request server)))
    as [(reason & err & Hf) | (sc & Hok)].
  - eexists _, _, _. split; [apply ensure_failure; eassumption|].
    split; [reflexivity | discriminate].
  - destruct (ensure_success utcnow http server w sc Hc Hok) as (cookie & Hx & Hrun).
    eexists _, _, _. split; [exact Hrun|]. split; [reflexivity|].
    intros c [= <-]. eauto.
Qed.

(** X7.  After a refresh that stored a non-empty cookie, a second call made
    while more than 60 seconds of the 3600-second lifetime remain returns the
    same cookie without sending anything: two calls, one login. *)
Theorem second_call_reuses_session :
  forall (server : WgServer.t) (w : World) (set_cookie : string),
    cached_session (utcnow (w_ticks w)) server = None ->
    LoginSuccess (http (length (w_sent w)) (login_request server)) set_cookie ->
    utcnow (S (w_ticks w)) + timedelta_seconds 60
      < utcnow (w_ticks w) + timedelta_seconds 3600 ->
    exists cookie server1 w1,
      _ensure_session_cookie utcnow http server w
        = Ok ((Some cookie, None), server1) w1 /\
      w_sent w1 = w_sent w ++ [login_request server] /\
      (cookie <> EmptyString ->
       exists w2,
         _ensure_session_cookie utcnow http server1 w1
           = Ok ((Some cookie, None), server1) w2 /\
         w_sent w2 = w_sent w1 /\ w_commits w2 = w_commits w1).
Proof.
  intros server w sc Hc Hok Hlt.
  destruct (ensure_success utcnow http server w sc Hc Hok) as (cookie & _ & Hrun).
  eexists _, _, _. split; [exact Hrun|]. split; [reflexivity|].
  intros Hne. exists (after_clock (after_login (login_request server)
                       (refreshed (utcnow (w_ticks w)) cookie server) w)).
  split; [|split; reflexivity].
  apply ensure_cached, cached_session_some.
  split; [reflexivity|]. split; [exact Hne|].
  eexists. split; [reflexivity|]. exact Hlt.
Qed.

End SessionMore.

Lemma stale_session_always_relogs_witness :
  exists r server' w',
    _ensure_session_cookie Demo.clock Demo.accepting Demo.stale_server
      (Demo.world [Demo.stale_server]) = Ok (r, server') w' /\
    w_sent w' = [] ++
      [mkRequest "POST" "http://10.0.0.1:51821/api/session"
         (Some (JDict [("username", JStr "admin"); ("password", JStr "secret");
                       ("remember", JBool true)])) []] /\
    (forall c, fst r = Some c ->
       exists set_cookie,
         LoginSuccess (Demo.accepting 0 (login_request Demo.stale_server)) set_cookie /\
         extract_cookie set_cookie = Some c).
Proof.
  apply (stale_session_always_relogs Demo.clock Demo.accepting Demo.stale_server
           (Demo.world [Demo.stale_server])).
  intros e [= <-]. vm_compute. discriminate.
Defined.

Lemma second_call_reuses_session_witness :
  exists cookie server1 w1,
    _ensure_session_cookie Demo.clock Demo.accepting Demo.stale_server
      (Demo.world [Demo.stale_server]) = Ok ((Some cookie, None), server1) w1 /\
    w_sent w1 = [] ++ [login_request Demo.stale_server] /\
    (cookie <> EmptyString ->
     exists w2,
       _ensure_session_cookie Demo.clock Demo.accepting server1 w1
         = Ok ((Some cookie, None), server1) w2 /\
       w_sent w2 = w_sent w1 /\ w_commits w2 = w_commits w1).
Proof.
  apply (second_call_reuses_session Demo.clock Demo.accepting Demo.stale_server
           (Demo.world [Demo.stale_server])
           "wg-easy=s%3Atoken.sig; Path=/; HttpOnly").
  - reflexivity.
  - eexists. repeat split; reflexivity.
  - vm_compute. reflexivity.
Defined.

(** ** Addresses and dates on the wire *)

Section WireFormat.
Import PyStr PyStrFacts.

Lemma rstrip_slash_eq (c : ascii) (r : string) :
  rstrip_slash (String c r) =
  match rstrip_slash r with
  | EmptyString => if Ascii.eqb c "/" then EmptyString else String c EmptyString
  | r' => String c r'
  end.
Proof. reflexivity. Qed.

Lemma rstrip_slash_snoc (s : string) : rstrip_slash (s +:+ "/") = rstrip_slash s.
Proof.
  induction s as [|c s IH]; [reflexivity|].
  rewrite append_cons, !rstrip_slash_eq, IH. reflexivity.
Qed.

Lemma rstrip_slash_no_trailing (s : string) :
  forall t, rstrip_slash s <> t +:+ "/".
Proof.
  induction s as [|c s IH]; intros t.
  - destruct t; discriminate.
  - rewrite rstrip_slash_eq.
    destruct (rstrip_slash s) as [|a r] eqn:Hr.
    + destruct (Ascii.eqb c "/") eqn:Hc.
      * destruct t; discriminate.
      * destruct t as [|b t]; rewrite ?append_cons, ?append_nil.
        -- intros [= ->]. discriminate.
        -- intros [= _ Ht]. destruct t; discriminate.
    + destruct t as [|b t]; rewrite ?append_cons, ?append_nil.
      * discriminate.
      * intros [= _ Ht]. exact (IH t Ht).
Qed.

Lemma drop_app_length (p s : string) : drop (String.length p) (p +:+ s) = s.
Proof. induction p as [|c p IH]; [reflexivity|]. exact IH. Qed.

Lemma length_append (p s : string) :
  String.length (p +:+ s) = (String.length p + String.length s)%nat.
Proof. induction p as [|c p IH]; [reflexivity|]. simpl. rewrite <- IH. reflexivity. Qed.

Lemma endswith_app (p suf : string) : endswith suf (p +:+ suf) = true.
Proof.
  unfold endswith. rewrite length_append.
  replace (String.length p + String.length suf - String.length suf)%nat
    with (String.length p) by lia.
  rewrite drop_app_length, String.eqb_refl, andb_true_r.
  apply Nat.leb_le. lia.
Qed.

Lemma prefix_cons (a b : ascii) (s1 s2 : string) :
  String.prefix (String a s1) (String b s2)
  = if ascii_dec a b then String.prefix s1 s2 else false.
Proof. reflexivity. Qed.

Lemma replace_from_cons (old new : string) (c : ascii) (r : string) :
  replace_from 0 old new (String c r)
  = if String.prefix old (String c r)
    then new +:+ replace_from (String.length old - 1) old new r
    else String c (replace_from 0 old new r).
Proof. reflexivity. Qed.

Lemma replace_utc_offset (p : string) :
  contains "+" p = false ->
  replace "+00:00" "Z" (p +:+ "+00:00") = p +:+ "Z".
Proof.
  unfold contains, replace.
  induction p as [|c p IH]; intros Hp; [reflexivity|].
  rewrite split_once_eq in Hp.
  rewrite append_cons, replace_from_cons.
  rewrite prefix_cons in *.
  destruct (ascii_dec "+" c) as [Heq|Hne].
  - replace (String.prefix "" p) with true in Hp by (destruct p; reflexivity).
    discriminate.
  - rewrite append_cons. f_equal. apply IH.
    destruct (split_once "+" p) as [[a b]|]; [discriminate | reflexivity].
Qed.

(** X8.  Trailing slashes of a server's base address do not matter: the
    address is cut back so that it never ends in a slash, and with one more
    slash at its end the login and the create-peer requests are the same. *)
Theorem trailing_slash_is_ignored :
  forall (isoformat_utc : datetime -> string) id name (base : string) user pw
         ok checked err cookie expires c n (e : option datetime),
    (forall t, rstrip_slash base <> t +:+ "/") /\
    login_request
      (WgServer.mk id name (base +:+ "/") user pw ok checked err cookie expires)
    = login_request (WgServer.mk id name base user pw ok checked err cookie expires) /\
    create_request isoformat_utc
      (WgServer.mk id name (base +:+ "/") user pw ok checked err cookie expires) c n e
    = create_request isoformat_utc
        (WgServer.mk id name base user pw ok checked err cookie expires) c n e.
Proof.
  intros. split; [apply rstrip_slash_no_trailing|].
  unfold login_request, create_request. simpl.
  rewrite rstrip_slash_snoc. split; reflexivity.
Qed.

(** X9.  An expiry whose ISO rendering ends in the UTC offset [+00:00] (and
    has no other plus sign) goes out with a [Z] in place of the offset, both
    when a peer is created and when its expiry is updated. *)
Theorem utc_expiry_sent_with_z :
  forall (isoformat_utc : datetime -> string) (name : string) (d : datetime)
         (stem : string),
    isoformat_utc d = stem +:+ "+00:00" ->
    contains "+" stem = false ->
    create_payload isoformat_utc name (Some d)
      = JDict [("name", JStr name); ("expiresAt", JStr (stem +:+ "Z"))] /\
    expires_json isoformat_utc (Some d) = JStr (stem +:+ "Z").
Proof.
  intros iso name d stem Hiso Hplus.
  unfold create_payload, expires_json. rewrite Hiso.
  rewrite endswith_app, (replace_utc_offset stem Hplus). split; reflexivity.
Qed.

End WireFormat.

Lemma utc_expiry_sent_with_z_witness :
  create_payload Demo.isoformat "alice" (Some 0)
    = JDict [("name", JStr "alice");
             ("expiresAt", JStr ("2025-12-10T00:00:00" +:+ "Z"))] /\
  expires_json Demo.isoformat (Some 0) = JStr ("2025-12-10T00:00:00" +:+ "Z").
Proof.
  apply (utc_expiry_sent_with_z Demo.isoformat "alice" 0 "2025-12-10T00:00:00");
    reflexivity.
Defined.

(** ** The other gateway operations *)

Section OperationsMore.

Variable utcnow : nat -> datetime.
Variable http : nat -> HttpRequest -> HttpOutcome.
Variable isoformat_utc : datetime -> string.
Variable int_of_str : string -> option Z.
Variable py_len : JSON -> option Z.

Local Abbreviation ensure := (_ensure_session_cookie utcnow http).

Ltac run_op :=
  cbv [_post_simple_action delete_client get_client_raw check_server_health
       disable_client enable_client
       mbind M_bind bind mret M_ret ret raise http_send db_add_server db_commit].

Lemma step_ids (s : WgServer.t) (l : list WgServer.t) :
  WgServer.id <$> ((fun r => if WgServer.id r =? WgServer.id s then s else r) <$> l)
  = WgServer.id <$> l.
Proof.
  induction l as [|r l IH]; [reflexivity|].
  rewrite !fmap_cons, IH. f_equal.
  destruct (WgServer.id r =? WgServer.id s) eqn:E; [|reflexivity].
  apply Z.eqb_eq in E. congruence.
Qed.

Lemma session_step_clock (w : World) : session_step w (after_clock w).
Proof. repeat split; auto. Qed.

Lemma session_step_login rq s (w : World) : session_step w (after_login rq s w).
Proof.
  split; [reflexivity|]. split; [reflexivity|]. split; [reflexivity|].
  split; [apply step_ids|]. right. split; reflexivity.
Qed.

(** The session cache always returns, one of two shapes, and keeps the
    identity of the server. *)
Lemma ensure_shape (server : WgServer.t) (w : World) :
  exists r server' w',
    ensure server w = Ok (r, server') w' /\
    ((exists c, r = (Some c, None)) \/ (exists err, r = (None, Some err))) /\
    WgServer.id server' = WgServer.id server /\
    WgServer.name server' = WgServer.name server /\
    WgServer.base_url server' = WgServer.base_url server /\
    session_step w w' /\
    (w_sent w' = w_sent w \/ w_sent w' = w_sent w ++ [login_request server]) /\
    match fst r with
    | Some c => WgServer.session_cookie server' = Some c
    | None => WgServer.last_status_ok server' = false
    end.
Proof.
  destruct (cached_session (utcnow (w_ticks w)) server) as [c|] eqn:Hc.
  - eexists _, _, _. split; [apply ensure_cached; exact Hc|].
    split; [left; eauto|]. do 3 (split; [reflexivity|]).
    split; [apply session_step_clock|]. split; [left; reflexivity|].
    apply cached_session_some in Hc. destruct Hc as [Hc _]. exact Hc.
  - destruct (login_outcome_cases (http (length (w_sent w)) (login_request server)))
      as [(reason & err & Hf) | (sc & Hok)].
    + eexists _, _, _. split; [apply ensure_failure; eassumption|].
      split; [right; eauto|]. do 3 (split; [reflexivity|]).
      split; [apply session_step_login|]. split; [right; reflexivity | reflexivity].
    + destruct (ensure_success utcnow http server w sc Hc Hok) as (cookie & _ & Hrun).
      eexists _, _, _. split; [exact Hrun|].
      split; [left; eauto|]. do 3 (split; [reflexivity|]).
      split; [apply session_step_login|]. split; [right; reflexivity | reflexivity].
Qed.

(** [_post_simple_action] and [delete_client] once the cookie is there. *)
Lemma action_after_session (server : WgServer.t) (w : World) client_id action
    c s1 w1 :
  ensure server w = Ok ((Some c, None), s1) w1 ->
  c <> EmptyString ->
  _post_simple_action utcnow http server client_id action w =
  let rq := mkRequest "POST" (client_url s1 client_id +:+ "/" +:+ action) None
              (session_headers c) in
  match http (length (w_sent w1)) rq with
  | Raised e => Ok (Some e, s1) (sent rq w1)
  | Responded resp =>
      if negb (status_code resp =? 200) then
        Ok (Some (action +:+ " failed with status "
                  +:+ pretty (status_code resp) +:+ ": " +:+ text resp), s1)
           (sent rq w1)
      else Ok (None, s1) (sent rq w1)
  end.
Proof.
  intros Hs Hne. run_op. rewrite Hs. simpl.
  rewrite (PyStrFacts.truthy_not_empty c Hne). simpl.
  destruct (http _ _) as [e|resp]; [reflexivity|].
  destruct (negb _); reflexivity.
Qed.

Lemma delete_after_session (server : WgServer.t) (w : World) client_id c s1 w1 :
  ensure server w = Ok ((Some c, None), s1) w1 ->
  c <> EmptyString ->
  delete_client utcnow http server client_id w =
  let rq := mkRequest "DELETE" (client_url s1 client_id) None (session_headers c) in
  match http (length (w_sent w1)) rq with
  | Raised e => Ok (Some e, s1) (sent rq w1)
  | Responded resp =>
      if negb (status_code resp =? 200) then
        Ok (Some ("delete client failed with status "
                  +:+ pretty (status_code resp) +:+ ": " +:+ text resp), s1)
           (sent rq w1)
      else Ok (None, s1) (sent rq w1)
  end.
Proof.
  intros Hs Hne. run_op. rewrite Hs. simpl.
  rewrite (PyStrFacts.truthy_not_empty c Hne). simpl.
  destruct (http _ _) as [e|resp]; [reflexivity|].
  destruct (negb _); reflexivity.
Qed.

Lemma get_after_session (server : WgServer.t) (w : World) client_id c s1 w1 :
  ensure server w = Ok ((Some c, None), s1) w1 ->
  c <> EmptyString ->
  get_client_raw utcnow http server client_id w =
  let rq := mkRequest "GET" (client_url s1 client_id) None (session_headers c) in
  match http (length (w_sent w1)) rq with
  | Raised e => Ok ((None, Some e), s1) (sent rq w1)
  | Responded resp =>
      if negb (status_code resp =? 200) then
        Ok ((None, Some ("get client failed with status "
                         +:+ pretty (status_code resp) +:+ ": " +:+ text resp)), s1)
           (sent rq w1)
      else
        match json resp with
        | None => Exc (PyError "JSONDecodeError") (sent rq w1)
        | Some JNull => Ok ((None, None), s1) (sent rq w1)
        | Some data => Ok ((Some data, None), s1) (sent rq w1)
        end
  end.
Proof.
  intros Hs Hne. run_op. rewrite Hs. simpl.
  rewrite (PyStrFacts.truthy_not_empty c Hne). simpl.
  destruct (http _ _) as [e|resp]; [reflexivity|].
  destruct (negb _); [reflexivity|].
  destruct (json resp) as [[| | | | |]|]; reflexivity.
Qed.

(** Without a usable cookie every operation stops where the session cache
    left off. *)
Lemma op_without_session (server : WgServer.t) (w : World) cookie error s1 w1 :
  ensure server w = Ok ((cookie, error), s1) w1 ->
  PyStr.truthy_opt error || negb (PyStr.truthy_opt cookie) = true ->
  (forall client_id action,
     _post_simple_action utcnow http server client_id action w
       = Ok (session_error error, s1) w1) /\
  (forall client_id,
     delete_client utcnow http server client_id w = Ok (session_error error, s1) w1) /\
  (forall client_id,
     get_client_raw utcnow http server client_id w
       = Ok ((None, session_error error), s1) w1) /\
  check_server_health utcnow http py_len server w
    = Ok ((false, session_error error, None), s1) w1.
Proof.
  intros Hs Hb. repeat split; intros; run_op; rewrite Hs; simpl; rewrite Hb; reflexivity.
Qed.

Lemma session_error_truthy (error : option string) :
  PyStr.truthy_opt (session_error error) = true.
Proof.
  unfold session_error, PyStr.or_else.
  destruct (PyStr.truthy_opt error) eqn:E; [exact E | reflexivity].
Qed.

(** X10.  Enable, disable and delete are single calls: with a cookie from
    the session cache, exactly one request goes out (a POST to
    [/api/client/<id>/<action>], a DELETE to [/api/client/<id>]) carrying the
    cookie, and no error is returned exactly when the remote answers it with
    status 200. *)
Theorem single_call_actions :
  forall (server : WgServer.t) (w : World) (client_id : Z) (action c : string)
         s1 w1,
    ensure server w = Ok ((Some c, None), s1) w1 ->
    c <> EmptyString ->
    (exists r w2,
       _post_simple_action utcnow http server client_id action w = Ok (r, s1) w2 /\
       w_sent w2 = w_sent w1 ++
         [mkRequest "POST" (client_url s1 client_id +:+ "/" +:+ action)
            None [("accept", "application/json"); ("cookie", "wg-easy=" +:+ c)]] /\
       (r = None <->
        exists resp,
          http (length (w_sent w1))
            (mkRequest "POST" (client_url s1 client_id +:+ "/" +:+ action) None
               (session_headers c)) = Responded resp /\
          status_code resp = 200)) /\
    (exists r w2,
       delete_client utcnow http server client_id w = Ok (r, s1) w2 /\
       w_sent w2 = w_sent w1 ++
         [mkRequest "DELETE" (client_url s1 client_id)
            None [("accept", "application/json"); ("cookie", "wg-easy=" +:+ c)]] /\
       (r = None <->
        exists resp,
          http (length (w_sent w1))
            (mkRequest "DELETE" (client_url s1 client_id) None (session_headers c))
            = Responded resp /\
          status_code resp = 200)).
Proof.
  intros server w client_id action c s1 w1 Hs Hne. split.
  - rewrite (action_after_session server w client_id action c s1 w1 Hs Hne).
    cbv zeta. destruct (http _ _) as [e|resp] eqn:Ho.
    + eexists _, _. split; [reflexivity|]. split; [reflexivity|].
      split; [discriminate | intros (resp & Hr & _); discriminate].
    + destruct (status_code resp =? 200) eqn:Hst; simpl.
      * apply Z.eqb_eq in Hst. eexists _, _. split; [reflexivity|].
        split; [reflexivity|]. split; [eauto | reflexivity].
      * apply Z.eqb_neq in Hst. eexists _, _. split; [reflexivity|].
        split; [reflexivity|].
        split; [discriminate | intros (resp' & [= <-] & Hok); contradiction].
  - rewrite (delete_after_session server w client_id c s1 w1 Hs Hne).
    cbv zeta. destruct (http _ _) as [e|resp] eqn:Ho.
    + eexists _, _. split; [reflexivity|]. split; [reflexivity|].
      split; [discriminate | intros (resp & Hr & _); discriminate].
    + destruct (status_code resp =? 200) eqn:Hst; simpl.
      * apply Z.eqb_eq in Hst. eexists _, _. split; [reflexivity|].
        split; [reflexivity|]. split; [eauto | reflexivity].
      * apply Z.eqb_neq in Hst. eexists _, _. split; [reflexivity|].
        split; [reflexivity|].
        split; [discriminate | intros (resp' & [= <-] & Hok); contradiction].
Qed.

(** X11.  When the session cache returns an error, every operation returns
    right away: it reports that error (or [No cookie] if the message is
    empty), and the world is the one the session cache left, so that nothing
    but the failed login has been sent. *)
Theorem failed_session_short_circuits :
  forall (server : WgServer.t) (w : World) (err : string) s1 w1
         (client_id : Z) (action name : string) (expires_at : option datetime),
    ensure server w = Ok ((None, Some err), s1) w1 ->
    _post_simple_action utcnow http server client_id action w
      = Ok (session_error (Some err), s1) w1 /\
    delete_client utcnow http server client_id w
      = Ok (session_error (Some err), s1) w1 /\
    get_client_raw utcnow http server client_id w
      = Ok ((None, session_error (Some err)), s1) w1 /\
    update_client_expires utcnow http isoformat_utc server client_id expires_at w
      = Ok (session_error (Some err), s1) w1 /\
    create_client utcnow http isoformat_utc int_of_str server name expires_at w
      = Ok ((None, session_error (Some err)), s1) w1 /\
    check_server_health utcnow http py_len server w
      = Ok ((false, session_error (Some err), None), s1) w1 /\
    (err <> EmptyString -> session_error (Some err) = Some err).
Proof.
  intros server w err s1 w1 client_id action name expires_at Hs.
  assert (Hb : PyStr.truthy_opt (Some err) || negb (PyStr.truthy_opt None) = true)
    by apply orb_true_r.
  destruct (op_without_session server w None (Some err) s1 w1 Hs Hb)
    as (Hact & Hdel & Hget & Hchk).
  split; [apply Hact|]. split; [apply Hdel|]. split; [apply Hget|].
  split.
  { unfold update_client_expires. cbv [mbind M_bind bind mret M_ret ret].
    rewrite Hget. simpl.
    pose proof (session_error_truthy (Some err)) as Ht.
    unfold session_error in *. rewrite Ht. unfold PyStr.or_else at 1.
    rewrite Ht. reflexivity. }
  split.
  { apply (create_without_session utcnow http isoformat_utc int_of_str
             server w name expires_at None (Some err) s1 w1 Hs Hb). }
  split; [exact Hchk|].
  intros Hne. unfold session_error, PyStr.or_else. simpl.
  rewrite (PyStrFacts.truthy_not_empty err Hne). reflexivity.
Qed.

Lemma lookup_dict_set_eq (k : string) (v : JSON) (d : list (string * JSON)) :
  Json.lookup k (dict_set k v d) = Some v.
Proof.
  induction d as [|[k' v'] d IH]; simpl.
  - rewrite String.eqb_refl. reflexivity.
  - destruct (String.eqb k k') eqn:E; simpl; rewrite E; [reflexivity | exact IH].
Qed.

Lemma lookup_dict_set_ne (k k0 : string) (v : JSON) (d : list (string * JSON)) :
  k0 <> k -> Json.lookup k0 (dict_set k v d) = Json.lookup k0 d.
Proof.
  intros Hne. induction d as [|[k' v'] d IH]; simpl.
  - apply String.eqb_neq in Hne. rewrite Hne. reflexivity.
  - destruct (String.eqb k k') eqn:E; simpl.
    + apply String.eqb_eq in E. subst k'.
      apply String.eqb_neq in Hne. rewrite Hne. reflexivity.
    + rewrite IH. reflexivity.
Qed.

Lemma keys_dict_set (k : string) (v : JSON) (d : list (string * JSON)) :
  (dict_set k v d).*1 = match Json.lookup k d with
                        | Some _ => d.*1
                        | None => d.*1 ++ [k]
                        end.
Proof.
  induction d as [|[k' v'] d IH]; [reflexivity|].
  cbn [dict_set Json.lookup].
  destruct (String.eqb k k'); [reflexivity|].
  rewrite !fmap_cons, IH. destruct (Json.lookup k d); reflexivity.
Qed.

Ltac run_update :=
  unfold update_client_expires; cbv [mbind M_bind bind mret M_ret ret raise http_send].

(** X12.  Updating an expiry is a read followed by a write of the whole
    record: the body of the POST is the object that the GET returned with
    [expiresAt] set to the new value, every other key and the order of the
    keys as they were, and no error is returned exactly when the remote
    answers the POST with status 200. *)
Theorem expiry_update_is_read_modify_write :
  forall (server : WgServer.t) (w : World) (client_id : Z)
         (expires_at : option datetime) c s1 w1 resp d c2 s2 w2,
    ensure server w = Ok ((Some c, None), s1) w1 ->
    c <> EmptyString ->
    http (length (w_sent w1))
      (mkRequest "GET" (client_url s1 client_id) None (session_headers c))
      = Responded resp ->
    status_code resp = 200 ->
    json resp = Some (JDict d) ->
    ensure s1
      (sent (mkRequest "GET" (client_url s1 client_id) None (session_headers c)) w1)
      = Ok ((Some c2, None), s2) w2 ->
    c2 <> EmptyString ->
    exists r w3 body,
      update_client_expires utcnow http isoformat_utc server client_id expires_at w
        = Ok (r, s2) w3 /\
      w_sent w3 = w_sent w2 ++
        [mkRequest "POST" (client_url s2 client_id) (Some (JDict body))
           [("accept", "application/json"); ("content-type", "application/json");
            ("cookie", "wg-easy=" +:+ c2)]] /\
      Json.lookup "expiresAt" body = Some (expires_json isoformat_utc expires_at) /\
      (forall k, k <> "expiresAt" -> Json.lookup k body = Json.lookup k d) /\
      (is_Some (Json.lookup "expiresAt" d) -> body.*1 = d.*1) /\
      (r = None <->
       exists reply,
         http (length (w_sent w2))
           (mkRequest "POST" (client_url s2 client_id) (Some (JDict body))
              [("accept", "application/json"); ("content-type", "application/json");
               ("cookie", "wg-easy=" +:+ c2)]) = Responded reply /\
         status_code reply = 200).
Proof.
  intros server w client_id expires_at c s1 w1 resp d c2 s2 w2
         Hs Hne Hget Hst Hj Hs2 Hne2.
  pose proof (get_after_session server w client_id c s1 w1 Hs Hne) as Hrun.
  cbv zeta in Hrun. rewrite Hget, Hst, Hj in Hrun. simpl in Hrun.
  run_update. rewrite Hrun. simpl.
  fold (sent (mkRequest "GET" (client_url s1 client_id) None (session_headers c)) w1).
  rewrite Hs2. simpl. rewrite (PyStrFacts.truthy_not_empty c2 Hne2). simpl.
  exists (match http (length (w_sent w2))
                  (mkRequest "POST" (client_url s2 client_id)
                     (Some (JDict (dict_set "expiresAt"
                                     (expires_json isoformat_utc expires_at) d)))
                     [("accept", "application/json");
                      ("content-type", "application/json");
                      ("cookie", "wg-easy=" +:+ c2)]) with
          | Raised e => Some e
          | Responded reply =>
              if negb (status_code reply =? 200)
              then Some ("update client failed with status "
                         +:+ pretty (status_code reply) +:+ ": " +:+ text reply)
              else None
          end).
  eexists _, (dict_set "expiresAt" (expires_json isoformat_utc expires_at) d).
  split.
  { destruct (http (length (w_sent w2)) _) as [e|reply]; [reflexivity|].
    destruct (negb _); reflexivity. }
  split; [reflexivity|].
  split; [apply lookup_dict_set_eq|].
  split; [intros k Hk; apply lookup_dict_set_ne, Hk|].
  split.
  { intros [v Hv]. rewrite keys_dict_set, Hv. reflexivity. }
  destruct (http (length (w_sent w2)) _) as [e|reply].
  - split; [discriminate | intros (reply & Hr & _); discriminate].
  - destruct (status_code reply =? 200) eqn:Hst2; simpl.
    + apply Z.eqb_eq in Hst2. split; [eauto | reflexivity].
    + apply Z.eqb_neq in Hst2.
      split; [discriminate | intros (reply' & [= <-] & Hok); contradiction].
Qed.

(** X13.  A read that fails is never followed by a write: when the GET
    raises, is answered with a status other than 200, or returns JSON null,
    [update_client_expires] returns an error and the GET is the last request
    sent. *)
Theorem failed_read_sends_no_write :
  forall (server : WgServer.t) (w : World) (client_id : Z)
         (expires_at : option datetime) c s1 w1,
    ensure server w = Ok ((Some c, None), s1) w1 ->
    c <> EmptyString ->
    (forall resp,
       http (length (w_sent w1))
         (mkRequest "GET" (client_url s1 client_id) None (session_headers c))
         = Responded resp ->
       status_code resp <> 200 \/ json resp = Some JNull) ->
    exists err,
      update_client_expires utcnow http isoformat_utc server client_id expires_at w
        = Ok (Some err, s1)
             (sent (mkRequest "GET" (client_url s1 client_id) None (session_headers c))
                   w1) /\
      err <> EmptyString.
Proof.
  intros server w client_id expires_at c s1 w1 Hs Hne Hbad.
  pose proof (get_after_session server w client_id c s1 w1 Hs Hne) as Hrun.
  cbv zeta in Hrun. run_update.
  destruct (http _ _) as [e|resp] eqn:Ho.
  - rewrite Hrun. simpl. destruct e as [|a e]; simpl.
    + eexists. split; [reflexivity | discriminate].
    + eexists. split; [reflexivity | discriminate].
  - destruct (Hbad resp eq_refl) as [Hst|Hnull].
    + apply Z.eqb_neq in Hst. rewrite Hst in Hrun. simpl in Hrun.
      rewrite Hrun. simpl. eexists. split; [reflexivity | discriminate].
    + destruct (status_code resp =? 200) eqn:Hst; simpl in Hrun.
      * rewrite Hnull in Hrun. rewrite Hrun. simpl.
        eexists. split; [reflexivity | discriminate].
      * rewrite Hrun. simpl. eexists. split; [reflexivity | discriminate].
Qed.

Lemma check_after_session (server : WgServer.t) (w : World) c s1 w1 :
  ensure server w = Ok ((Some c, None), s1) w1 ->
  c <> EmptyString ->
  check_server_health utcnow http py_len server w =
  let rq := mkRequest "GET"
              (PyStr.rstrip_slash (WgServer.base_url s1) +:+ "/api/client") None
              (session_headers c) in
  let marked ok err :=
    WgServer.set_last_error err (WgServer.set_last_status_ok ok s1) in
  let w2 s := mkWorld (w_ticks w1) (w_sent w1 ++ [rq])
                ((fun r => if WgServer.id r =? WgServer.id s then s else r)
                   <$> w_servers w1)
                (w_users w1) (w_bindings w1 ++ w_pending w1) []
                (w_user_seq w1) (S (w_commits w1)) in
  match http (length (w_sent w1)) rq with
  | Raised e =>
      Ok ((false, Some e, None), marked false (Some e)) (w2 (marked false (Some e)))
  | Responded resp =>
      if negb (status_code resp =? 200) then
        let err := "/api/client failed with status " +:+ pretty (status_code resp) in
        Ok ((false, Some err, None), marked false (Some err))
           (w2 (marked false (Some err)))
      else
        match json resp with
        | None => Exc (PyError "JSONDecodeError") (w2 (marked true None))
        | Some data =>
            match py_len data with
            | None => Exc (PyError "TypeError") (w2 (marked true None))
            | Some n => Ok ((true, None, Some n), marked true None)
                           (w2 (marked true None))
            end
        end
  end.
Proof.
  intros Hs Hne. run_op. rewrite Hs. simpl.
  rewrite (PyStrFacts.truthy_not_empty c Hne). simpl.
  destruct (http _ _) as [e|resp]; [reflexivity|].
  destruct (negb _); [reflexivity|].
  destruct (json resp) as [data|]; [|reflexivity].
  destruct (py_len data); reflexivity.
Qed.


End OperationsMore.

(** ** Handlers that delete and attach *)

Section HandlersMore.

Variable utcnow : nat -> datetime.
Variable http : nat -> HttpRequest -> HttpOutcome.
Variable isoformat_utc : datetime -> string.
Variable int_of_str : string -> option Z.

Lemma remove_row_app (b : UserServerBinding.t) (pre rest : list UserServerBinding.t) :
  b ∉ pre -> remove_row b (pre ++ b :: rest) = pre ++ rest.
Proof.
  induction pre as [|x pre IH]; intros Hnin; simpl.
  - destruct (decide (b = b)); [reflexivity | congruence].
  - destruct (decide (x = b)) as [->|Hne].
    + exfalso. apply Hnin. left.
    + f_equal. apply IH. intros Hin. apply Hnin. right. exact Hin.
Qed.

(** Deleting the rows that a filter selected leaves the rows that it did
    not select. *)
Lemma delete_selected (p : UserServerBinding.t -> bool)
    (rows : list UserServerBinding.t) :
  forall pre,
    Forall (fun r => p r = false) pre ->
    fold_left (fun acc b => remove_row b acc) (List.filter p rows) (pre ++ rows)
    = pre ++ List.filter (fun r => negb (p r)) rows.
Proof.
  induction rows as [|x rows IH]; intros pre Hpre; simpl.
  - reflexivity.
  - destruct (p x) eqn:Hx; simpl.
    + rewrite remove_row_app; [apply IH, Hpre|].
      intros Hin. rewrite Forall_forall in Hpre. specialize (Hpre x Hin). congruence.
    + rewrite (cons_middle x pre rows), app_assoc.
      rewrite IH.
      * rewrite <- app_assoc. reflexivity.
      * apply Forall_app. split; [exact Hpre | repeat constructor; exact Hx].
Qed.

Lemma db_delete_bindings_run (bs : list UserServerBinding.t) : forall w,
  db_delete_bindings bs w =
  Ok tt (mkWorld (w_ticks w) (w_sent w) (w_servers w) (w_users w)
           (fold_left (fun acc b => remove_row b acc) bs (w_bindings w))
           (w_pending w) (w_user_seq w) (w_commits w)).
Proof.
  induction bs as [|b bs IH]; intros w; simpl.
  - destruct w; reflexivity.
  - cbv [mbind M_bind bind db_delete_binding]. rewrite IH. reflexivity.
Qed.

(** X18.  Deleting a server removes the server's row and exactly the
    bindings that point to it, and keeps every other server, binding and
    user; for an unknown server id it raises 404 and changes nothing. *)
Theorem delete_server_removes_its_bindings :
  forall (server_id : Z) (w : World),
    match delete_server server_id w with
    | Ok _ w' =>
        server_id ∈ (WgServer.id <$> w_servers w) /\
        w_servers w'
          = List.filter (fun s => negb (WgServer.id s =? server_id)) (w_servers w) /\
        w_bindings w'
          = List.filter (fun b => negb (UserServerBinding.server_id b =? server_id))
              (w_bindings w) ++ w_pending w /\
        w_users w' = w_users w /\
        server_id ∉ (WgServer.id <$> w_servers w')
    | Exc e w' =>
        e = HTTPException 404 "Server not found" /\ w' = w /\
        server_id ∉ (WgServer.id <$> w_servers w)
    end.
Proof.
  intros server_id w. unfold delete_server.
  cbv [mbind M_bind bind mret M_ret ret raise db_first_server db_all_bindings
       db_delete_server db_commit].
  destruct (List.find _ (w_servers w)) as [server|] eqn:Hfind.
  - apply find_some in Hfind as [Hin Hid]. apply Z.eqb_eq in Hid.
    rewrite db_delete_bindings_run. simpl.
    rewrite (delete_selected _ (w_bindings w) []) by constructor. simpl.
    rewrite Hid.
    split; [apply list_elem_of_fmap; exists server;
            rewrite list_elem_of_In; auto|].
    repeat split.
    intros Hin'. apply list_elem_of_fmap in Hin' as (s & Hs & Hs').
    rewrite list_elem_of_In in Hs'. apply filter_In in Hs' as [_ Hs'].
    apply negb_true_iff, Z.eqb_neq in Hs'. congruence.
  - split; [reflexivity|]. split; [reflexivity|].
    intros Hin. apply list_elem_of_fmap in Hin as (s & Hs & Hs').
    rewrite list_elem_of_In in Hs'.
    pose proof (find_none _ _ Hfind s Hs') as Hn. simpl in Hn.
    apply Z.eqb_neq in Hn. congruence.
Qed.

Lemma session_step_rows (w w' : World) :
  session_step w w' -> all_rows w' = all_rows w.
Proof.
  intros (_ & _ & _ & _ & [[Hb Hp] | [Hb Hp]]); unfold all_rows; rewrite Hb, Hp;
    [reflexivity | apply app_nil_r].
Qed.

Lemma session_step_fresh (w w' : World) :
  session_step w w' -> w_pending w = [] ->
  w_bindings w' = w_bindings w /\ w_pending w' = [].
Proof.
  intros (_ & _ & _ & _ & [[Hb Hp] | [Hb Hp]]) Hfresh; unfold all_rows in *;
    rewrite Hb, Hp, ?Hfresh, ?app_nil_r; auto.
Qed.

Lemma session_step_sent (w w1 : World) rq :
  session_step w w1 -> session_step w (sent rq w1).
Proof. intros H. exact H. Qed.

(** [delete_client] always returns and leaves the tables alone. *)
Lemma delete_client_run (server : WgServer.t) (client_id : Z) (w : World) :
  exists r s1 w1,
    delete_client utcnow http server client_id w = Ok (r, s1) w1 /\
    WgServer.id s1 = WgServer.id server /\
    session_step w w1.
Proof.
  destruct (ensure_shape utcnow http server w)
    as (r & s1 & w1 & Hrun & Hshape & Hid & _ & _ & Hstep & _).
  destruct Hshape as [[c ->] | [err ->]].
  - destruct (decide (c = EmptyString)) as [->|Hne].
    + destruct (op_without_session utcnow http (fun _ => None) server w
                  (Some EmptyString) None s1 w1 Hrun eq_refl) as (_ & Hdel & _).
      eexists _, _, _. split; [apply Hdel | auto].
    + rewrite (delete_after_session utcnow http server w client_id c s1 w1 Hrun Hne).
      cbv zeta. destruct (http _ _) as [e|resp].
      * eexists _, _, _. split; [reflexivity | auto].
      * destruct (negb _); eexists _, _, _; (split; [reflexivity | auto]).
  - destruct (op_without_session utcnow http (fun _ => None) server w
                None (Some err) s1 w1 Hrun (orb_true_r _)) as (_ & Hdel & _).
    eexists _, _, _. split; [apply Hdel | auto].
Qed.

(** [create_client] leaves the tables alone as well. *)
Lemma create_client_run (server : WgServer.t) name expires_at (w : World) :
  match create_client utcnow http isoformat_utc int_of_str server name expires_at w with
  | Ok (r, s1) w1 => WgServer.id s1 = WgServer.id server /\ session_step w w1
  | Exc e w1 => (exists kind, e = PyError kind) /\ session_step w w1
  end.
Proof.
  destruct (ensure_shape utcnow http server w)
    as (r & s1 & w1 & Hrun & Hshape & Hid & _ & _ & Hstep & _).
  destruct Hshape as [[c ->] | [err ->]].
  - destruct (decide (c = EmptyString)) as [->|Hne].
    + rewrite (create_without_session utcnow http isoformat_utc int_of_str
                 server w name expires_at _ _ s1 w1 Hrun) by reflexivity.
      auto.
    + rewrite (create_after_session utcnow http isoformat_utc int_of_str
                 server w name expires_at c s1 w1 Hrun Hne).
      cbv zeta.
      destruct (http _ _) as [e|resp]; [auto|].
      destruct (negb (status_code resp =? 200)); [auto|].
      destruct (json resp) as [[| | | | |data]|]; eauto.
      destruct (negb (success_flag data)); [auto|].
      destruct (Json.lookup "clientId" data) as [v|]; [|eauto].
      destruct (py_int int_of_str v); eauto.
  - rewrite (create_without_session utcnow http isoformat_utc int_of_str
               server w name expires_at _ _ s1 w1 Hrun) by apply orb_true_r.
    auto.
Qed.

(** X15.  Attaching a user to one server is all or nothing: when the handler
    returns, the table holds every binding the session knew of plus exactly
    one new binding, which links the user to the server under the user's
    name with the requested expiry; when it raises (404, 400, or a reply it
    cannot read), no binding has been added. *)
Theorem attach_is_all_or_nothing :
  forall (user_id server_id : Z) (expires_at : option datetime) (w : World),
    match attach_user_to_server utcnow http isoformat_utc int_of_str
            user_id server_id expires_at w with
    | Ok b w' =>
        w_bindings w' = all_rows w ++ [b] /\
        UserServerBinding.logical_user_id b = user_id /\
        UserServerBinding.server_id b = server_id /\
        UserServerBinding.expires_at b = expires_at /\
        (exists user,
           List.find (fun u => LogicalUser.id u =? user_id) (w_users w) = Some user /\
           UserServerBinding.wg_client_name b = LogicalUser.name user) /\
        w_users w' = w_users w
    | Exc e w' =>
        all_rows w' = all_rows w /\ w_users w' = w_users w /\
        ((exists detail, e = HTTPException 404 detail) \/
         (exists detail, e = HTTPException 400 detail) \/
         (exists kind, e = PyError kind))
    end.
Proof.
  intros user_id server_id expires_at w. unfold attach_user_to_server.
  cbv [mbind M_bind bind mret M_ret ret raise db_first_user db_first_server
       db_add_binding db_commit].
  destruct (List.find _ (w_users w)) as [user|] eqn:Hu; [|eauto 6].
  destruct (List.find _ (w_servers w)) as [server|] eqn:Hsv; [|eauto 6].
  pose proof (create_client_run server (LogicalUser.name user) expires_at w) as Hc.
  destruct (create_client _ _ _ _ _ _ _ w) as [[[client_id error] s1] w1|e w1].
  - destruct Hc as [Hid Hstep].
    pose proof (session_step_rows _ _ Hstep) as Hrows.
    destruct Hstep as (_ & Husers & _).
    destruct (if PyStr.truthy_opt error then None else client_id) as [n|].
    + simpl. rewrite app_assoc. fold (all_rows w1). rewrite Hrows.
      pose proof (find_some _ _ Hu) as [_ Hu']. apply Z.eqb_eq in Hu'.
      apply find_some in Hsv as [_ Hsv]. apply Z.eqb_eq in Hsv.
      repeat split; try congruence.
      exists user. split; reflexivity.
    + eauto 6.
  - destruct Hc as [Hk Hstep].
    split; [apply session_step_rows, Hstep|].
    destruct Hstep as (_ & Husers & _). eauto.
Qed.

(** X17.  Deleting a peer through the panel asks the remote first, and what
    the handler does follows the remote's answer.  An unknown server id
    gives 404 and changes nothing.  Without a session the handler raises 400
    with the session's error and sends no deletion.  With a session the
    DELETE request is sent: answered 200, exactly the bindings for the pair
    (server, peer) are removed and the handler succeeds; answered with
    another status, or raising with a message that is not empty, the handler
    raises 400 with that error and the bindings are untouched.  A request
    that raises with an empty message is taken for a success: the bindings
    are removed as after a 200. *)
Theorem delete_peer_remote_first :
  forall (server_id client_id : Z) (w : World),
    w_pending w = [] ->
    match delete_server_client utcnow http server_id client_id w with
    | Ok _ w' =>
        w_bindings w'
          = List.filter (fun b =>
              negb ((UserServerBinding.server_id b =? server_id)
                    && (UserServerBinding.wg_client_id b =? client_id)))
              (w_bindings w) /\
        w_users w' = w_users w /\
        exists server c s1 w1,
          List.find (fun s => WgServer.id s =? server_id) (w_servers w) = Some server /\
          _ensure_session_cookie utcnow http server w = Ok ((Some c, None), s1) w1 /\
          c <> EmptyString /\
          w_sent w' = w_sent w1 ++ [delete_request s1 client_id c] /\
          (http (length (w_sent w1)) (delete_request s1 client_id c)
             = Raised EmptyString \/
           exists resp,
             http (length (w_sent w1)) (delete_request s1 client_id c)
               = Responded resp /\
             status_code resp = 200)
    | Exc e w' =>
        w_bindings w' = w_bindings w /\ w_pending w' = [] /\
        w_users w' = w_users w /\
        ((e = HTTPException 404 "Server not found" /\ w' = w) \/
         (exists detail, e = HTTPException 400 detail /\ detail <> EmptyString)) /\
        ((List.find (fun s => WgServer.id s =? server_id) (w_servers w) = None /\
          e = HTTPException 404 "Server not found") \/
         exists server r s1 w1,
           List.find (fun s => WgServer.id s =? server_id) (w_servers w) = Some server /\
           _ensure_session_cookie utcnow http server w = Ok (r, s1) w1 /\
           ((PyStr.truthy_opt (snd r) || negb (PyStr.truthy_opt (fst r)) = true /\
             e = HTTPException 400 (default "" (session_error (snd r))) /\
             w' = w1) \/
            exists c,
              r = (Some c, None) /\ c <> EmptyString /\
              w' = sent (delete_request s1 client_id c) w1 /\
              ((exists msg,
                   http (length (w_sent w1)) (delete_request s1 client_id c)
                     = Raised msg /\
                   msg <> EmptyString /\ e = HTTPException 400 msg) \/
               (exists resp,
                   http (length (w_sent w1)) (delete_request s1 client_id c)
                     = Responded resp /\
                   status_code resp <> 200 /\
                   e = HTTPException 400
                         ("delete client failed with status "
                          +:+ pretty (status_code resp) +:+ ": " +:+ text resp)))))
    end.
Proof.
  intros server_id client_id w Hfresh. unfold delete_server_client.
  cbv [mbind M_bind bind mret M_ret ret raise db_first_server db_all_bindings db_commit].
  destruct (List.find _ (w_servers w)) as [server|] eqn:Hfind; [|auto 8].
  pose proof Hfind as Hsv.
  apply find_some in Hsv as [_ Hsv]. apply Z.eqb_eq in Hsv.
  destruct (ensure_shape utcnow http server w)
    as (r & s1 & w1 & Hrun & Hshape & Hid & _ & _ & Hstep & _).
  destruct (session_step_fresh _ _ Hstep Hfresh) as [Hb Hp].
  pose proof Hstep as (_ & Husers & _).
  destruct Hshape as [[c ->] | [err ->]].
  - destruct (decide (c = EmptyString)) as [->|Hne].
    + destruct (op_without_session utcnow http (fun _ => None) server w
                  (Some EmptyString) None s1 w1 Hrun eq_refl) as (_ & Hdel & _).
      rewrite Hdel. simpl.
      repeat split; try assumption.
      * right. eexists. split; [reflexivity | discriminate].
      * right. exists server, (Some EmptyString, None), s1, w1.
        repeat split; try assumption. left. repeat split.
    + rewrite (delete_after_session utcnow http server w client_id c s1 w1 Hrun Hne).
      cbv zeta. fold (client_url s1 client_id).
      change (mkRequest "DELETE" (client_url s1 client_id) None (session_headers c))
        with (delete_request s1 client_id c).
      destruct (http (length (w_sent w1)) (delete_request s1 client_id c))
        as [msg|resp] eqn:Hout.
      * destruct msg as [|a msg].
        -- (* an exception without a message: taken for a success *)
           simpl. rewrite db_delete_bindings_run. simpl.
           rewrite (delete_selected _ (w_bindings w1) []) by constructor. simpl.
           rewrite Hp, app_nil_r, Hb, Hid, Hsv.
           repeat split; try assumption.
           exists server, c, s1, w1. repeat split; try assumption.
           left. exact Hout.
        -- simpl. repeat split; try assumption.
           ++ right. eexists. split; [reflexivity | discriminate].
           ++ right. exists server, (Some c, None), s1, w1.
              repeat split; try assumption. right. exists c.
              repeat split; try assumption. left. exists (String a msg).
              split; [exact Hout|]. split; [discriminate | reflexivity].
      * destruct (Z.eqb_spec (status_code resp) 200) as [H200|H200]; simpl.
        -- rewrite db_delete_bindings_run. simpl.
           rewrite (delete_selected _ (w_bindings w1) []) by constructor. simpl.
           rewrite Hp, app_nil_r, Hb, Hid, Hsv.
           repeat split; try assumption.
           exists server, c, s1, w1. repeat split; try assumption.
           right. exists resp. split; [exact Hout | exact H200].
        -- rewrite !PyStrFacts.append_cons. simpl.
           repeat split; try assumption.
           ++ right. eexists. split; [reflexivity | discriminate].
           ++ right. exists server, (Some c, None), s1, w1.
              repeat split; try assumption. right. exists c.
              repeat split; try assumption. right. exists resp.
              repeat split; try assumption.
  - destruct (op_without_session utcnow http (fun _ => None) server w
                None (Some err) s1 w1 Hrun (orb_true_r _)) as (_ & Hdel & _).
    rewrite Hdel. simpl.
    rewrite session_error_truthy.
    repeat split; try assumption.
    + right. eexists. split; [reflexivity|].
      pose proof (session_error_truthy (Some err)) as Ht.
      destruct (session_error (Some err)) as [[|a d]|]; simpl in *; discriminate.
    + right. exists server, (None, Some err), s1, w1.
      repeat split; try assumption. left. repeat split. apply orb_true_r.
Qed.

Lemma existsb_ids (x : Z) (l : list WgServer.t) :
  existsb (fun s => WgServer.id s =? x) l
  = existsb (fun i => i =? x) (WgServer.id <$> l).
Proof. induction l as [|s l IH]; [reflexivity|]. simpl. rewrite IH. reflexivity. Qed.

Lemma find_existsb {A} (p : A -> bool) (l : list A) :
  match List.find p l with
  | Some _ => existsb p l = true
  | None => existsb p l = false
  end.
Proof.
  induction l as [|x l IH]; simpl; [reflexivity|].
  destruct (p x); [reflexivity | exact IH].
Qed.

(** The remote deletions of [delete_logical_user]: one call of
    [delete_client] for every binding whose server is on file, whatever the
    calls return, and no change to the tables. *)
Lemma delete_remote_peers_run (bs : list UserServerBinding.t) : forall w,
  w_pending w = [] ->
  exists w',
    delete_remote_peers utcnow http bs w = Ok tt w' /\
    w_bindings w' = w_bindings w /\ w_pending w' = [] /\
    w_users w' = w_users w /\
    WgServer.id <$> w_servers w' = WgServer.id <$> w_servers w /\
    w_ticks w'
      = Nat.add (w_ticks w)
          (length (List.filter (fun b =>
             existsb (fun s => WgServer.id s =? UserServerBinding.server_id b)
                     (w_servers w)) bs)).
Proof.
  induction bs as [|b bs IH]; intros w Hfresh.
  - exists w. simpl. cbv [mret M_ret ret]. repeat split; auto.
  - simpl. cbv [mbind M_bind bind db_first_server].
    pose proof (find_existsb
      (fun s => WgServer.id s =? UserServerBinding.server_id b) (w_servers w)) as Hf.
    destruct (List.find _ (w_servers w)) as [server|].
    + rewrite Hf. simpl.
      destruct (delete_client_run server (UserServerBinding.wg_client_id b) w)
        as (r & s1 & w1 & Hrun & _ & Hstep).
      rewrite Hrun.
      destruct (session_step_fresh _ _ Hstep Hfresh) as [Hb Hp].
      destruct Hstep as (Ht & Husers & _ & Hids & _).
      destruct (IH w1 Hp) as (w' & Hrest & Hb' & Hp' & Hu' & Hids' & Ht').
      exists w'. split; [exact Hrest|].
      split; [congruence|]. split; [exact Hp'|]. split; [congruence|].
      split; [congruence|].
      rewrite Ht', Ht.
      rewrite (filter_ext _ (fun b0 =>
        existsb (fun s => WgServer.id s =? UserServerBinding.server_id b0)
                (w_servers w))).
      * lia.
      * intros b0. rewrite !existsb_ids, Hids. reflexivity.
    + rewrite Hf. exact (IH w Hfresh).
Qed.

(** Every call of [delete_client] sends at least one request, and all it
    sends asks the server it was called for: the login if the cookie has to
    be refreshed, then the deletion. *)
Lemma delete_sends (server : WgServer.t) (client_id : Z) (w : World) :
  exists r s1 w1 rq more,
    delete_client utcnow http server client_id w = Ok (r, s1) w1 /\
    w_sent w1 = w_sent w ++ rq :: more /\
    Forall (asks server client_id) (rq :: more).
Proof.
  destruct (cached_session (utcnow (w_ticks w)) server) as [c|] eqn:Hc.
  - pose proof (ensure_cached utcnow http server w c Hc) as Hrun.
    apply cached_session_some in Hc as (_ & Hne & _).
    rewrite (delete_after_session utcnow http server w client_id c _ _ Hrun Hne).
    cbv zeta.
    change (mkRequest "DELETE" (client_url server client_id) None (session_headers c))
      with (delete_request server client_id c).
    assert (Hasks : Forall (asks server client_id) [delete_request server client_id c])
      by (constructor; [right; eauto | constructor]).
    destruct (http _ (delete_request _ _ _)) as [e|resp];
      [|destruct (negb _)]; eexists _, _, _, _, []; (split; [reflexivity|]);
      (split; [reflexivity | exact Hasks]).
  - destruct (login_outcome_cases (http (length (w_sent w)) (login_request server)))
      as [(reason & err & Hf) | (sc & Hok)].
    + pose proof (ensure_failure utcnow http server w reason err Hc Hf) as Hrun.
      destruct (op_without_session utcnow http (fun _ => None) server w
                  _ _ _ _ Hrun (orb_true_r _)) as (_ & Hdel & _).
      eexists _, _, _, (login_request server), [].
      split; [apply Hdel|]. split; [reflexivity|].
      constructor; [left; reflexivity | constructor].
    + destruct (ensure_success utcnow http server w sc Hc Hok) as (cookie & _ & Hrun).
      destruct (decide (cookie = EmptyString)) as [->|Hne].
      * destruct (op_without_session utcnow http (fun _ => None) server w
                    _ _ _ _ Hrun eq_refl) as (_ & Hdel & _).
        eexists _, _, _, (login_request server), [].
        split; [apply Hdel|]. split; [reflexivity|].
        constructor; [left; reflexivity | constructor].
      * rewrite (delete_after_session utcnow http server w client_id cookie _ _
                   Hrun Hne).
        cbv zeta.
        change (mkRequest "DELETE"
                  (client_url (refreshed (utcnow (w_ticks w)) cookie server) client_id)
                  None (session_headers cookie))
          with (delete_request server client_id cookie).
        assert (Hasks : Forall (asks server client_id)
                          [login_request server;
                           delete_request server client_id cookie]).
        { constructor; [left; reflexivity|].
          constructor; [right; eauto | constructor]. }
        destruct (http _ (delete_request _ _ _)) as [e|resp];
          [|destruct (negb _)];
          eexists _, _, _, (login_request server),
                  [delete_request server client_id cookie];
          (split; [reflexivity|]);
          (split; [simpl; rewrite <- app_assoc; reflexivity | exact Hasks]).
Qed.

(** The loop follows a trace, and each call leaves its requests behind. *)
Lemma delete_remote_peers_traced (bs : list UserServerBinding.t) : forall w,
  exists t w' new,
    delete_remote_peers utcnow http bs w = Ok tt w' /\
    RemoteDeletions utcnow http w t w' /\
    deletion_binding <$> t = bs /\
    Forall (deletion_server (w_servers w)) t /\
    w_sent w' = w_sent w ++ new /\
    Forall (deletion_requested new) t.
Proof.
  induction bs as [|b bs IH]; intros w.
  - exists [], w, []. simpl. cbv [mret M_ret ret]. rewrite app_nil_r.
    repeat split; constructor.
  - simpl. cbv [mbind M_bind bind db_first_server].
    pose proof (find_existsb
      (fun s => WgServer.id s =? UserServerBinding.server_id b) (w_servers w)) as Hf.
    destruct (List.find _ (w_servers w)) as [server|] eqn:Hfind.
    + destruct (delete_sends server (UserServerBinding.wg_client_id b) w)
        as (r & s1 & w1 & rq & more & Hrun & Hsent & Hasks).
      destruct (delete_client_run server (UserServerBinding.wg_client_id b) w)
        as (r' & s1' & w1' & Hrun' & _ & Hstep).
      rewrite Hrun in Hrun'. injection Hrun' as <- <- <-.
      destruct Hstep as (_ & _ & _ & Hids & _).
      rewrite Hrun.
      destruct (IH w1) as (t & w' & new & Hrest & Htr & Hbs & Hsv & Hnew & Hrq).
      exists (Asked b server r :: t), w', ((rq :: more) ++ new).
      split; [exact Hrest|].
      split; [eapply RD_asked; eassumption|].
      split; [rewrite fmap_cons, Hbs; reflexivity|].
      split; [|split].
      * constructor.
        -- split; [|exact Hf].
           apply find_some in Hfind as [_ Hfind]. apply Z.eqb_eq. exact Hfind.
        -- eapply Forall_impl; [exact Hsv|].
           intros [b0|b0 s0 e0]; unfold deletion_server;
             rewrite !existsb_ids, Hids; auto.
      * rewrite Hnew, Hsent, <- app_assoc. reflexivity.
      * constructor.
        -- exists rq. split; [left|].
           apply Forall_cons in Hasks as [Hasks _]. exact Hasks.
        -- eapply Forall_impl; [exact Hrq|].
           intros [b0|b0 s0 e0]; [auto|].
           intros (rq' & Hin & Hrq'). exists rq'.
           split; [apply elem_of_app; right; exact Hin | exact Hrq'].
    + destruct (IH w) as (t & w' & new & Hrest & Htr & Hbs & Hsv & Hnew & Hrq).
      exists (NoServer b :: t), w', new.
      split; [exact Hrest|].
      split; [apply RD_unknown; assumption|].
      split; [rewrite fmap_cons, Hbs; reflexivity|].
      split; [constructor; [exact Hf | exact Hsv]|].
      split; [exact Hnew|].
      constructor; [exact I | exact Hrq].
Qed.

(** X16.  Deleting a logical user who is on file always succeeds.  The
    handler goes through the user's bindings in order: for a binding whose
    server is not on file nothing is sent; for every other binding
    [delete_client] is called on that server and that peer id, in the world
    the earlier calls left and whatever they returned, and at least one
    request asking that server is sent.  Afterwards all of the user's
    bindings and the user's row are gone while every other binding and user
    is as before. *)
Theorem delete_user_removes_all_bindings :
  forall (user_id : Z) (w : World) (user : LogicalUser.t),
    w_pending w = [] ->
    List.find (fun u => LogicalUser.id u =? user_id) (w_users w) = Some user ->
    exists w',
      delete_logical_user utcnow http user_id w = Ok true w' /\
      w_bindings w'
        = List.filter (fun b => negb (UserServerBinding.logical_user_id b =? user_id))
            (w_bindings w) /\
      w_users w'
        = List.filter (fun u => negb (LogicalUser.id u =? user_id)) (w_users w) /\
      w_ticks w'
        = Nat.add (w_ticks w)
            (length (List.filter (fun b =>
               existsb (fun s => WgServer.id s =? UserServerBinding.server_id b)
                       (w_servers w))
               (List.filter (fun b => UserServerBinding.logical_user_id b =? user_id)
                  (w_bindings w)))) /\
      exists (t : list Deletion) (w1 : World) (new : list HttpRequest),
        RemoteDeletions utcnow http w t w1 /\
        deletion_binding <$> t
          = List.filter (fun b => UserServerBinding.logical_user_id b =? user_id)
              (w_bindings w) /\
        Forall (deletion_server (w_servers w)) t /\
        w_sent w' = w_sent w ++ new /\
        Forall (deletion_requested new) t /\
        w_servers w' = w_servers w1.
Proof.
  intros user_id w user Hfresh Hu. unfold delete_logical_user.
  cbv [mbind M_bind bind mret M_ret ret raise db_first_user db_all_bindings
       db_delete_user db_commit].
  rewrite Hu.
  apply find_some in Hu as [_ Hu]. apply Z.eqb_eq in Hu.
  destruct (delete_remote_peers_run
              (List.filter (fun b => UserServerBinding.logical_user_id b =? user_id)
                 (w_bindings w)) w Hfresh)
    as (w1 & Hrun & Hb & Hp & Husers & _ & Ht).
  destruct (delete_remote_peers_traced
              (List.filter (fun b => UserServerBinding.logical_user_id b =? user_id)
                 (w_bindings w)) w)
    as (t & w1' & new & Hrun' & Htr & Hbs & Hsv & Hnew & Hrq).
  rewrite Hrun in Hrun'. injection Hrun' as <-.
  rewrite Hrun, db_delete_bindings_run. simpl.
  eexists. split; [reflexivity|]. simpl.
  rewrite Hb, (delete_selected _ (w_bindings w) []) by constructor.
  rewrite Hp, app_nil_r, Husers, Hu. simpl.
  repeat split; [exact Ht|].
  exists t, w1, new. repeat split; assumption.
Qed.

End HandlersMore.

(** ** Import keeps bindings unique *)

Section ImportMore.

Lemma imported_keys (server : WgServer.t) (news : list WgClientInfo.t) : forall seq,
  pair_key <$> (imported server seq news).*2
  = (fun i => (WgServer.id server, i)) <$> (WgClientInfo.id <$> news).
Proof.
  induction news as [|c news IH]; intros seq; [reflexivity|].
  cbn [imported]. rewrite !fmap_cons. f_equal. apply IH.
Qed.

(** X19.  Import keeps the table free of duplicate pairs: if no two rows
    share a pair (remote id, remote peer id) and the remote lists every peer
    id once, then after an import pass from a fresh session no two rows
    share a pair either. *)
Theorem import_keeps_pairs_unique :
  forall (server_id : Z) (server : WgServer.t) (clients : list WgClientInfo.t)
         (error : option string) (w : World),
    List.find (fun s => WgServer.id s =? server_id) (w_servers w) = Some server ->
    PyStr.truthy_opt error = false ->
    w_pending w = [] ->
    NoDup (WgClientInfo.id <$> clients) ->
    NoDup (pair_key <$> w_bindings w) ->
    exists r w',
      import_clients_from_server server_id (Some clients, error) w = Ok r w' /\
      NoDup (pair_key <$> w_bindings w') /\
      Forall (fun c => (WgServer.id server, WgClientInfo.id c)
                         ∈ (pair_key <$> w_bindings w')) clients.
Proof.
  intros server_id server clients error w Hfind Herr Hfresh Hids Hrows.
  destruct (import_pass_run server_id server clients error w Hfind Herr)
    as (news & w' & Hrun & Hsub & _ & Hb & _ & _ & Hall & Hnew).
  eexists _, w'. split; [exact Hrun|]. split.
  - rewrite Hb. unfold all_rows. rewrite Hfresh, app_nil_r, fmap_app.
    apply NoDup_app. split; [exact Hrows|]. split.
    + intros k Hk Hk'. rewrite imported_keys in Hk'.
      apply list_elem_of_fmap in Hk' as (i & -> & Hi).
      apply list_elem_of_fmap in Hi as (c & -> & Hc).
      apply list_elem_of_fmap in Hk as (b & Hkey & Hbin).
      rewrite Forall_forall in Hnew.
      apply (Hnew c Hc b Hbin). unfold pair_key in Hkey.
      injection Hkey as Hs Hi. split; congruence.
    + rewrite imported_keys. apply NoDup_fmap_2.
      * intros i j [= ->]. reflexivity.
      * eapply sublist_NoDup; [exact Hids|]. apply fmap_sublist, Hsub.
  - eapply Forall_impl; [exact Hall|].
    intros c (b & Hbin & Hs & Hc). apply list_elem_of_fmap.
    exists b. split; [|exact Hbin]. unfold pair_key. congruence.
Qed.

End ImportMore.

(** ** Mass-attach keeps bindings unique *)

Section AttachMore.

Variable utcnow : nat -> datetime.
Variable http : nat -> HttpRequest -> HttpOutcome.
Variable isoformat_utc : datetime -> string.
Variable int_of_str : string -> option Z.

Local Abbreviation loop := (attach_loop utcnow http isoformat_utc int_of_str).

Lemma session_step_mono (w w' : World) :
  session_step w w' -> forall b, b ∈ w_bindings w -> b ∈ w_bindings w'.
Proof.
  intros (_ & _ & _ & _ & [[Hb _] | [Hb _]]) b Hin; rewrite Hb; [exact Hin|].
  unfold all_rows. apply elem_of_app. left. exact Hin.
Qed.

(** The bindings that the loop adds: one for each server of a sublist of
    the servers it was given, none of which had a binding of the user in
    [B]. *)
Lemma attach_loop_rows (user : LogicalUser.t) expires_at
    (B : list UserServerBinding.t) (servers : list WgServer.t) :
  forall created skipped errors w,
    (forall b, b ∈ B -> b ∈ w_bindings w) ->
    match loop user expires_at servers created skipped errors w with
    | Ok _ w' =>
        exists srvs news,
          srvs `sublist_of` servers /\
          Forall (fun s => already_attached user B s = false) srvs /\
          Forall2 (fun s b => owner_key b = (LogicalUser.id user, WgServer.id s))
                  srvs news /\
          all_rows w' = all_rows w ++ news
    | Exc _ _ => True
    end.
Proof.
  induction servers as [|s rest IH]; intros created skipped errors w HB.
  - simpl. cbv [mret M_ret ret]. exists [], []. rewrite app_nil_r.
    repeat split; constructor.
  - simpl. cbv [mbind M_bind bind mret M_ret ret db_first_binding].
    pose proof (find_attached user (w_bindings w) s) as Hfind.
    destruct (List.find _ (w_bindings w)) as [b|].
    + specialize (IH created (skipped + 1) errors w HB).
      destruct (loop user expires_at rest created (skipped + 1) errors w); [|exact I].
      destruct IH as (srvs & news & Hsub & Hno & Hkeys & Hrows).
      exists srvs, news. split; [apply sublist_cons, Hsub | auto].
    + assert (HBs : already_attached user B s = false).
      { destruct (already_attached user B s) eqn:E; [|reflexivity].
        apply already_attached_true in E as (b' & Hb' & Hatt).
        assert (Ht : already_attached user (w_bindings w) s = true)
          by (apply already_attached_true; exists b'; split; [apply HB, Hb' | exact Hatt]).
        congruence. }
      pose proof (create_client_run utcnow http isoformat_utc int_of_str
                    s (LogicalUser.name user) expires_at w) as Hc.
      destruct (create_client _ _ _ _ _ _ _ w)
        as [[[client_id error] s1] w1|e w1]; [|exact I].
      destruct Hc as [Hid Hstep].
      pose proof (session_step_rows _ _ Hstep) as Hrows1.
      pose proof (session_step_mono _ _ Hstep) as Hmono.
      destruct (if PyStr.truthy_opt error then None else client_id) as [n|].
      * cbv [db_add_binding].
        set (bnew := UserServerBinding.mk _ _ _ _ _).
        set (w2 := mkWorld _ _ _ _ _ _ _ _).
        assert (Hrows2 : all_rows w2 = all_rows w ++ [bnew]).
        { unfold all_rows in *. simpl. rewrite app_assoc, Hrows1. reflexivity. }
        specialize (IH (created + 1) skipped errors w2).
        destruct (loop user expires_at rest (created + 1) skipped errors w2);
          [|exact I].
        destruct IH as (srvs & news & Hsub & Hno & Hkeys & Hrows).
        { intros b' Hb'. apply Hmono, HB, Hb'. }
        exists (s :: srvs), (bnew :: news).
        split; [apply sublist_skip, Hsub|].
        split; [constructor; assumption|].
        split.
        -- constructor; [|exact Hkeys]. unfold owner_key, bnew. simpl.
           rewrite Hid. reflexivity.
        -- rewrite Hrows, Hrows2, <- app_assoc. reflexivity.
      * set (errors' := errors ++ _).
        specialize (IH created skipped errors' w1).
        destruct (loop user expires_at rest created skipped errors' w1); [|exact I].
        destruct IH as (srvs & news & Hsub & Hno & Hkeys & Hrows).
        { intros b' Hb'. apply Hmono, HB, Hb'. }
        exists srvs, news. split; [apply sublist_cons, Hsub|].
        split; [exact Hno|]. split; [exact Hkeys|]. rewrite Hrows, Hrows1. reflexivity.
Qed.

Lemma owner_keys_of (user : LogicalUser.t) (srvs : list WgServer.t)
    (news : list UserServerBinding.t) :
  Forall2 (fun s b => owner_key b = (LogicalUser.id user, WgServer.id s)) srvs news ->
  owner_key <$> news
  = (fun i => (LogicalUser.id user, i)) <$> (WgServer.id <$> srvs).
Proof.
  induction 1 as [|s b srvs news Hk _ IH]; [reflexivity|].
  rewrite !fmap_cons, IH, Hk. reflexivity.
Qed.


End AttachMore.

(** ** The further properties at concrete inputs *)

Lemma record_snapshot_frame_witness :
  Traffic.record_traffic_snapshot 1000 7 200 100 DemoMore.history !! 8
    = DemoMore.history !! 8 /\
  Nat.le
    (length (default [] (Traffic.record_traffic_snapshot 1000 7 200 100
                           DemoMore.history !! 7)))
    (S (length (default [] (DemoMore.history !! 7)))).
Proof.
  apply (record_snapshot_frame 1000 7 200 100 DemoMore.history 8). discriminate.
Defined.

Lemma record_snapshot_keeps_order_witness :
  StronglySorted (fun a b => Traffic.ts a <= Traffic.ts b)
    (default [] (Traffic.record_traffic_snapshot 1000 7 200 100
                   DemoMore.history !! 7)).
Proof.
  apply (record_snapshot_keeps_order 1000 7 200 100 DemoMore.history).
  - vm_compute. repeat constructor; discriminate.
  - vm_compute. repeat constructor; discriminate.
Defined.

Lemma history_after_snapshot_witness :
  last (Traffic.get_traffic_history 1000000500 7 3600
          (Traffic.record_traffic_snapshot 1000000000 7 200 100 DemoMore.history))
    = Some (Traffic.mkSample 1000000000 200 100) /\
  Some (Traffic.get_traffic_history 1000000000 7 (7 * 86400)
          (Traffic.record_traffic_snapshot 1000000000 7 200 100 DemoMore.history))
    = Traffic.record_traffic_snapshot 1000000000 7 200 100 DemoMore.history !! 7.
Proof.
  apply (history_after_snapshot 1000000000 1000000500 3600 7 200 100 DemoMore.history).
  vm_compute. discriminate.
Defined.

Lemma delta_monotone_in_period_witness :
  exists rx1 tx1 rx2 tx2,
    Traffic.get_traffic_delta_for_period 25 7 0 DemoMore.history = Some (rx1, tx1) /\
    Traffic.get_traffic_delta_for_period 25 7 1 DemoMore.history = Some (rx2, tx2) /\
    0 <= rx1 <= rx2 /\ 0 <= tx1 <= tx2.
Proof. apply (delta_monotone_in_period 25 7 0 1 DemoMore.history). lia. Defined.

Lemma delta_of_monotone_counters_witness :
  Traffic.get_traffic_delta_for_period 25 7 1 DemoMore.history
  = Some (140 - 100, 90 - 50).
Proof.
  apply (delta_of_monotone_counters 25 7 1 DemoMore.history
           (Traffic.mkSample 10 100 50) [] (Traffic.mkSample 20 140 90)).
  - vm_compute. reflexivity.
  - repeat constructor; simpl; lia.
  - repeat constructor; simpl; lia.
Defined.

Lemma single_call_actions_witness :
  exists s1 w2,
    _post_simple_action Demo.clock Demo.accepting Demo.stale_server 7 "disable"
      (Demo.world [Demo.stale_server]) = Ok (None, s1) w2.
Proof.
  destruct (single_call_actions Demo.clock Demo.accepting Demo.stale_server
              (Demo.world [Demo.stale_server]) 7 "disable" "s%3Atoken.sig"
              _ _ eq_refl ltac:(discriminate))
    as [(r & w2 & Hrun & _ & Hiff) _].
  assert (Hr : r = None) by (apply Hiff; eexists; split; reflexivity).
  rewrite Hr in Hrun. eexists _, w2. exact Hrun.
Defined.

Lemma failed_session_short_circuits_witness :
  exists s1 w1,
    delete_client Demo.clock Demo.rejecting Demo.stale_server 7
      (Demo.world [Demo.stale_server])
    = Ok (Some "Login failed with status 401", s1) w1 /\
    w_sent w1 = [login_request Demo.stale_server].
Proof.
  destruct (failed_session_short_circuits Demo.clock Demo.rejecting Demo.isoformat
              Demo.int_of_str (fun _ => None) Demo.stale_server
              (Demo.world [Demo.stale_server]) "Login failed with status 401"
              _ _ 7 "disable" "alice" None eq_refl)
    as (_ & Hdel & _ & _ & _ & _ & Herr).
  rewrite (Herr ltac:(discriminate)) in Hdel.
  eexists _, _. split; [exact Hdel | reflexivity].
Defined.

Lemma expiry_update_is_read_modify_write_witness :
  exists r s2 w3 body,
    update_client_expires Demo.clock Demo.accepting Demo.isoformat
      Demo.stale_server 7 (Some 0) (Demo.world [Demo.stale_server])
    = Ok (r, s2) w3 /\
    Json.lookup "expiresAt" body = Some (JStr "2025-12-10T00:00:00Z") /\
    Json.lookup "clientId" body = Some (JInt 7) /\
    last (w_sent w3)
      = Some (mkRequest "POST" (client_url s2 7) (Some (JDict body))
                [("accept", "application/json"); ("content-type", "application/json");
                 ("cookie", "wg-easy=s%3Atoken.sig")]).
Proof.
  destruct (expiry_update_is_read_modify_write Demo.clock Demo.accepting Demo.isoformat
              Demo.stale_server (Demo.world [Demo.stale_server]) 7 (Some 0)
              "s%3Atoken.sig" _ _ _
              [("success", JBool true); ("clientId", JInt 7)]
              "s%3Atoken.sig" _ _
              eq_refl ltac:(discriminate) eq_refl eq_refl eq_refl eq_refl
              ltac:(discriminate))
    as (r & w3 & body & Hrun & Hsent & Hexp & Hkeep & _).
  eexists r, _, w3, body. split; [exact Hrun|].
  split; [rewrite Hexp; reflexivity|].
  split; [rewrite Hkeep by discriminate; reflexivity|].
  rewrite Hsent. apply last_snoc.
Defined.

Lemma failed_read_sends_no_write_witness :
  exists err s1 w1,
    update_client_expires Demo.clock DemoMore.flaky Demo.isoformat
      Demo.stale_server 7 (Some 0) (Demo.world [Demo.stale_server])
    = Ok (Some err, s1) w1 /\
    length (w_sent w1) = 2%nat.
Proof.
  destruct (failed_read_sends_no_write Demo.clock DemoMore.flaky Demo.isoformat
              Demo.stale_server (Demo.world [Demo.stale_server]) 7 (Some 0)
              "s%3Atoken.sig" _ _ eq_refl ltac:(discriminate))
    as (err & Hrun & _).
  - intros resp [= <-]. left. discriminate.
  - eexists err, _, _. split; [exact Hrun | reflexivity].
Defined.

Lemma delete_user_removes_all_bindings_witness :
  exists w',
    delete_logical_user Demo.clock Demo.unreachable 1 DemoMore.panel = Ok true w' /\
    w_bindings w' = [UserServerBinding.mk 2 1 9 "bob" None] /\
    w_users w' = [LogicalUser.mk 2 "bob" None] /\
    w_ticks w' = 2%nat /\
    exists (t : list Deletion) (w1 : World) (new : list HttpRequest),
      RemoteDeletions Demo.clock Demo.unreachable DemoMore.panel t w1 /\
      deletion_binding <$> t
        = [UserServerBinding.mk 1 1 7 "alice" None;
           UserServerBinding.mk 1 2 5 "alice" None] /\
      Forall (deletion_server (w_servers DemoMore.panel)) t /\
      w_sent w' = w_sent DemoMore.panel ++ new /\
      Forall (deletion_requested new) t /\
      w_servers w' = w_servers w1.
Proof.
  apply (delete_user_removes_all_bindings Demo.clock Demo.unreachable 1
           DemoMore.panel Demo.user); reflexivity.
Defined.

Lemma delete_peer_remote_first_witness :
  match delete_server_client Demo.clock DemoMore.flaky 1 7 DemoMore.panel with
  | Ok _ w' =>
      w_bindings w'
        = List.filter (fun b =>
            negb ((UserServerBinding.server_id b =? 1)
                  && (UserServerBinding.wg_client_id b =? 7)))
            (w_bindings DemoMore.panel) /\
      w_users w' = w_users DemoMore.panel /\
      exists server c s1 w1,
        List.find (fun s => WgServer.id s =? 1) (w_servers DemoMore.panel)
          = Some server /\
        _ensure_session_cookie Demo.clock DemoMore.flaky server DemoMore.panel
          = Ok ((Some c, None), s1) w1 /\
        c <> EmptyString /\
        w_sent w' = w_sent w1 ++ [delete_request s1 7 c] /\
        (DemoMore.flaky (length (w_sent w1)) (delete_request s1 7 c)
           = Raised EmptyString \/
         exists resp,
           DemoMore.flaky (length (w_sent w1)) (delete_request s1 7 c)
             = Responded resp /\
           status_code resp = 200)
  | Exc e w' =>
      w_bindings w' = w_bindings DemoMore.panel /\ w_pending w' = [] /\
      w_users w' = w_users DemoMore.panel /\
      ((e = HTTPException 404 "Server not found" /\ w' = DemoMore.panel) \/
       (exists detail, e = HTTPException 400 detail /\ detail <> EmptyString)) /\
      ((List.find (fun s => WgServer.id s =? 1) (w_servers DemoMore.panel) = None /\
        e = HTTPException 404 "Server not found") \/
       exists server r s1 w1,
         List.find (fun s => WgServer.id s =? 1) (w_servers DemoMore.panel)
          = Some server /\
         _ensure_session_cookie Demo.clock DemoMore.flaky server DemoMore.panel
           = Ok (r, s1) w1 /\
         ((PyStr.truthy_opt (snd r) || negb (PyStr.truthy_opt (fst r)) = true /\
           e = HTTPException 400 (default "" (session_error (snd r))) /\
           w' = w1) \/
          exists c,
            r = (Some c, None) /\ c <> EmptyString /\
            w' = sent (delete_request s1 7 c) w1 /\
            ((exists msg,
                 DemoMore.flaky (length (w_sent w1)) (delete_request s1 7 c)
                   = Raised msg /\
                 msg <> EmptyString /\ e = HTTPException 400 msg) \/
             (exists resp,
                 DemoMore.flaky (length (w_sent w1)) (delete_request s1 7 c)
                   = Responded resp /\
                 status_code resp <> 200 /\
                 e = HTTPException 400
                       ("delete client failed with status "
                        +:+ pretty (status_code resp) +:+ ": " +:+ text resp)))))
  end.
Proof.
  apply (delete_peer_remote_first Demo.clock DemoMore.flaky 1 7 DemoMore.panel).
  reflexivity.
Defined.

(** An exception without a message from the remote is taken for a success:
    the bindings of the peer are removed although the remote never confirmed
    the deletion. *)
Example delete_peer_silent_exception :
  exists w',
    delete_server_client Demo.clock DemoMore.silent 1 7 DemoMore.panel = Ok true w' /\
    w_bindings w' = [UserServerBinding.mk 2 1 9 "bob" None;
                     UserServerBinding.mk 1 2 5 "alice" None].
Proof. eexists. split; vm_compute; reflexivity. Qed.

Lemma import_keeps_pairs_unique_witness :
  exists r w',
    import_clients_from_server 1 (Some Demo.peers, None)
      (Demo.world [Demo.stale_server]) = Ok r w' /\
    NoDup (pair_key <$> w_bindings w') /\
    Forall (fun c => (WgServer.id Demo.stale_server, WgClientInfo.id c)
                       ∈ (pair_key <$> w_bindings w')) Demo.peers.
Proof.
  apply (import_keeps_pairs_unique 1 Demo.stale_server Demo.peers None
           (Demo.world [Demo.stale_server])); try reflexivity.
  - apply (bool_decide_unpack _). vm_compute. exact I.
  - apply NoDup_nil_2.
Defined.


Example delete_peer_refused_by_remote :
  exists w',
    delete_server_client Demo.clock DemoMore.flaky 1 7 DemoMore.panel
    = Exc (HTTPException 400 "delete client failed with status 404: Not Found") w' /\
    w_bindings w' = w_bindings DemoMore.panel.
Proof. eexists. vm_compute. split; reflexivity. Qed.

(** ** Enable and disable through the panel *)

Section ToggleMore.

Variable utcnow : nat -> datetime.
Variable http : nat -> HttpRequest -> HttpOutcome.

(** X21.  The enable and disable handlers pass the remote's answer on: with
    a session cookie at hand and an answer from the remote, the handler
    returns success when the status is 200 and otherwise raises 400 with the
    action, the status and the body of the answer as its detail; either way
    one request has been sent. *)
Theorem toggle_mirrors_remote_answer :
  forall (action : string) (server_id client_id : Z) (w : World)
         (server : WgServer.t) (c : string) s1 w1 resp,
    List.find (fun s => WgServer.id s =? server_id) (w_servers w) = Some server ->
    _ensure_session_cookie utcnow http server w = Ok ((Some c, None), s1) w1 ->
    c <> EmptyString ->
    http (length (w_sent w1))
      (mkRequest "POST" (client_url s1 client_id +:+ "/" +:+ action) None
         (session_headers c)) = Responded resp ->
    toggle_server_client utcnow http action server_id client_id w =
    if status_code resp =? 200 then
      Ok true
        (sent (mkRequest "POST" (client_url s1 client_id +:+ "/" +:+ action) None
                 (session_headers c)) w1)
    else
      Exc (HTTPException 400
             (action +:+ " failed with status " +:+ pretty (status_code resp)
              +:+ ": " +:+ text resp))
        (sent (mkRequest "POST" (client_url s1 client_id +:+ "/" +:+ action) None
                 (session_headers c)) w1).
Proof.
  intros action server_id client_id w server c s1 w1 resp Hfind Hs Hne Ho.
  unfold toggle_server_client.
  cbv [mbind M_bind bind mret M_ret ret raise db_first_server].
  rewrite Hfind.
  rewrite (action_after_session utcnow http server w client_id action c s1 w1 Hs Hne).
  cbv zeta. rewrite Ho.
  destruct (status_code resp =? 200); simpl; [reflexivity|].
  destruct action; reflexivity.
Qed.

End ToggleMore.

Lemma toggle_mirrors_remote_answer_witness :
  exists w',
    disable_server_client Demo.clock DemoMore.flaky 1 7 DemoMore.panel
    = Exc (HTTPException 400
             ("disable" +:+ " failed with status " +:+ pretty 404
              +:+ ": " +:+ "Not Found")) w'.
Proof.
  eexists.
  exact (toggle_mirrors_remote_answer Demo.clock DemoMore.flaky "disable" 1 7
           DemoMore.panel Demo.stale_server "s%3Atoken.sig" _ _
           (mkResponse 404 Demo.no_headers "Not Found" None)
           eq_refl eq_refl ltac:(discriminate) eq_refl).
Defined.

(** ** Mass-attach, remote by remote *)

Section MassAttachClaim.

Variable utcnow : nat -> datetime.
Variable http : nat -> HttpRequest -> HttpOutcome.
Variable isoformat_utc : datetime -> string.
Variable int_of_str : string -> option Z.

Local Abbreviation create := (create_client utcnow http isoformat_utc int_of_str).
Local Abbreviation loop := (attach_loop utcnow http isoformat_utc int_of_str).
Local Abbreviation Trace := (MassAttach utcnow http isoformat_utc int_of_str).

(** Every call of [create_client] sends at least one request, and the first
    one goes to the server it was called for: the login if the cookie has to
    be refreshed, the creation otherwise. *)
Lemma create_sends (s : WgServer.t) name expires_at (w : World) :
  exists rq more,
    w_sent (final_world (create s name expires_at w)) = w_sent w ++ rq :: more /\
    addressed_to s rq.
Proof.
  destruct (cached_session (utcnow (w_ticks w)) s) as [c|] eqn:Hc.
  - pose proof (ensure_cached utcnow http s w c Hc) as Hrun.
    apply cached_session_some in Hc as (_ & Hne & _).
    rewrite (create_after_session utcnow http isoformat_utc int_of_str
               s w name expires_at c s (after_clock w) Hrun Hne).
    cbv zeta. exists (create_request isoformat_utc s c name expires_at), [].
    split; [|right; reflexivity].
    destruct (http _ (create_request _ _ _ _ _)) as [e|resp]; [reflexivity|].
    destruct (negb (status_code resp =? 200)); [reflexivity|].
    destruct (json resp) as [[| | | | |data]|]; try reflexivity.
    destruct (negb (success_flag data)); [reflexivity|].
    destruct (Json.lookup "clientId" data) as [v|]; [|reflexivity].
    destruct (py_int int_of_str v); reflexivity.
  - destruct (login_outcome_cases (http (length (w_sent w)) (login_request s)))
      as [(reason & err & Hf) | (sc & Hok)].
    + pose proof (ensure_failure utcnow http s w reason err Hc Hf) as Hrun.
      rewrite (create_without_session utcnow http isoformat_utc int_of_str
                 s w name expires_at _ _ _ _ Hrun) by apply orb_true_r.
      exists (login_request s), []. split; [reflexivity | left; reflexivity].
    + destruct (ensure_success utcnow http s w sc Hc Hok) as (cookie & _ & Hrun).
      destruct (decide (cookie = EmptyString)) as [->|Hne].
      * rewrite (create_without_session utcnow http isoformat_utc int_of_str
                   s w name expires_at _ _ _ _ Hrun) by reflexivity.
        exists (login_request s), []. split; [reflexivity | left; reflexivity].
      * rewrite (create_after_session utcnow http isoformat_utc int_of_str
                   s w name expires_at cookie _ _ Hrun Hne).
        cbv zeta.
        exists (login_request s),
               [create_request isoformat_utc
                  (refreshed (utcnow (w_ticks w)) cookie s) cookie name expires_at].
        split; [|left; reflexivity].
        destruct (http _ (create_request _ _ _ _ _)) as [e|resp];
          [simpl; rewrite <- app_assoc; reflexivity|].
        destruct (negb (status_code resp =? 200));
          [simpl; rewrite <- app_assoc; reflexivity|].
        destruct (json resp) as [[| | | | |data]|];
          try (simpl; rewrite <- app_assoc; reflexivity).
        destruct (negb (success_flag data));
          [simpl; rewrite <- app_assoc; reflexivity|].
        destruct (Json.lookup "clientId" data) as [v|];
          [|simpl; rewrite <- app_assoc; reflexivity].
        destruct (py_int int_of_str v); simpl; rewrite <- app_assoc; reflexivity.
Qed.

Section Traces.

Variable user : LogicalUser.t.
Variable expires_at : option datetime.
Variable B : list UserServerBinding.t.

Lemma trace_servers w servers t w' :
  Trace user expires_at B w servers t w' -> attempt_server <$> t = servers.
Proof. induction 1; rewrite ?fmap_cons; simpl; congruence. Qed.

Lemma trace_skipped w servers t w' :
  Trace user expires_at B w servers t w' ->
  Forall (fun a => is_skipped a = already_attached user B (attempt_server a)) t.
Proof. induction 1; constructor; simpl; auto. Qed.

Lemma trace_rows w servers t w' :
  Trace user expires_at B w servers t w' ->
  all_rows w' = all_rows w ++ new_bindings user expires_at t /\
  w_users w' = w_users w.
Proof.
  induction 1 as [w | w s rest t w' Hs _ IH
                  | w s rest t w' n error s1 w1 Hs Hc Herr _ IH
                  | w s rest t w' cid error s1 w1 Hs Hc Herr _ IH]; simpl.
  - rewrite app_nil_r. auto.
  - exact IH.
  - pose proof (create_client_run utcnow http isoformat_utc int_of_str
                  s (LogicalUser.name user) expires_at w) as Hrun.
    rewrite Hc in Hrun. destruct Hrun as [_ Hstep].
    pose proof (session_step_rows _ _ Hstep) as Hrows.
    destruct Hstep as (_ & Hu & _).
    destruct IH as [IHr IHu]. split; [|simpl in IHu; congruence].
    rewrite IHr. unfold all_rows in *. simpl.
    rewrite app_assoc, Hrows, <- app_assoc. reflexivity.
  - pose proof (create_client_run utcnow http isoformat_utc int_of_str
                  s (LogicalUser.name user) expires_at w) as Hrun.
    rewrite Hc in Hrun. destruct Hrun as [_ Hstep].
    pose proof (session_step_rows _ _ Hstep) as Hrows.
    destruct Hstep as (_ & Hu & _).
    destruct IH as [IHr IHu]. split; congruence.
Qed.

Lemma trace_sent w servers t w' :
  Trace user expires_at B w servers t w' ->
  exists new,
    w_sent w' = w_sent w ++ new /\
    Forall (fun a => is_skipped a = false ->
                     exists rq, rq ∈ new /\ addressed_to (attempt_server a) rq) t.
Proof.
  induction 1 as [w | w s rest t w' Hs _ IH
                  | w s rest t w' n error s1 w1 Hs Hc Herr _ IH
                  | w s rest t w' cid error s1 w1 Hs Hc Herr _ IH].
  - exists []. rewrite app_nil_r. split; [reflexivity | constructor].
  - destruct IH as (new & Hsent & Hall). exists new. split; [exact Hsent|].
    constructor; [discriminate | exact Hall].
  - destruct (create_sends s (LogicalUser.name user) expires_at w)
      as (rq & more & Hsent1 & Haddr).
    rewrite Hc in Hsent1. simpl in Hsent1.
    destruct IH as (new & Hsent & Hall). simpl in Hsent.
    exists ((rq :: more) ++ new). split; [rewrite Hsent, Hsent1, <- app_assoc; reflexivity|].
    constructor.
    + intros _. exists rq. split; [left | exact Haddr].
    + eapply Forall_impl; [exact Hall|]. intros a Ha Hna.
      destruct (Ha Hna) as (rq' & Hin & Haddr'). exists rq'.
      split; [apply elem_of_app; right; exact Hin | exact Haddr'].
  - destruct (create_sends s (LogicalUser.name user) expires_at w)
      as (rq & more & Hsent1 & Haddr).
    rewrite Hc in Hsent1. simpl in Hsent1.
    destruct IH as (new & Hsent & Hall).
    exists ((rq :: more) ++ new). split; [rewrite Hsent, Hsent1, <- app_assoc; reflexivity|].
    constructor.
    + intros _. exists rq. split; [left | exact Haddr].
    + eapply Forall_impl; [exact Hall|]. intros a Ha Hna.
      destruct (Ha Hna) as (rq' & Hin & Haddr'). exists rq'.
      split; [apply elem_of_app; right; exact Hin | exact Haddr'].
Qed.

(** The loop of the handler follows a trace. *)
Lemma attach_loop_traced (servers : list WgServer.t) :
  forall created skipped errors w,
    NoDup (WgServer.id <$> servers) ->
    (forall b, b ∈ B -> b ∈ w_bindings w) ->
    (forall b s, b ∈ all_rows w -> s ∈ servers -> attached_to user s b -> b ∈ B) ->
    match loop user expires_at servers created skipped errors w with
    | Ok (c', s', e') w' =>
        exists t,
          Trace user expires_at B w servers t w' /\
          c' = created + Z.of_nat (length (List.filter is_created t)) /\
          s' = skipped + Z.of_nat (length (List.filter is_skipped t)) /\
          e' = errors ++ reported_errors t
    | Exc _ _ => True
    end.
Proof.
  induction servers as [|s rest IH]; intros created skipped errors w Hnd HB Hinv.
  - simpl. cbv [mret M_ret ret]. exists []. simpl.
    rewrite app_nil_r, !Z.add_0_r. repeat split. constructor.
  - rewrite fmap_cons in Hnd. apply NoDup_cons in Hnd as [Hfresh Hnd].
    simpl. cbv [mbind M_bind bind mret M_ret ret db_first_binding].
    pose proof (find_attached user (w_bindings w) s) as Hfind.
    destruct (List.find _ (w_bindings w)) as [b|].
    + assert (HBs : already_attached user B s = true).
      { apply already_attached_true in Hfind as (b' & Hb' & Hatt).
        apply already_attached_true. exists b'. split; [|exact Hatt].
        apply (Hinv b' s); [unfold all_rows; apply elem_of_app; left; exact Hb'
                           | left | exact Hatt]. }
      specialize (IH created (skipped + 1) errors w Hnd HB).
      destruct (loop user expires_at rest created (skipped + 1) errors w)
        as [[[c' s'] e'] w'|]; [|exact I].
      destruct IH as (t & Ht & Hc & Hs & He).
      { intros b' s0 Hb' Hs0. apply Hinv; [exact Hb' | right; exact Hs0]. }
      exists (Skipped s :: t). split; [apply MA_skip; assumption|].
      simpl. repeat split; [exact Hc | lia | exact He].
    + assert (HBs : already_attached user B s = false).
      { destruct (already_attached user B s) eqn:E; [|reflexivity].
        apply already_attached_true in E as (b' & Hb' & Hatt).
        assert (Ht : already_attached user (w_bindings w) s = true)
          by (apply already_attached_true; exists b'; split; [apply HB, Hb' | exact Hatt]).
        congruence. }
      pose proof (create_outcome utcnow http isoformat_utc int_of_str
                    s (LogicalUser.name user) expires_at w) as Hc.
      destruct (create s (LogicalUser.name user) expires_at w)
        as [[[client_id error] s1] w1|e w1] eqn:Hrun; [|exact I].
      destruct Hc as (Hid & Hname & Ht & Hu & Hrows & Hmono & _).
      destruct (PyStr.truthy_opt error) eqn:Herr.
      * (* reported: an error message *)
        set (errors' := errors ++ _).
        specialize (IH created skipped errors' w1 Hnd).
        destruct (loop user expires_at rest created skipped errors' w1)
          as [[[c' s'] e'] w'|]; [|exact I].
        destruct IH as (t & Htr & Hcc & Hss & He).
        { intros b' Hb'. apply Hmono, HB, Hb'. }
        { intros b' s0 Hb' Hs0. rewrite Hrows in Hb'.
          apply Hinv; [exact Hb' | right; exact Hs0]. }
        eexists (Failed s _ :: t). split.
        { eapply MA_failed; [exact HBs | exact Hrun | left; exact Herr | exact Htr]. }
        simpl. repeat split; [exact Hcc | exact Hss|].
        rewrite He. subst errors'. rewrite <- app_assoc, Hname. reflexivity.
      * destruct client_id as [n|].
        -- (* created *)
           cbv [db_add_binding].
           fold (with_pending
                   (UserServerBinding.mk (LogicalUser.id user) (WgServer.id s1) n
                      (LogicalUser.name user) expires_at) w1).
           rewrite Hid.
           set (bnew := UserServerBinding.mk _ _ _ _ _).
           assert (Hrows2 : all_rows (with_pending bnew w1) = all_rows w ++ [bnew]).
           { unfold all_rows in *. simpl. rewrite app_assoc, Hrows. reflexivity. }
           specialize (IH (created + 1) skipped errors (with_pending bnew w1) Hnd).
           destruct (loop user expires_at rest (created + 1) skipped errors
                       (with_pending bnew w1)) as [[[c' s'] e'] w'|]; [|exact I].
           destruct IH as (t & Htr & Hcc & Hss & He).
           { intros b' Hb'. apply Hmono, HB, Hb'. }
           { intros b' s0 Hb' Hs0 Hatt. rewrite Hrows2 in Hb'.
             apply elem_of_app in Hb' as [Hb'|Hb'].
             - apply (Hinv b' s0); [exact Hb' | right; exact Hs0 | exact Hatt].
             - apply list_elem_of_singleton in Hb' as ->.
               destruct Hatt as [_ Hsid]. simpl in Hsid.
               exfalso. apply Hfresh. rewrite Hsid.
               apply list_elem_of_fmap. eauto. }
           exists (Created s n :: t). split.
           { eapply MA_created; [exact HBs | exact Hrun | exact Herr | exact Htr]. }
           simpl. repeat split; [lia | exact Hss | exact He].
        -- (* reported: no peer id *)
           set (errors' := errors ++ _).
           specialize (IH created skipped errors' w1 Hnd).
           destruct (loop user expires_at rest created skipped errors' w1)
             as [[[c' s'] e'] w'|]; [|exact I].
           destruct IH as (t & Htr & Hcc & Hss & He).
           { intros b' Hb'. apply Hmono, HB, Hb'. }
           { intros b' s0 Hb' Hs0. rewrite Hrows in Hb'.
             apply Hinv; [exact Hb' | right; exact Hs0]. }
           eexists (Failed s _ :: t). split.
           { eapply MA_failed; [exact HBs | exact Hrun | right; reflexivity | exact Htr]. }
           simpl. repeat split; [exact Hcc | exact Hss|].
           rewrite He. subst errors'. rewrite <- app_assoc, Hname. reflexivity.
Qed.

End Traces.


End MassAttachClaim.

